(** * marca_harvester: a shallow embedding of the news harvester

    The development follows [src/marca_harvester.py] function by function.
    Python values are kept as the code has them: [str] as [string] (the
    UTF-8 bytes of the text, [utf8_chars] giving its characters), [int] as
    [Z], [set] of urls as [gset string], [dict] records as Rocq records,
    the values of a JSON-LD block as the type [json].
    Exceptions and the two effects the script has (HTTP requests and log
    lines) are threaded through a state-and-error monad over a [world].
    Third-party libraries (requests, BeautifulSoup, extruct, dateutil,
    trafilatura, urllib) and the built-ins that read Unicode's tables
    ([float], [strptime], [str.lower], [str] of a value) are the fields of
    the class [Libs]. *)

From Stdlib Require Import ZArith Lia Ascii.
From stdpp Require Import gmap strings list.

Open Scope Z_scope.

(** ** Python strings *)

Definition nl : string := String "010"%char "".

(** [bool(s)] for a [str]. *)
Definition str_truthy (s : string) : bool :=
  match s with EmptyString => false | String _ _ => true end.

(** [s.startswith(p)]. *)
Definition startswith (s p : string) : bool := String.prefix p s.

(** [sub in s]. *)
Fixpoint str_in (sub s : string) {struct s} : bool :=
  if String.prefix sub s then true
  else match s with
       | EmptyString => false
       | String _ s' => str_in sub s'
       end.

(** [s.find(sub)], [None] for -1. *)
Fixpoint str_find (sub s : string) {struct s} : option nat :=
  if String.prefix sub s then Some 0%nat
  else match s with
       | EmptyString => None
       | String _ s' => S <$> str_find sub s'
       end.

(** [s.replace(old, new)]: occurrences are found left to right and do not
    overlap.  [skip] counts the characters of a match still to be dropped. *)
Fixpoint replace_scan (old new : string) (skip : nat) (s : string) {struct s} : string :=
  match s with
  | EmptyString => EmptyString
  | String c s' =>
      match skip with
      | S k => replace_scan old new k s'
      | O =>
          if String.prefix old s
          then new +:+ replace_scan old new (String.length old - 1) s'
          else String c (replace_scan old new 0 s')
      end
  end.

Fixpoint replace_empty (new s : string) : string :=
  match s with
  | EmptyString => new
  | String c s' => new +:+ String c (replace_empty new s')
  end.

Definition str_replace (old new s : string) : string :=
  match old with
  | EmptyString => replace_empty new s
  | String _ _ => replace_scan old new 0 s
  end.

(** [sep.join(parts)]. *)
Fixpoint str_join (sep : string) (parts : list string) : string :=
  match parts with
  | [] => ""
  | [p] => p
  | p :: rest => p +:+ sep +:+ str_join sep rest
  end.

(** [s.replace(",", ".")] on single characters. *)
Fixpoint comma_to_dot (s : string) : string :=
  match s with
  | EmptyString => EmptyString
  | String c s' => String (if Ascii.eqb c ","%char then "."%char else c) (comma_to_dot s')
  end.

(** *** Characters

    A [str] is a sequence of characters, a [string] the bytes of its UTF-8
    encoding.  In that encoding a character is a byte that is not a
    continuation byte (binary 10xxxxxx) followed by continuation bytes. *)

Definition is_cont (c : ascii) : bool :=
  let n := nat_of_ascii c in ((128 <=? n) && (n <? 192))%nat.

(** [s] begins with a continuation byte, inside a character. *)
Definition starts_cont (s : string) : bool :=
  match s with
  | EmptyString => false
  | String c _ => is_cont c
  end.

(** The characters of a text, each as its bytes. *)
Fixpoint utf8_chars (s : string) : list string :=
  match s with
  | EmptyString => []
  | String c s' =>
      match utf8_chars s' with
      | [] => [String c EmptyString]
      | ch :: rest =>
          if starts_cont s' then String c ch :: rest
          else String c EmptyString :: ch :: rest
      end
  end.

(** [str.join] with the empty separator. *)
Fixpoint str_concat (parts : list string) : string :=
  match parts with
  | [] => ""
  | p :: rest => p +:+ str_concat rest
  end.

(** [len(s)]. *)
Definition char_length (s : string) : nat := length (utf8_chars s).

(** [s[:n]]. *)
Definition char_take (n : nat) (s : string) : string := str_concat (take n (utf8_chars s)).

Fixpoint bytes (l : list nat) : string :=
  match l with
  | [] => EmptyString
  | n :: rest => String (ascii_of_nat n) (bytes rest)
  end.

(** The characters [str.isspace] accepts, which are those [str.strip()]
    removes and the regex class [\s] matches: U+0009 to U+000D, U+001C to
    U+0020, U+0085, U+00A0, U+1680, U+2000 to U+200A, U+2028, U+2029,
    U+202F, U+205F and U+3000. *)
Definition WHITE_SPACE : list string :=
  bytes <$> [ [9]; [10]; [11]; [12]; [13]; [28]; [29]; [30]; [31]; [32];
              [194; 133]; [194; 160]; [225; 154; 128];
              [226; 128; 128]; [226; 128; 129]; [226; 128; 130]; [226; 128; 131];
              [226; 128; 132]; [226; 128; 133]; [226; 128; 134]; [226; 128; 135];
              [226; 128; 136]; [226; 128; 137]; [226; 128; 138];
              [226; 128; 168]; [226; 128; 169]; [226; 128; 175];
              [226; 129; 159]; [227; 128; 128] ]%nat.

Definition is_space (ch : string) : bool := existsb (String.eqb ch) WHITE_SPACE.

Fixpoint drop_while {A} (p : A → bool) (l : list A) : list A :=
  match l with
  | [] => []
  | x :: l' => if p x then drop_while p l' else l
  end.

Fixpoint drop_while_end {A} (p : A → bool) (l : list A) : list A :=
  match l with
  | [] => []
  | x :: l' =>
      match drop_while_end p l' with
      | [] => if p x then [] else [x]
      | r => x :: r
      end
  end.

(** [s.strip()]. *)
Definition strip (s : string) : string :=
  str_concat (drop_while_end is_space (drop_while is_space (utf8_chars s))).

(** ** Exceptions and effects *)

Inductive exn :=
| HTTPError (status : option Z)   (* requests' HTTPError and the response it carries *)
| RequestException                (* connection failures and timeouts *)
| ValueError
| TypeError
| AttributeError
| RuntimeError (msg : string)
| LibraryError.                   (* anything else a library raises *)

Inductive outcome (A : Type) :=
| Ok (a : A)
| Raise (e : exn).
Arguments Ok {A} a.
Arguments Raise {A} e.

#[global] Instance exn_eq_dec : EqDecision exn.
Proof. solve_decision. Defined.

(** What [requests.Session.get] gives back once its retries are spent. *)
Inductive http_result :=
| NoResponse
| Response (status : Z) (text : string).

(** The lines [log] prints, one constructor per message of the script. *)
Inductive log_entry :=
| LogCnmvDownload (url : string) (e : exn)
| LogCnmvNoTable (nif : string)
| LogCnmvNif (nif : string) (e : exn)
| LogSkip403 (debug_name url : string)
| LogSource (name : string)
| LogHomepage (name : string)
| LogSourceError (name : string) (e : exn)
| LogSourceCount (name : string) (n : nat)
| LogTotal (n : nat)
| LogExtractError (url : string) (e : exn)
| LogArticleOk (i n : nat) (source title : string).

(** The part of the outside world a run touches: the urls requested so far
    (oldest first) and the lines logged so far. *)
Record world := { requests : list string; logged : list log_entry }.

Definition M (A : Type) : Type := world → outcome A * world.

Definition ret {A} (a : A) : M A := λ w, (Ok a, w).
Definition raise {A} (e : exn) : M A := λ w, (Raise e, w).
Definition bind {A B} (m : M A) (k : A → M B) : M B :=
  λ w, match m w with
       | (Ok a, w') => k a w'
       | (Raise e, w') => (Raise e, w')
       end.
(** [try: m  except Exception as e: h e]. *)
Definition try_except {A} (m : M A) (h : exn → M A) : M A :=
  λ w, match m w with
       | (Ok a, w') => (Ok a, w')
       | (Raise e, w') => h e w'
       end.
Definition log (l : log_entry) : M unit :=
  λ w, (Ok tt, {| requests := requests w; logged := logged w ++ [l] |}).

(** Computations that return, and do not raise, whatever the world. *)
Definition total {A} (m : M A) : Prop := ∀ w, ∃ a w', m w = (Ok a, w').

#[global] Instance M_ret : MRet M := @ret.
#[global] Instance M_bind : MBind M := λ A B k m, bind m k.

(** ** Data model *)

(** A listing item: the dict [{"url", "title", "time_hint"}], with
    ["source"] set later by [parse_all_listings]. *)
Record item := {
  url : string;
  title : string;
  time_hint : string;
  source : option string;
}.

(** An entry of [SOURCES]. *)
Record source_cfg := {
  src_name : string;
  src_listing : string;
  src_homepage : string;
  src_domain_prefix : string;
  src_max_to_fetch : Z;
}.

(** What the listing code reads off an RSS [item]: the text of its [link]
    when there is one, and the stripped text of [title] and of the first of
    [pubdate], [dc:date], [published]. *)
Record feed_item := { fi_link : option string; fi_title : option string; fi_pub : option string }.
(** The same for an Atom [entry]: [link.get("href")], [title], and
    [updated] or [published]. *)
Record feed_entry := { fe_href : option string; fe_title : option string; fe_updated : option string }.
(** An anchor picked by the HTML selectors: [a.get("href")], its stripped
    text, and the stripped text of the time element found under its parent
    ([""] when there is none). *)
Record anchor := { a_href : option string; a_text : string; a_time : string }.

(** An element as [soup.find(name, attrs)] sees it. *)
Record tag := { tag_name : string; tag_attrs : list (string * string); tag_text : string }.

(** A [<table>]: [" ".join(t.stripped_strings)] and, for each [tr] of
    [find_all("tr")], the [get_text(" ", strip=True)] of its [td] cells. *)
Record table := { stripped_text : string; trs : list (list string) }.

(** The parsed document, as the queries the script makes on it. *)
Record soup := {
  has_feed_root : bool;              (* soup.find("rss") or soup.find("feed") *)
  select_item : list feed_item;      (* soup.select("item") *)
  select_entry : list feed_entry;    (* soup.select("entry") *)
  article_anchors : list anchor;     (* soup.select("article a[href$='.html']") *)
  heading_anchors : list anchor;     (* soup.select("h2 a[href$='.html'], h3 a[href$='.html']") *)
  find_all_table : list table;       (* soup.find_all("table") *)
  select_headings : list string;     (* get_text(strip=True) of soup.select("h1, h2, strong") *)
  all_tags : list tag;               (* every element, in document order *)
  select_byline : option string;     (* stripped text of the byline select_one *)
  select_h1 : option string;         (* stripped text of select_one("h1") or ("header h1") *)
}.

(** A Python [float]: the decimal [mantissa * 10 ^ exponent], an infinity
    or a NaN.  Rounding to a binary float is not modelled. *)
Inductive pyfloat :=
| Dec (mantissa exponent : Z)
| Inf (negative : bool)
| NaN.

(** A value of a JSON-LD block, as [json.loads] builds it: [None], a
    [bool], an [int], a [float], a [str], a [list] or a [dict] (its items
    in order, each key once). *)
#[warnings="-register-all"] Inductive json :=
| JNull
| JBool (b : bool)
| JInt (n : Z)
| JFloat (x : pyfloat)
| JStr (s : string)
| JList (l : list json)
| JObj (items : list (string * json)).

(** [bool(v)]. *)
Definition truthy (v : json) : bool :=
  match v with
  | JNull => false
  | JBool b => b
  | JInt n => negb (n =? 0)
  | JFloat (Dec m _) => negb (m =? 0)
  | JFloat _ => true
  | JStr s => str_truthy s
  | JList l => match l with [] => false | _ => true end
  | JObj items => match items with [] => false | _ => true end
  end.

(** [a or b]. *)
Definition py_or (a b : json) : json := if truthy a then a else b.

(** [d.get(key)], [None] when the key is missing. *)
Fixpoint dict_get (key : string) (items : list (string * json)) : json :=
  match items with
  | [] => JNull
  | (k, v) :: rest => if String.eqb k key then v else dict_get key rest
  end.

(** A [datetime]: wall-clock microseconds and, when aware, the offset of
    its zone in microseconds. *)
Record datetime := { dt_wall : Z; dt_offset : option Z }.

(** The dict [extract_article] returns, with ["source"] set by [main].
    The title, the author and the content are whatever the JSON-LD block
    holds under [headline], [author] and [articleBody] when that is
    truthy, and text otherwise. *)
Record article := {
  art_url : string;
  art_title : json;
  art_author : json;
  art_published : option string;
  art_content : json;
  art_source : string;
}.

(** A row and a block of the short-positions table. *)
Record row := { holder : string; net_short_pct : pyfloat; date : string }.
Record block := { nif : string; issuer : string; block_url : string; rows : list row }.

(** ** Libraries and configuration *)

Class Libs := {
  (** the answer of the session to the [k]-th request of the run *)
  session_get : nat → string → http_result;
  (** [urllib.parse.urljoin], on the references it resolves (it raises
      [ValueError] on the few it takes for malformed, an unclosed bracket
      in the host part for one) *)
  urljoin : string → string → string;
  (** [BeautifulSoup(text, "lxml")] *)
  BeautifulSoup : string → soup;
  (** [re.findall] with the pattern of [extract_urls_regex]: the values of
      the double-quoted href attributes that end in .html *)
  findall_html_hrefs : string → list string;
  (** [str.lower] *)
  lower : string → string;
  (** [unicodedata.normalize('NFKD', s)] without its combining characters *)
  nfkd_strip : string → string;
  (** the [json-ld] list of [extruct.extract(html, base_url=..., ...)] *)
  extruct_jsonld : string → string → outcome (list json);
  (** [dateutil.parser.parse] *)
  dateparser_parse : string → outcome (option datetime);
  (** [tz.gettz]: a zone, when the name is known, as its offset at an
      instant (both in microseconds) *)
  tz_gettz : string → option (Z → Z);
  (** the offset of the system's local zone at an instant *)
  local_zone : Z → Z;
  (** [datetime.isoformat] *)
  isoformat : datetime → string;
  (** the instant a naive wall-clock time denotes in the system's zone *)
  naive_instant : Z → Z;
  (** the [.3f] format of a float *)
  format_3f : pyfloat → string;
  (** [trafilatura.extract(html, url=url, ...)] *)
  trafilatura_extract : string → string → option string;
  (** the clock, read after [k] requests: microseconds since the epoch *)
  clock : nat → Z;
  (** [float(s)] for a [str]; [None] for the [ValueError] it raises on a
      text that is no number *)
  py_float : string → option pyfloat;
  (** [datetime.strptime(s, "%d/%m/%Y").date()] for a [str], as (year,
      month, day); [None] for the [ValueError] it raises on a text that is
      no such date *)
  strptime_dmY : string → option (Z * Z * Z);
  (** [str(v)] for a value that is not a [str] *)
  py_repr : json → string;
}.

(** The values read from [config.yaml]. *)
Class Config := {
  SOURCES : list source_cfg;
  CNMV_NIFS : list string;
  CNMV_LANG : string;
  hours_recent : option Z;          (* CFG.get("hours_recent") *)
}.

(** ** [float] and [strptime] on texts whose digits are 0 to 9

    The two built-ins read every Unicode decimal digit and are fields of
    [Libs].  The functions of this section give them on the texts whose
    digits are the ASCII ones; the sample runs below use them. *)

Definition is_digit (c : ascii) : bool :=
  let n := nat_of_ascii c in ((48 <=? n) && (n <=? 57))%nat.

Definition digit_val (c : ascii) : Z := Z.of_nat (nat_of_ascii c) - 48.

(** After a digit: more digits, each optionally preceded by one underscore.
    Returns the value read so far, the number of digits read and the rest. *)
Fixpoint digit_run (acc count : Z) (s : string) {struct s} : Z * Z * string :=
  match s with
  | EmptyString => (acc, count, s)
  | String c s' =>
      if is_digit c then digit_run (acc * 10 + digit_val c) (count + 1) s'
      else if Ascii.eqb c "_"%char then
        match s' with
        | String d s'' =>
            if is_digit d then digit_run (acc * 10 + digit_val d) (count + 1) s''
            else (acc, count, s)
        | EmptyString => (acc, count, s)
        end
      else (acc, count, s)
  end.

(** [digit (["_"] digit)*], continuing the number [acc]. *)
Definition digitpart (acc : Z) (s : string) : option (Z * Z * string) :=
  match s with
  | String c s' => if is_digit c then Some (digit_run (acc * 10 + digit_val c) 1 s') else None
  | EmptyString => None
  end.

Definition is_e (c : ascii) : bool := Ascii.eqb c "e"%char || Ascii.eqb c "E"%char.

(** [[("e" | "E") ["+" | "-"] digitpart]] and then the end of the text. *)
Definition exponent_end (s : string) : option Z :=
  match s with
  | EmptyString => Some 0
  | String c s' =>
      if is_e c then
        let '(neg, body) :=
          match s' with
          | String "-"%char r => (true, r)
          | String "+"%char r => (false, r)
          | _ => (false, s')
          end in
        match digitpart 0 body with
        | Some (e, _, EmptyString) => Some (if neg : bool then - e else e)
        | _ => None
        end
      else None
  end.

(** The fraction and exponent after the integer part [int_val] (or after
    nothing, when [have_int] is false). *)
Definition after_int (have_int : bool) (int_val : Z) (s : string) : option (Z * Z) :=
  match s with
  | String "."%char s' =>
      match digitpart int_val s' with
      | Some (m, k, rest) => e ← exponent_end rest; Some (m, e - k)
      | None => if have_int then e ← exponent_end s'; Some (int_val, e) else None
      end
  | _ => if have_int then e ← exponent_end s; Some (int_val, e) else None
  end.

Fixpoint lower_ascii (s : string) : string :=
  match s with
  | EmptyString => EmptyString
  | String c s' =>
      let n := nat_of_ascii c in
      String (if ((65 <=? n) && (n <=? 90))%nat then ascii_of_nat (n + 32) else c)
             (lower_ascii s')
  end.

Definition unsigned_float (s : string) : option pyfloat :=
  let l := lower_ascii s in
  if String.eqb l "inf" || String.eqb l "infinity" then Some (Inf false)
  else if String.eqb l "nan" then Some NaN
  else match digitpart 0 s with
       | Some (i, _, rest) => '(m, e) ← after_int true i rest; Some (Dec m e)
       | None => '(m, e) ← after_int false 0 s; Some (Dec m e)
       end.

Definition negate (x : pyfloat) : pyfloat :=
  match x with
  | Dec m e => Dec (- m) e
  | Inf b => Inf (negb b)
  | NaN => NaN
  end.

(** The white space [float] skips at both ends: that of [str.strip()]
    without U+001C to U+001F. *)
Definition is_float_space (ch : string) : bool :=
  is_space ch && negb (existsb (String.eqb ch) (bytes <$> [[28]; [29]; [30]; [31]]%nat)).

(** [float(s)]: white space around, a sign, then a decimal literal,
    [inf], [infinity] or [nan]; [None], the [ValueError], otherwise. *)
Definition ascii_float (s : string) : option pyfloat :=
  let body := str_concat (drop_while_end is_float_space
                            (drop_while is_float_space (utf8_chars s))) in
  match body with
  | String "-"%char r => negate <$> unsigned_float r
  | String "+"%char r => unsigned_float r
  | _ => unsigned_float body
  end.

Definition is_digit19 (c : ascii) : bool :=
  let n := nat_of_ascii c in ((49 <=? n) && (n <=? 57))%nat.

Fixpoint first_some {A B} (f : A → option B) (l : list A) : option B :=
  match l with
  | [] => None
  | a :: rest => match f a with Some b => Some b | None => first_some f rest end
  end.

(** The alternatives of the [%d] group, [3[0-1]|[1-2]\d|0[1-9]|[1-9]| [1-9]],
    that match at the start of [s], in the order the regex tries them. *)
Definition day_alternatives (s : string) : list (Z * string) :=
  match s with
  | String a r =>
      match r with
      | String b r' =>
          (if Ascii.eqb a "3" && (Ascii.eqb b "0" || Ascii.eqb b "1")
           then [(30 + digit_val b, r')] else []) ++
          (if (Ascii.eqb a "1" || Ascii.eqb a "2") && is_digit b
           then [(digit_val a * 10 + digit_val b, r')] else []) ++
          (if Ascii.eqb a "0" && is_digit19 b then [(digit_val b, r')] else [])
      | EmptyString => []
      end ++
      (if is_digit19 a then [(digit_val a, r)] else []) ++
      match r with
      | String b r' => if Ascii.eqb a " " && is_digit19 b then [(digit_val b, r')] else []
      | EmptyString => []
      end
  | EmptyString => []
  end.

(** The same for [%m], [1[0-2]|0[1-9]|[1-9]]. *)
Definition month_alternatives (s : string) : list (Z * string) :=
  match s with
  | String a r =>
      match r with
      | String b r' =>
          (if Ascii.eqb a "1" && (Ascii.eqb b "0" || Ascii.eqb b "1" || Ascii.eqb b "2")
           then [(10 + digit_val b, r')] else []) ++
          (if Ascii.eqb a "0" && is_digit19 b then [(digit_val b, r')] else [])
      | EmptyString => []
      end ++
      (if is_digit19 a then [(digit_val a, r)] else [])
  | EmptyString => []
  end.

(** [%Y], four digits, and then the end of the text. *)
Definition year_end (s : string) : option Z :=
  match s with
  | String a (String b (String c (String d EmptyString))) =>
      if is_digit a && is_digit b && is_digit c && is_digit d
      then Some (((digit_val a * 10 + digit_val b) * 10 + digit_val c) * 10 + digit_val d)
      else None
  | _ => None
  end.

Definition after_slash {A} (k : string → option A) (s : string) : option A :=
  match s with
  | String "/"%char r => k r
  | _ => None
  end.

(** The match of the whole text against the regex of ["%d/%m/%Y"]:
    day, month, year. *)
Definition match_dmY (s : string) : option (Z * Z * Z) :=
  first_some (λ '(d, r1),
    after_slash (λ r2,
      first_some (λ '(m, r3),
        after_slash (λ r4, y ← year_end r4; Some (d, m, y)) r3)
      (month_alternatives r2)) r1)
  (day_alternatives s).

Definition is_leap (y : Z) : bool :=
  (y mod 4 =? 0) && (negb (y mod 100 =? 0) || (y mod 400 =? 0)).

Definition days_in_month (y m : Z) : Z :=
  if m =? 2 then (if is_leap y then 29 else 28)
  else if (m =? 4) || (m =? 6) || (m =? 9) || (m =? 11) then 30
  else 31.

(** [datetime.strptime(s, "%d/%m/%Y").date()] as (year, month, day);
    [None], the [ValueError], when the text does not match or is no
    calendar date. *)
Definition ascii_strptime_dmY (s : string) : option (Z * Z * Z) :=
  match match_dmY s with
  | Some (d, m, y) =>
      if (1 <=? y) && (d <=? days_in_month y m) then Some (y, m, d) else None
  | None => None
  end.

Definition digit_char (d : Z) : ascii := ascii_of_nat (48 + Z.to_nat (d mod 10)).

Definition pad2 (n : Z) : string :=
  String (digit_char (n / 10)) (String (digit_char n) EmptyString).

Definition pad4 (n : Z) : string := pad2 (n / 100) +:+ pad2 (n mod 100).

(** [date.isoformat()]. *)
Definition date_isoformat (d : Z * Z * Z) : string :=
  let '(y, m, d) := d in pad4 y +:+ "-" +:+ pad2 m +:+ "-" +:+ pad2 d.

(** ** The script *)

Section Script.
Context `{!Libs} `{!Config}.

(** [http_get]: the request is recorded, 403 and the statuses
    [raise_for_status] rejects become [HTTPError], otherwise [res.text]. *)
Definition http_get (url : string) : M string :=
  λ w, let w' := {| requests := requests w ++ [url]; logged := logged w |} in
       match session_get (length (requests w)) url with
       | NoResponse => (Raise RequestException, w')
       | Response status text =>
           if status =? 403 then (Raise (HTTPError (Some 403)), w')
           else if (400 <=? status) && (status <? 600)
                then (Raise (HTTPError (Some status)), w')
                else (Ok text, w')
       end.

Definition norm (s : string) : string :=
  if str_truthy s then lower (nfkd_strip s) else "".

Definition non_article (u : string) : bool :=
  existsb (λ x, str_in x u) ["/album/"; "/video/"; "/fotogaleria/"].

(** The loop of [extract_urls_regex] over the hrefs found, filling [urls]. *)
Fixpoint regex_urls (base domain_prefix : string) (hrefs : list string)
    (urls : gset string) : gset string :=
  match hrefs with
  | [] => urls
  | href :: rest =>
      let u := urljoin base href in
      if startswith u domain_prefix && negb (non_article u)
      then regex_urls base domain_prefix rest ({[u]} ∪ urls)
      else regex_urls base domain_prefix rest urls
  end.

(** [list(urls)]: the set in the order the interpreter iterates it. *)
Definition extract_urls_regex (html base domain_prefix : string) : list string :=
  elements (regex_urls base domain_prefix (findall_html_hrefs html) ∅).

(** *** CNMV scraper *)

Definition CNMV_BASE_URL : string :=
  "https://www.cnmv.es/Portal/Consultas/ee/posicionescortas".

Definition MARKER_EN : string := "Outstanding net short positions".
Definition MARKER_ES : string := "Notificaciones vivas iguales o superiores al 0,5%".

Definition cnmv_url (nif : string) (lang : option string) : string :=
  let url := CNMV_BASE_URL +:+ "?nif=" +:+ nif in
  let l := match lang with
           | Some l => if str_truthy l then l else CNMV_LANG
           | None => CNMV_LANG
           end in
  if str_truthy l then url +:+ "&lang=" +:+ l else url.

(** The first table whose flattened text holds one of the two markers. *)
Fixpoint find_table (ts : list table) : option table :=
  match ts with
  | [] => None
  | t :: rest =>
      if str_in MARKER_EN (stripped_text t) || str_in MARKER_ES (stripped_text t)
      then Some t
      else find_table rest
  end.

(** The first heading that is not empty and is not the page's own title. *)
Fixpoint find_issuer (texts : list string) : string :=
  match texts with
  | [] => ""
  | text :: rest =>
      if negb (str_truthy text) then find_issuer rest
      else
        let low := lower text in
        if str_in "posiciones cortas" low || str_in "short positions" low
        then find_issuer rest
        else text
  end.

(** The body of the loop over the rows: [None] is [continue]. *)
Definition parse_tr (tds : list string) : option row :=
  match tds with
  | holder :: pct_raw :: date_raw :: _ =>
      match py_float (comma_to_dot pct_raw) with
      | None => None
      | Some pct =>
          let date_iso :=
            match strptime_dmY date_raw with
            | Some dt => date_isoformat dt
            | None => date_raw
            end in
          Some {| holder := holder; net_short_pct := pct; date := date_iso |}
      end
  | _ => None
  end.

(** [for tr in trs: ...  rows.append(...)]. *)
Fixpoint parse_trs (trs : list (list string)) (rows : list row) : list row :=
  match trs with
  | [] => rows
  | tr :: rest =>
      match parse_tr tr with
      | None => parse_trs rest rows
      | Some r => parse_trs rest (rows ++ [r])
      end
  end.

(** [table.find_all("tr")[1:]] and the loop over it. *)
Definition table_rows (t : table) : list row := parse_trs (tail (trs t)) [].

Definition get_cnmv_short_positions (nif : string) (lang : option string)
    : M (option block) :=
  let url := cnmv_url nif lang in
  fetched ← try_except (text ← http_get url; mret (Some text))
                       (λ e, log (LogCnmvDownload url e) ;; mret None);
  match fetched with
  | None => mret None
  | Some text =>
      let soup := BeautifulSoup text in
      match find_table (find_all_table soup) with
      | None =>
          log (LogCnmvNoTable nif) ;;
          mret (Some {| nif := nif; issuer := ""; block_url := url; rows := [] |})
      | Some t =>
          let issuer := find_issuer (select_headings soup) in
          mret (Some {| nif := nif; issuer := issuer; block_url := url;
                        rows := table_rows t |})
      end
  end.

Definition dq : string := String (ascii_of_nat 34) EmptyString.
(** [attr="value"] inside a tag. *)
Definition att (name value : string) : string := " " +:+ name +:+ "=" +:+ dq +:+ value +:+ dq.

Definition TD_LEFT : string := "border-bottom:1px solid #ccc;padding:4px 8px;text-align:left;".
Definition TD_RIGHT : string := "border-bottom:1px solid #ccc;padding:4px 8px;text-align:right;".

Definition html_row (r : row) : string :=
  "<tr>"
  +:+ "<td" +:+ att "style" "padding:4px 8px;" +:+ ">" +:+ holder r +:+ "</td>"
  +:+ "<td" +:+ att "style" "padding:4px 8px;text-align:right;" +:+ ">"
      +:+ format_3f (net_short_pct r) +:+ "</td>"
  +:+ "<td" +:+ att "style" "padding:4px 8px;" +:+ ">" +:+ date r +:+ "</td>"
  +:+ "</tr>".

(** The strings one block appends to [parts]. *)
Definition html_block (b : block) : list string :=
  let issuer := strip (issuer b) in
  let title := if str_truthy issuer then issuer +:+ " (" +:+ nif b +:+ ")" else nif b in
  [ "<h3" +:+ att "style" "margin:16px 0 4px 0;" +:+ ">" +:+ title +:+ "</h3>";
    "<div" +:+ att "style" "font-size:12px;color:#666;margin-bottom:4px;" +:+ ">"
      +:+ "Fuente: <a" +:+ att "href" (block_url b) +:+ ">" +:+ block_url b +:+ "</a></div>" ]
  ++ match rows b with
     | [] => [ "<p" +:+ att "style" "font-size:13px;color:#666;" +:+ ">"
               +:+ "Sin posiciones vivas publicadas.</p>" ]
     | rs =>
         [ "<table" +:+ att "style" "border-collapse:collapse;font-size:13px;margin-bottom:12px;"
           +:+ ">" +:+ "<thead><tr>"
           +:+ "<th" +:+ att "style" TD_LEFT +:+ ">Titular</th>"
           +:+ "<th" +:+ att "style" TD_RIGHT +:+ ">% capital</th>"
           +:+ "<th" +:+ att "style" TD_LEFT +:+ ">Fecha posición</th>"
           +:+ "</tr></thead><tbody>" ]
         ++ (html_row <$> rs)
         ++ [ "</tbody></table>" ]
     end.

Definition build_html_cnmv (blocks : list block) : string :=
  match blocks with
  | [] => ""
  | _ =>
      str_join nl
        ([ "<hr" +:+ att "style" "margin:32px 0;" +:+ ">";
           "<h2" +:+ att "style" "margin-bottom:8px;" +:+ ">"
             +:+ "Posiciones cortas CNMV (≥ 0,5%)</h2>" ]
         ++ mjoin (html_block <$> blocks))
  end.

(** *** Listings *)

Inductive tier := FeedTier | HtmlTier | RegexTier.

#[global] Instance tier_eq_dec : EqDecision tier.
Proof. solve_decision. Defined.

(** [len(items) >= max_to_fetch]. *)
Definition reached (max_to_fetch : Z) (items : list item) : bool :=
  max_to_fetch <=? Z.of_nat (length items).

(** The shape all four collecting loops share:
    [for c in cands: <continue unless mk c>; items.append(it);
     if len(items) >= max_to_fetch: break]. *)
Fixpoint collect {C} (mk : C → option item) (max_to_fetch : Z) (cands : list C)
    (items : list item) : list item :=
  match cands with
  | [] => items
  | c :: rest =>
      match mk c with
      | None => collect mk max_to_fetch rest items
      | Some it =>
          let items := items ++ [it] in
          if reached max_to_fetch items then items
          else collect mk max_to_fetch rest items
      end
  end.

Definition text_of (t : option string) : string := default "" t.

Definition rss_item (url : string) (it : feed_item) : option item :=
  let u := text_of (fi_link it) in
  if str_truthy u
  then Some {| url := if startswith u "http" then u else urljoin url u;
               title := text_of (fi_title it);
               time_hint := text_of (fi_pub it);
               source := None |}
  else None.

Definition atom_item (url : string) (e : feed_entry) : option item :=
  let href := text_of (fe_href e) in
  if str_truthy href
  then Some {| url := if startswith href "http" then href else urljoin url href;
               title := text_of (fe_title e);
               time_hint := text_of (fe_updated e);
               source := None |}
  else None.

Definition html_item (url domain_prefix : string) (a : anchor) : option item :=
  let href := text_of (a_href a) in
  if str_truthy href
  then let url_abs := urljoin url href in
       if startswith url_abs domain_prefix
       then Some {| url := url_abs; title := a_text a; time_hint := a_time a;
                    source := None |}
       else None
  else None.

Definition regex_item (u : string) : option item :=
  Some {| url := u; title := ""; time_hint := ""; source := None |}.

(** Step 1, entered when the document has an [rss] or [feed] element. *)
Definition feed_tier (url : string) (max_to_fetch : Z) (soup : soup) : list item :=
  let items := collect (rss_item url) max_to_fetch (select_item soup) [] in
  match items with
  | [] => collect (atom_item url) max_to_fetch (select_entry soup) items
  | _ => items
  end.

(** Step 2: [select(article ...) or select(h2 ..., h3 ...)]. *)
Definition html_candidates (soup : soup) : list anchor :=
  match article_anchors soup with
  | [] => heading_anchors soup
  | l => l
  end.

Definition html_tier (url domain_prefix : string) (max_to_fetch : Z) (soup : soup)
    (items : list item) : list item :=
  collect (html_item url domain_prefix) max_to_fetch (html_candidates soup) items.

(** Step 3. *)
Definition regex_tier (html url domain_prefix : string) (max_to_fetch : Z)
    (items : list item) : list item :=
  collect regex_item max_to_fetch (extract_urls_regex html url domain_prefix) items.

(** [items] after step 1 and after step 2. *)
Definition after_feed (html url : string) (max_to_fetch : Z) : list item :=
  let soup := BeautifulSoup html in
  if has_feed_root soup then feed_tier url max_to_fetch soup else [].

Definition after_html (html url domain_prefix : string) (max_to_fetch : Z) : list item :=
  let items := after_feed html url max_to_fetch in
  match items with
  | [] => html_tier url domain_prefix max_to_fetch (BeautifulSoup html) items
  | _ => items
  end.

(** The three steps of [parse_listing_document] on the fetched text: the
    tiers entered, in order, and [items] before the dedup. *)
Definition cascade (html url domain_prefix : string) (max_to_fetch : Z)
    : list tier * list item :=
  let soup := BeautifulSoup html in
  let '(entered, items) :=
    if has_feed_root soup
    then ([FeedTier], feed_tier url max_to_fetch soup)
    else ([], []) in
  let '(entered, items) :=
    match items with
    | [] => (entered ++ [HtmlTier], html_tier url domain_prefix max_to_fetch soup items)
    | _ => (entered, items)
    end in
  if (Z.of_nat (length items) <? 5)
  then (entered ++ [RegexTier], regex_tier html url domain_prefix max_to_fetch items)
  else (entered, items).

(** The dedup loop that ends [parse_listing_document]. *)
Fixpoint dedup_capped (max_to_fetch : Z) (items : list item) (seen : gset string)
    (out : list item) : list item :=
  match items with
  | [] => out
  | it :: rest =>
      let u := url it in
      if bool_decide (u ∈ seen) then dedup_capped max_to_fetch rest seen out
      else
        let out := out ++ [it] in
        if reached max_to_fetch out then out
        else dedup_capped max_to_fetch rest ({[u]} ∪ seen) out
  end.

(** Everything after the fetch. *)
Definition listing_items (html url domain_prefix : string) (max_to_fetch : Z) : list item :=
  dedup_capped max_to_fetch (cascade html url domain_prefix max_to_fetch).2 ∅ [].

Definition parse_listing_document (url domain_prefix : string) (max_to_fetch : Z)
    (debug_name : string) : M (list item) :=
  fetched ← try_except (html ← http_get url; mret (Some html))
                       (λ e, match e with
                             | HTTPError (Some 403) =>
                                 log (LogSkip403 debug_name url) ;; mret None
                             | _ => raise e
                             end);
  match fetched with
  | None => mret []
  | Some html => mret (listing_items html url domain_prefix max_to_fetch)
  end.

Definition set_source (name : string) (it : item) : item :=
  {| url := url it; title := title it; time_hint := time_hint it; source := Some name |}.

(** The body of the loop over [SOURCES]: the items of one source. *)
Definition source_items (src : source_cfg) : M (list item) :=
  let name := src_name src in
  log (LogSource name) ;;
  items ← try_except
    (items ← parse_listing_document (src_listing src) (src_domain_prefix src)
               (src_max_to_fetch src) (lower name +:+ "_listing");
     if bool_decide (length items = 0%nat) && negb (String.eqb (src_homepage src) (src_listing src))
     then log (LogHomepage name) ;;
          parse_listing_document (src_homepage src) (src_domain_prefix src)
            (src_max_to_fetch src) (lower name +:+ "_home")
     else mret items)
    (λ e, log (LogSourceError name e) ;; mret []);
  log (LogSourceCount name (length items)) ;;
  mret (set_source name <$> items).

Fixpoint all_source_items (srcs : list source_cfg) (all_items : list item) : M (list item) :=
  match srcs with
  | [] => mret all_items
  | src :: rest =>
      items ← source_items src;
      all_source_items rest (all_items ++ items)
  end.

(** The global dedup. *)
Fixpoint dedup_global (all_items : list item) (dedup : gset string) (out : list item)
    : list item :=
  match all_items with
  | [] => out
  | it :: rest =>
      if bool_decide (url it ∈ dedup) then dedup_global rest dedup out
      else dedup_global rest ({[url it]} ∪ dedup) (out ++ [it])
  end.

Definition parse_all_listings : M (list item) :=
  all_items ← all_source_items SOURCES [];
  let out := dedup_global all_items ∅ [] in
  log (LogTotal (length out)) ;;
  mret out.

(** *** Articles *)

(** [t == "NewsArticle" or (isinstance(t, list) and "NewsArticle" in t)]. *)
Definition is_news_article (t : json) : bool :=
  match t with
  | JStr t => String.eqb t "NewsArticle"
  | JList ts =>
      existsb (λ x, match x with JStr s => String.eqb s "NewsArticle" | _ => false end) ts
  | _ => false
  end.

(** The loop over the blocks: the first one typed [NewsArticle].  A block
    that is no dict has no [get] and raises [AttributeError]. *)
Fixpoint first_news_article (jsonld : list json) : outcome (option (list (string * json))) :=
  match jsonld with
  | [] => Ok None
  | JObj block :: rest =>
      if is_news_article (dict_get "@type" block) then Ok (Some block)
      else first_news_article rest
  | _ :: _ => Raise AttributeError
  end.

(** The first block typed [NewsArticle]; [None] when there is none or
    when extruct or the loop raises. *)
Definition extract_jsonld (html_text url : string) : option (list (string * json)) :=
  match extruct_jsonld html_text url with
  | Ok jsonld =>
      match first_news_article jsonld with
      | Ok block => block
      | Raise _ => None
      end
  | Raise _ => None
  end.

(** [dt.astimezone(target)] for an aware [dt]; the local zone when
    [target] is [None]. *)
Definition astimezone (instant : Z) (target : option (Z → Z)) : datetime :=
  let off := match target with Some zone => zone instant | None => local_zone instant end in
  {| dt_wall := instant + off; dt_offset := Some off |}.

Definition normalize_datetime (dt_str : option string) (tzname : string) : option datetime :=
  if str_truthy (text_of dt_str) then
    match dateparser_parse (text_of dt_str) with
    | Ok (Some dt) =>
        let off := match dt_offset dt with Some off => off | None => 0 end in
        Some (astimezone (dt_wall dt - off) (tz_gettz tzname))
    | Ok None => None
    | Raise _ => None
    end
  else None.

(** [tag.get(key)]. *)
Fixpoint attr_get (key : string) (attrs : list (string * string)) : option string :=
  match attrs with
  | [] => None
  | (k, v) :: rest => if String.eqb k key then Some v else attr_get key rest
  end.

Definition tag_matches (name : string) (attrs : list (string * string)) (t : tag) : bool :=
  String.eqb (tag_name t) name
  && forallb (λ '(k, v), bool_decide (attr_get k (tag_attrs t) = Some v)) attrs.

(** [soup.find(name, attrs)]: the first element that matches. *)
Definition soup_find (soup : soup) (name : string) (attrs : list (string * string))
    : option tag :=
  List.find (tag_matches name attrs) (all_tags soup).

(** [a or b] on optional text. *)
Definition or_text (a b : option string) : option string :=
  if str_truthy (text_of a) then a else b.

Definition PUBLISHED_SELECTORS : list (string * list (string * string)) :=
  [ ("meta", [("property", "article:published_time")]);
    ("meta", [("name", "date")]);
    ("meta", [("itemprop", "datePublished")]);
    ("meta", [("name", "pubdate")]);
    ("meta", [("property", "og:updated_time")]);
    ("time", []) ].

Fixpoint published_from (soup : soup) (tzname : string)
    (sels : list (string * list (string * string))) : option datetime :=
  match sels with
  | [] => None
  | (name, attrs) :: rest =>
      match soup_find soup name attrs with
      | None => published_from soup tzname rest
      | Some tag =>
          let content := or_text (or_text (attr_get "content" (tag_attrs tag))
                                          (attr_get "datetime" (tag_attrs tag)))
                                 (Some (tag_text tag)) in
          match normalize_datetime content tzname with
          | Some dt => Some dt
          | None => published_from soup tzname rest
          end
      end
  end.

Definition extract_published_from_html (soup : soup) (tzname : string) : option datetime :=
  published_from soup tzname PUBLISHED_SELECTORS.

(** The argument [extract_article] gives [normalize_datetime]: a text is
    passed as it is.  Any other value yields [None] there, a falsy one at
    the first test and a truthy one because the parser raises [TypeError]
    on it inside the [try]. *)
Definition date_text (v : json) : option string :=
  match v with
  | JStr s => Some s
  | _ => None
  end.

Definition pick_name (x : json) : json :=
  match x with
  | JObj items => py_or (dict_get "name" items) (py_or (dict_get "@id" items) (JStr ""))
  | JStr s => JStr s
  | _ => JStr ""
  end.

(** The texts of a list of values; [TypeError] when one of them is no
    [str], as [str.join] raises it. *)
Fixpoint texts_of (names : list json) : outcome (list string) :=
  match names with
  | [] => Ok []
  | JStr s :: rest =>
      match texts_of rest with
      | Ok l => Ok (s :: l)
      | Raise e => Raise e
      end
  | _ :: _ => Raise TypeError
  end.

(** [", ".join(names)]. *)
Definition join_names (names : list json) : outcome string :=
  match texts_of names with
  | Ok l => Ok (str_join ", " l)
  | Raise e => Raise e
  end.

(** The author the JSON-LD block gives: the first part of the author code
    of [extract_article]. *)
Definition jsonld_author (auth : json) : outcome json :=
  match auth with
  | JList l =>
      match join_names (List.filter truthy (pick_name <$> l)) with
      | Ok author => Ok (JStr author)
      | Raise e => Raise e
      end
  | _ => Ok (pick_name auth)
  end.

Definition AUTHOR_SELECTORS : list (string * list (string * string)) :=
  [ ("meta", [("name", "author")]);
    ("meta", [("property", "article:author")]);
    ("meta", [("name", "byl")]);
    ("meta", [("name", "dc.creator")]);
    ("meta", [("name", "parsely-author")]) ].

(** The loop over the meta selectors: [Some] when it breaks with an
    author, [None] when it runs to its end. *)
Fixpoint author_from_meta (soup : soup) (sels : list (string * list (string * string)))
    : option string :=
  match sels with
  | [] => None
  | (name, attrs) :: rest =>
      match soup_find soup name attrs with
      | Some tag =>
          match attr_get "content" (tag_attrs tag) with
          | Some content =>
              if str_truthy content then Some (strip content)
              else author_from_meta soup rest
          | None => author_from_meta soup rest
          end
      | None => author_from_meta soup rest
      end
  end.

(** The author the page gives when the JSON-LD block gives none: the meta
    elements, then the byline. *)
Definition html_author (soup : soup) : string :=
  let author := text_of (author_from_meta soup AUTHOR_SELECTORS) in
  if str_truthy author then author
  else text_of (select_byline soup).

(** An outcome computed without touching the world. *)
Definition lift {A} (r : outcome A) : M A := λ w, (r, w).

Definition extract_article (url tzname : string) : M article :=
  html ← try_except (http_get url)
           (λ e, match e with
                 | HTTPError (Some 403) => raise (RuntimeError ("403 al abrir artículo: " +:+ url))
                 | _ => raise e
                 end);
  let meta := default [] (extract_jsonld html url) in
  let published :=
    normalize_datetime
      (date_text (py_or (dict_get "datePublished" meta) (dict_get "dateModified" meta)))
      tzname in
  let headline := dict_get "headline" meta in
  let article_body := dict_get "articleBody" meta in
  author ← lift (jsonld_author (dict_get "author" meta));
  let soup := BeautifulSoup html in
  let author := if truthy author then author else JStr (html_author soup) in
  let article_body :=
    if truthy article_body then article_body
    else JStr (strip (text_of (trafilatura_extract html url))) in
  let headline :=
    if truthy headline then headline else JStr (text_of (select_h1 soup)) in
  let published :=
    match published with
    | Some dt => Some dt
    | None => extract_published_from_html soup tzname
    end in
  mret {| art_url := url;
          art_title := py_or headline (JStr "");
          art_author := py_or author (JStr "");
          art_published := isoformat <$> published;
          art_content := py_or article_body (JStr "");
          art_source := "" |}.

(** [is_recent], with [datetime.now(target)] read as the instant [now]. *)
Definition is_recent (now : Z) (dt_iso : option string) (tzname : string)
    (hours : option Z) : bool :=
  let hours :=
    match hours with
    | Some h => if h =? 0 then default 24 hours_recent else h
    | None => default 24 hours_recent
    end in
  if negb (str_truthy (text_of dt_iso)) then false
  else
    match dateparser_parse (text_of dt_iso) with
    | Ok (Some dt) =>
        let instant :=
          match dt_offset dt with
          | Some off => dt_wall dt - off
          | None => naive_instant (dt_wall dt)
          end in
        match tz_gettz tzname with
        | Some _ => (now - instant) <=? hours * 3600 * 1000000
        | None => false      (* naive now minus aware dt: TypeError *)
        end
    | Ok None => false       (* None.astimezone: AttributeError *)
    | Raise _ => false
    end.

(** *** [main] *)

(** The [keyword] argument: nothing, one text, or a collection of texts
    ([None] entries of the collection read as the empty text). *)
Inductive keyword_arg :=
| KwNone
| KwOne (k : string)
| KwMany (ks : list string).

(** [kw_list]: [None] when [keyword] is falsy. *)
Definition make_kw_list (keyword : keyword_arg) : option (list string) :=
  match keyword with
  | KwNone => None
  | KwOne k => if str_truthy k then Some [norm k] else None
  | KwMany [] => None
  | KwMany ks => Some (norm <$> List.filter str_truthy ks)
  end.

(** [if kw_list:]. *)
Definition kw_active (kw_list : option (list string)) : bool :=
  match kw_list with
  | Some (_ :: _) => true
  | _ => false
  end.

Definition kw_hits_item (kw_list : list string) (it : item) : bool :=
  existsb (λ k, str_in k (norm (title it)) || str_in k (norm (url it))) kw_list.

Definition THRESH_ABS : Z := 50.

(** [int(before * THRESH_REL)] with [THRESH_REL = 0.2].  The double next to
    0.2 is 0.2 * (1 + 2^-54), so for a list length (far below 2^50) the
    product rounds to a double whose integer part is [before / 5]. *)
Definition thresh_rel (before : nat) : Z := Z.of_nat before / 5.

Definition use_prefilter (pre : list item) (before : nat) : bool :=
  Z.max THRESH_ABS (thresh_rel before) <=? Z.of_nat (length pre).

(** The adaptive prefilter: the listing the extraction loop gets. *)
Definition prefilter (kw_list : option (list string)) (listing : list item) : list item :=
  if kw_active kw_list then
    let before := length listing in
    let pre := List.filter (kw_hits_item (default [] kw_list)) listing in
    if use_prefilter pre before then pre else listing
  else listing.

Definition with_source (src : string) (a : article) : article :=
  {| art_url := art_url a; art_title := art_title a; art_author := art_author a;
     art_published := art_published a; art_content := art_content a;
     art_source := src |}.

(** [datetime.now]: the clock at this point of the run. *)
Definition read_clock : M Z := λ w, (Ok (clock (length (requests w))), w).

(** [(art.get("title") or "") + " " + (art.get("content") or "")]:
    [TypeError] unless both values are text. *)
Definition title_and_content (a : article) : outcome string :=
  match py_or (art_title a) (JStr ""), py_or (art_content a) (JStr "") with
  | JStr title, JStr content => Ok (title +:+ " " +:+ content)
  | _, _ => Raise TypeError
  end.

(** The title as the log line shows it, the slice [[:80]] of it put into
    the message: the first 80 characters of a text, the first 80 entries
    of a list; [TypeError] for a number, a boolean or a dict, which cannot
    be sliced (for a dict the interpreters from 3.12 on raise [KeyError]
    in its place). *)
Definition title_shown (a : article) : outcome string :=
  match art_title a with
  | JStr title => Ok (char_take 80 title)
  | JList l => Ok (py_repr (JList (take 80 l)))
  | _ => Raise TypeError
  end.

(** One turn of the extraction loop on the [i]-th item, [total] being
    [len(listing)].  Only the call of [extract_article] stands inside the
    [try]. *)
Definition extraction_step (kw_list : option (list string)) (tzname : string)
    (total : nat) (i : nat) (it : item) (st : list article * gset string)
    : M (list article * gset string) :=
  let '(collected, seen) := st in
  let url := url it in
  if negb (kw_active kw_list) && bool_decide (url ∈ seen) then mret st
  else
    extracted ← try_except (art ← extract_article url tzname; mret (Some art))
                           (λ e, log (LogExtractError url e) ;; mret None);
    match extracted with
    | None => mret st
    | Some art =>
        hit ← (if kw_active kw_list
               then raw ← lift (title_and_content art);
                    let fulltxt := norm raw in
                    mret (existsb (λ k, str_in k fulltxt) (default [] kw_list))
               else mret true);
        if negb hit then mret st
        else
          now ← read_clock;
          if negb (str_truthy (text_of (art_published art)))
             || negb (is_recent now (art_published art) tzname None)
          then mret st
          else
            let art := with_source (default "?" (source it)) art in
            shown ← lift (title_shown art);
            log (LogArticleOk i total (art_source art) shown) ;;
            mret (collected ++ [art], {[url]} ∪ seen)
    end.

Fixpoint extraction_loop (kw_list : option (list string)) (tzname : string)
    (total : nat) (i : nat) (items : list item) (st : list article * gset string)
    : M (list article * gset string) :=
  match items with
  | [] => mret st
  | it :: rest =>
      st ← extraction_step kw_list tzname total i it st;
      extraction_loop kw_list tzname total (S i) rest st
  end.

(** [load_state()]. *)
Definition load_state : gset string := ∅.

(** From [load_state] to [save_state]: the listing, the prefilter and the
    loop.  Returns the listing the loop ran over and what it collected. *)
Definition collect_articles (keyword : keyword_arg) (tzname : string)
    : M (list item * list article) :=
  let seen := load_state in
  listing ← parse_all_listings;
  let kw_list := make_kw_list keyword in
  let listing := prefilter kw_list listing in
  '(collected, seen) ← extraction_loop kw_list tzname (length listing) 1 listing ([], seen);
  mret (listing, collected).

(** The loop over [CNMV_NIFS]. *)
Fixpoint collect_cnmv_blocks (nifs : list string) (cnmv_blocks : list block)
    : M (list block) :=
  match nifs with
  | [] => mret cnmv_blocks
  | nif :: rest =>
      if negb (str_truthy nif) then collect_cnmv_blocks rest cnmv_blocks
      else
        got ← try_except (get_cnmv_short_positions (strip nif) None)
                         (λ e, log (LogCnmvNif nif e) ;; mret None);
        match got with
        | Some block => collect_cnmv_blocks rest (cnmv_blocks ++ [block])
        | None => collect_cnmv_blocks rest cnmv_blocks
        end
  end.

Definition BODY_END : string := "</body></html>".

(** The last step of [main]: the news artifact and the CNMV markup. *)
Definition compose (html_news cnmv_html : string) : string :=
  if str_truthy cnmv_html && str_in BODY_END html_news
  then str_replace BODY_END (cnmv_html +:+ nl +:+ BODY_END) html_news
  else html_news +:+ cnmv_html.

(** The report [main] sends, given the news artifact [build_html_multi]
    made of the collected articles. *)
Definition final_html (html_news : string) : M (list block * string) :=
  cnmv_blocks ← collect_cnmv_blocks CNMV_NIFS [];
  mret (cnmv_blocks, compose html_news (build_html_cnmv cnmv_blocks)).

End Script.

(** ** Configuration values and the news artifact *)

(** An entry of the [sources] list of [config.yaml], a missing key being
    [None]. *)
Record source_raw := {
  raw_url : option string;
  raw_name : option string;
  raw_listing : option string;
  raw_domain_prefix : option string;
  raw_max_to_fetch : option Z;
}.

(** The loop that fills [SOURCES] from [SOURCES_RAW]. *)
Fixpoint build_sources (sources_raw : list source_raw) (sources : list source_cfg)
    : list source_cfg :=
  match sources_raw with
  | [] => sources
  | s :: rest =>
      let url := default "" (raw_url s) in
      if negb (str_truthy url) then build_sources rest sources
      else build_sources rest
             (sources ++ [ {| src_name := default "SIN_NOMBRE" (raw_name s);
                              src_listing := default url (raw_listing s);
                              src_homepage := url;
                              src_domain_prefix := default url (raw_domain_prefix s);
                              src_max_to_fetch := default 400 (raw_max_to_fetch s) |} ])
  end.

(** The value [cfg.get("cnmv_nifs") or cfg.get("CNMV_NIFS") or []]: a str,
    a collection (of its entries' [str(x)]) or anything else. *)
Inductive nifs_raw :=
| NifsStr (raw : string)
| NifsList (raw : list string)
| NifsOther.

(** A character of the class [[,\s;]]. *)
Definition is_sep (ch : string) : bool :=
  String.eqb ch "," || String.eqb ch ";" || is_space ch.

(** [re.split] on runs of separators, over the characters of the text:
    the fields between the runs, the empty ones at both ends included.
    [cur] is the field being read, [in_run] tells that the last character
    was a separator. *)
Fixpoint re_split_seps (cur : string) (in_run : bool) (chars : list string) : list string :=
  match chars with
  | [] => [cur]
  | ch :: rest =>
      if is_sep ch
      then (if in_run then re_split_seps "" true rest else cur :: re_split_seps "" true rest)
      else re_split_seps (cur +:+ ch) false rest
  end.

(** [[p.strip() for p in parts if p.strip()]]. *)
Definition stripped_nonblank (parts : list string) : list string :=
  strip <$> List.filter (λ p, str_truthy (strip p)) parts.

Definition _normalize_cnmv_nifs (raw : nifs_raw) : list string :=
  match raw with
  | NifsStr raw =>
      if str_truthy raw then stripped_nonblank (re_split_seps "" false (utf8_chars raw))
      else []
  | NifsList raw => stripped_nonblank raw
  | NifsOther => []
  end.

(** [dt.strftime("%Y-%m-%d %H:%M")], the one format the report uses. *)
Class Formats := {
  strftime_minutes : datetime → string;
}.

(** [s.split(newline)[0]]. *)
Fixpoint first_line (s : string) : string :=
  match s with
  | EmptyString => EmptyString
  | String c s' => if Ascii.eqb c "010"%char then EmptyString else String c (first_line s')
  end.

Definition READ_MORE : string := "Haz clic en el enlace para leer la noticia completa.".

(** The short summary [build_html_multi] shows for an article's content. *)
Definition resumen_corto (content : string) : string :=
  let full_content := strip content in
  let resumen_corto := first_line full_content in
  let resumen_corto :=
    if (300 <? char_length resumen_corto)%nat
    then char_take 300 resumen_corto +:+ "..."
    else resumen_corto in
  if str_truthy resumen_corto then resumen_corto else READ_MORE.

(** The markup of one article, a line of the template per entry; [title]
    and [byline] are the title and the author line as formatted. *)
Definition article_block (a : article) (title p_h byline resumen_corto : string) : string :=
  str_join nl
    [ "";
    "        <div style=" +:+ dq +:+ "margin-bottom: 28px; padding: 15px; border-left: 4px solid #004a99; background-color: #008d39; border-radius: 0 5px 5px 0;" +:+ dq +:+ ">";
    "          <div style=" +:+ dq +:+ "font-size: 11px; font-weight: bold; color: #e62e00; text-transform: uppercase; margin-bottom: 5px;" +:+ dq +:+ ">";
    "            " +:+ art_source a;
    "          </div>";
    "          <h3 style=" +:+ dq +:+ "margin: 0 0 8px 0; line-height: 1.3;" +:+ dq +:+ ">";
    "            <a href=" +:+ dq +:+ art_url a +:+ dq +:+ " style=" +:+ dq +:+ "color: #004a99; text-decoration: none;" +:+ dq +:+ ">" +:+ title +:+ "</a>";
    "          </h3>";
    "          <div style=" +:+ dq +:+ "font-size: 12px; color: #777; margin-bottom: 10px;" +:+ dq +:+ ">";
    "            " +:+ p_h +:+ " " +:+ byline;
    "          </div>";
    "          <p style=" +:+ dq +:+ "font-size: 14px; color: #333; line-height: 1.5; margin: 0;" +:+ dq +:+ ">";
    "            " +:+ resumen_corto;
    "          </p>";
    "          <div style=" +:+ dq +:+ "margin-top: 10px;" +:+ dq +:+ ">";
    "            <a href=" +:+ dq +:+ art_url a +:+ dq +:+ " style=" +:+ dq +:+ "font-size: 12px; color: #004a99; font-weight: bold; text-decoration: underline;" +:+ dq +:+ ">Leer más &rarr;</a>";
    "          </div>";
    "        </div>" ].

Definition NO_NEWS : string :=
  "<p style=" +:+ dq +:+ "text-align:center; color:#666;" +:+ dq +:+ ">No se han encontrado noticias relevantes con las palabras clave hoy.</p>".

(** The page around the article blocks. *)
Definition page (now tzname body : string) : string :=
  str_join nl
    [ "<!doctype html>";
    "<html lang=" +:+ dq +:+ "es" +:+ dq +:+ ">";
    "<head><meta charset=" +:+ dq +:+ "utf-8" +:+ dq +:+ "></head>";
    "<body style=" +:+ dq +:+ "font-family: 'Segoe UI', Arial, sans-serif; max-width: 700px; margin: 20px auto; color: #333;" +:+ dq +:+ ">";
    "    <div style=" +:+ dq +:+ "background-color: #004a99; padding: 20px; text-align: center; border-radius: 8px 8px 0 0;" +:+ dq +:+ ">";
    "        <h1 style=" +:+ dq +:+ "color: white; margin: 0; font-size: 22px;" +:+ dq +:+ ">📊 Noticias de Enagás y el sector del H2</h1>";
    "        <p style=" +:+ dq +:+ "color: #d1d1d1; font-size: 12px; margin: 5px 0 0 0;" +:+ dq +:+ ">Generado el " +:+ now +:+ " (" +:+ tzname +:+ ")</p>";
    "    </div>";
    "    <div style=" +:+ dq +:+ "padding: 20px; border: 1px solid #ddd; border-top: none; border-radius: 0 0 8px 8px;" +:+ dq +:+ ">";
    "        " +:+ body;
    "    </div>";
    "</body></html>" ].

Section Report.
Context `{!Libs} `{!Config} `{!Formats}.

(** A value inside an f-string: a text as it is, any other value as
    [str] gives it. *)
Definition fmt (v : json) : string :=
  match v with
  | JStr s => s
  | _ => py_repr v
  end.

(** [p_h]: the publication time as shown, [Sin fecha] when there is none. *)
Definition published_text (p : option string) : outcome string :=
  if str_truthy (default "" p) then
    match dateparser_parse (default "" p) with
    | Ok (Some dt) => Ok (strftime_minutes dt)
    | Ok None => Raise AttributeError
    | Raise e => Raise e
    end
  else Ok "Sin fecha".

(** [a.get("content", "") or ""], on which [strip] is called:
    [AttributeError] when it is not text. *)
Definition content_text (a : article) : outcome string :=
  match py_or (art_content a) (JStr "") with
  | JStr content => Ok content
  | _ => Raise AttributeError
  end.

Definition byline (a : article) : string :=
  if truthy (art_author a) then "— Por: " +:+ fmt (art_author a) else "".

(** The loop over [arts], filling [blocks]. *)
Fixpoint article_blocks (arts : list article) (blocks : list string)
    : outcome (list string) :=
  match arts with
  | [] => Ok blocks
  | a :: rest =>
      match published_text (art_published a) with
      | Raise e => Raise e
      | Ok p_h =>
          match content_text a with
          | Raise e => Raise e
          | Ok content =>
              article_blocks rest
                (blocks ++ [article_block a (fmt (art_title a)) p_h (byline a)
                                          (resumen_corto content)])
          end
      end
  end.

(** [build_html_multi], with [datetime.now(target)] read as the instant
    [now]. *)
Definition build_html_multi (now : Z) (arts : list article) (tzname : string)
    : outcome string :=
  let now := strftime_minutes (astimezone now (tz_gettz tzname)) in
  match article_blocks arts [] with
  | Raise e => Raise e
  | Ok blocks =>
      Ok (page now tzname
            (match blocks with
             | [] => NO_NEWS
             | _ => str_join "" blocks
             end))
  end.

End Report.

(** ** Predicates the statements below use *)

(** Continuation bytes only. *)
Fixpoint all_cont (s : string) : bool :=
  match s with
  | EmptyString => true
  | String c s' => is_cont c && all_cont s'
  end.

(** A character as [utf8_chars] cuts it: a byte and the continuation
    bytes after it. *)
Definition is_chunk (ch : string) : bool :=
  match ch with
  | EmptyString => false
  | String _ t => all_cont t
  end.

(** A character that begins as a character does. *)
Definition is_char (ch : string) : Prop := is_chunk ch = true ∧ starts_cont ch = false.

(** The shape of what [utf8_chars] returns: only the first piece may begin
    with a continuation byte, when the bytes cut were no whole text. *)
Definition chars_ok (l : list string) : Prop :=
  match l with
  | [] => True
  | ch :: rest => is_chunk ch = true ∧ Forall is_char rest
  end.

(** The characters [strip] keeps. *)
Definition stripped_chars (s : string) : list string :=
  drop_while_end is_space (drop_while is_space (utf8_chars s)).

(** No character of [s] is a comma, a semicolon or white space. *)
Definition sep_free (s : string) : bool :=
  forallb (λ ch, negb (is_sep ch)) (utf8_chars s).

(** [c] occurs in [s]. *)
Fixpoint has_char (c : ascii) (s : string) : bool :=
  match s with
  | EmptyString => false
  | String d s' => Ascii.eqb d c || has_char c s'
  end.

(** The entry of [SOURCES] a raw entry with a url gives. *)
Definition source_of_raw (s : source_raw) : option source_cfg :=
  let url := default "" (raw_url s) in
  if str_truthy url
  then Some {| src_name := default "SIN_NOMBRE" (raw_name s);
               src_listing := default url (raw_listing s);
               src_homepage := url;
               src_domain_prefix := default url (raw_domain_prefix s);
               src_max_to_fetch := default 400 (raw_max_to_fetch s) |}
  else None.

Section StrictFilter.
Context `{!Libs} `{!Config}.


(** An article [build_html_multi] can show: its publication time is
    absent, empty or read by the parser, and its content is falsy or a
    text. *)
Definition showable (a : article) : Prop :=
  (art_published a = None ∨ art_published a = Some "" ∨
   ∃ dt, dateparser_parse (default "" (art_published a)) = Ok (Some dt)) ∧
  (truthy (art_content a) = false ∨ ∃ s, art_content a = JStr s).

End StrictFilter.

(** ** The row rules as the specification words them *)


Section RowRules.
Context `{!Libs}.






End RowRules.

(** ** The author rule as the specification words it *)



(** ** The prefilter rule as the specification words it *)

(** [matches] is at least max(50, 20% of [total]), the percentage taken
    exactly: [50 <= matches] and [20/100 * total <= matches], the second
    cleared of its denominator. *)
Definition spec_prefilter_applies (matches total : nat) : Prop :=
  50 ≤ Z.of_nat matches ∧ 20 * Z.of_nat total ≤ 100 * Z.of_nat matches.

(** ** A small run to evaluate the script on *)

Definition HOME : string := "https://news.example".
Definition CNMV_EMPTY_URL : string := CNMV_BASE_URL +:+ "?nif=A-1&lang=es".
Definition CNMV_TABLE_URL : string := CNMV_BASE_URL +:+ "?nif=C-3&lang=es".

Definition blank_soup : soup :=
  {| has_feed_root := false; select_item := []; select_entry := [];
     article_anchors := []; heading_anchors := []; find_all_table := [];
     select_headings := []; all_tags := []; select_byline := None; select_h1 := None |}.

(** A front page with two article links, the first of them twice. *)
Definition front_page : soup :=
  {| has_feed_root := false; select_item := []; select_entry := [];
     article_anchors :=
       [ {| a_href := Some "/a.html"; a_text := "Alpha"; a_time := "" |};
         {| a_href := Some "/a.html"; a_text := "Alpha again"; a_time := "" |};
         {| a_href := Some "/b.html"; a_text := "Beta"; a_time := "" |} ];
     heading_anchors := []; find_all_table := [];
     select_headings := []; all_tags := []; select_byline := None; select_h1 := None |}.

(** A second front page: the article with the numeric headline, then the
    one that cannot be fetched. *)
Definition latest_page : soup :=
  {| has_feed_root := false; select_item := []; select_entry := [];
     article_anchors :=
       [ {| a_href := Some "/n.html"; a_text := "Year in review"; a_time := "" |};
         {| a_href := Some "/b.html"; a_text := "Beta"; a_time := "" |} ];
     heading_anchors := []; find_all_table := [];
     select_headings := []; all_tags := []; select_byline := None; select_h1 := None |}.

(** An article page without JSON-LD whose head names the author. *)
Definition article_page : soup :=
  {| has_feed_root := false; select_item := []; select_entry := [];
     article_anchors := []; heading_anchors := []; find_all_table := [];
     select_headings := [];
     all_tags :=
       [ {| tag_name := "meta"; tag_attrs := [("charset", "utf-8")]; tag_text := "" |};
         {| tag_name := "meta"; tag_attrs := [("name", "author"); ("content", "Jane Doe")];
            tag_text := "" |};
         {| tag_name := "time"; tag_attrs := [("datetime", "2024-03-05T10:00:00+00:00")];
            tag_text := "" |} ];
     select_byline := None; select_h1 := Some "Alpha" |}.

(** The JSON-LD of an article by two authors, the second known by its
    [@id] alone. *)
Definition TWO_AUTHORS : list json :=
  [ JObj [("name", JStr "Ann")]; JObj [("@id", JStr "https://news.example/staff/bo")] ].

Definition two_authors_ld : list json :=
  [ JObj [("@type", JStr "WebSite"); ("name", JStr "News")];
    JObj [("@type", JStr "NewsArticle"); ("headline", JStr "Gamma");
          ("datePublished", JStr "2024-03-05T10:00:00+00:00");
          ("articleBody", JStr "Gamma body");
          ("author", JList TWO_AUTHORS)] ].

(** The JSON-LD of an article whose headline is the number 2024. *)
Definition numeric_headline_ld : list json :=
  [ JObj [("@type", JList [JStr "Article"; JStr "NewsArticle"]); ("headline", JInt 2024);
          ("datePublished", JStr "2024-03-05T10:00:00+00:00");
          ("author", JObj [("name", JStr "Ann")])] ].

(** The JSON-LD of an article whose body is a list of paragraphs. *)
Definition list_body_ld : list json :=
  [ JObj [("@type", JStr "NewsArticle"); ("headline", JStr "Delta");
          ("datePublished", JStr "2024-03-05T10:00:00+00:00");
          ("articleBody", JList [JStr "One."; JStr "Two."])] ].

(** A CNMV page with no table at all. *)
Definition cnmv_no_table : soup :=
  {| has_feed_root := false; select_item := []; select_entry := [];
     article_anchors := []; heading_anchors := []; find_all_table := [];
     select_headings := ["Posiciones cortas"]; all_tags := [];
     select_byline := None; select_h1 := None |}.

(** The table of a CNMV page: the header, two rows that count, one whose
    percentage is no number and one that is too short. *)
Definition positions_table : table :=
  {| stripped_text := "Notificaciones vivas iguales o superiores al 0,5% Titular % Fecha";
     trs := [ [];
              ["Fund A"; "1,234"; "05/03/2024"];
              ["Fund B"; "abc"; "06/03/2024"];
              ["Fund C"; "0,5"; "not-a-date"; "extra"];
              ["Fund D"; "0,7"] ] |}.

Definition layout_table : table := {| stripped_text := "Inicio Consultas"; trs := [["x"]] |}.

(** A CNMV page with that table after one that holds no marker. *)
Definition cnmv_with_table : soup :=
  {| has_feed_root := false; select_item := []; select_entry := [];
     article_anchors := []; heading_anchors := [];
     find_all_table := [layout_table; positions_table];
     select_headings := ["Posiciones cortas"; "ACME, S.A."]; all_tags := [];
     select_byline := None; select_h1 := None |}.

(** 5 March 2024, 10:00 UTC, in microseconds. *)
Definition T0 : Z := 1709632800 * 1000000.
Definition HOUR : Z := 3600 * 1000000.

Definition demo_libs : Libs :=
  {| session_get := λ _ url,
       if String.eqb url (HOME +:+ "/") then Response 200 "front"
       else if String.eqb url (HOME +:+ "/latest") then Response 200 "latest"
       else if String.eqb url (HOME +:+ "/a.html") then Response 200 "article"
       else if String.eqb url (HOME +:+ "/b.html") then Response 404 ""
       else if String.eqb url (HOME +:+ "/c.html") then Response 200 "two authors"
       else if String.eqb url (HOME +:+ "/n.html") then Response 200 "numeric headline"
       else if String.eqb url (HOME +:+ "/l.html") then Response 200 "list body"
       else if String.eqb url CNMV_EMPTY_URL then Response 200 "cnmv"
       else if String.eqb url CNMV_TABLE_URL then Response 200 "cnmv table"
       else NoResponse;
     urljoin := λ base href, if startswith href "http" then href else HOME +:+ href;
     BeautifulSoup := λ text,
       if String.eqb text "front" then front_page
       else if String.eqb text "latest" then latest_page
       else if String.eqb text "article" then article_page
       else if String.eqb text "cnmv" then cnmv_no_table
       else if String.eqb text "cnmv table" then cnmv_with_table
       else blank_soup;
     findall_html_hrefs := λ _, [];
     lower := lower_ascii;
     nfkd_strip := λ s, s;
     extruct_jsonld := λ html _,
       if String.eqb html "two authors" then Ok two_authors_ld
       else if String.eqb html "numeric headline" then Ok numeric_headline_ld
       else if String.eqb html "list body" then Ok list_body_ld
       else Ok [];
     dateparser_parse := λ s,
       if String.eqb s "2024-03-05T10:00:00+00:00"
       then Ok (Some {| dt_wall := T0; dt_offset := Some 0 |})
       else Raise ValueError;
     tz_gettz := λ name,
       if String.eqb name "Europe/Madrid" then Some (λ _, HOUR) else None;
     local_zone := λ _, 0;
     isoformat := λ _, "2024-03-05T10:00:00+00:00";
     naive_instant := λ wall, wall;
     format_3f := λ _, "0.000";
     trafilatura_extract := λ _ _, Some "Body text";
     clock := λ _, T0 + 2 * HOUR;
     py_float := ascii_float;
     strptime_dmY := ascii_strptime_dmY;
     py_repr := λ v, match v with
                     | JNull => "None"
                     | JBool true => "True"
                     | JBool false => "False"
                     | JList [] => "[]"
                     | JObj [] => "{}"
                     | _ => "..."
                     end |}.

Definition demo_config : Config :=
  {| SOURCES := [ {| src_name := "Example"; src_listing := HOME +:+ "/";
                     src_homepage := HOME +:+ "/"; src_domain_prefix := HOME;
                     src_max_to_fetch := 400 |} ];
     CNMV_NIFS := ["A-1"; "B-2"];
     CNMV_LANG := "es";
     hours_recent := None |}.

(** The same site read from its second front page. *)
Definition latest_config : Config :=
  {| SOURCES := [ {| src_name := "Example"; src_listing := HOME +:+ "/latest";
                     src_homepage := HOME +:+ "/latest"; src_domain_prefix := HOME;
                     src_max_to_fetch := 400 |} ];
     CNMV_NIFS := [];
     CNMV_LANG := "es";
     hours_recent := None |}.

(** A listing of 251 items, 50 of which name the keyword in their title. *)
Definition gas_item : item :=
  {| url := HOME +:+ "/g.html"; title := "Gas storage"; time_hint := ""; source := None |}.
Definition other_item : item :=
  {| url := HOME +:+ "/o.html"; title := "Football"; time_hint := ""; source := None |}.
Definition listing_251 : list item := replicate 50 gas_item ++ replicate 201 other_item.

(** A configuration whose only identifier cannot be fetched. *)
Definition quiet_config : Config :=
  {| SOURCES := []; CNMV_NIFS := ["B-2"]; CNMV_LANG := "es"; hours_recent := None |}.

Definition PAGE : string := "<html><body>news</body></html>".

(** A no-break space and an accented letter, each one character of two
    bytes. *)
Definition NBSP : string := bytes [194; 160]%nat.
Definition A_ACUTE : string := bytes [195; 161]%nat.


Definition world0 : world := {| requests := []; logged := [] |}.

(** The same libraries behind a server that refuses one page, with a
    body, and fails on another. *)
Definition strict_libs : Libs :=
  {| session_get := λ _ url,
       if String.eqb url (HOME +:+ "/forbidden") then Response 403 "<h1>Forbidden</h1>"
       else if String.eqb url (HOME +:+ "/broken") then Response 500 ""
       else @session_get demo_libs 0%nat url;
     urljoin := @urljoin demo_libs;
     BeautifulSoup := @BeautifulSoup demo_libs;
     findall_html_hrefs := @findall_html_hrefs demo_libs;
     lower := @lower demo_libs;
     nfkd_strip := @nfkd_strip demo_libs;
     extruct_jsonld := @extruct_jsonld demo_libs;
     dateparser_parse := @dateparser_parse demo_libs;
     tz_gettz := @tz_gettz demo_libs;
     local_zone := @local_zone demo_libs;
     isoformat := @isoformat demo_libs;
     naive_instant := @naive_instant demo_libs;
     format_3f := @format_3f demo_libs;
     trafilatura_extract := @trafilatura_extract demo_libs;
     clock := @clock demo_libs;
     py_float := @py_float demo_libs;
     strptime_dmY := @strptime_dmY demo_libs;
     py_repr := @py_repr demo_libs |}.

(** A source whose listing page has no link and whose homepage is the
    front page. *)
Definition retry_source : source_cfg :=
  {| src_name := "Example"; src_listing := CNMV_EMPTY_URL; src_homepage := HOME +:+ "/";
     src_domain_prefix := HOME; src_max_to_fetch := 400 |}.

Definition demo_formats : Formats := {| strftime_minutes := λ _, "2024-03-05 11:00" |}.

(** Two articles as the loop collects them: the one of the page without
    JSON-LD, and the one whose JSON-LD body is a list of paragraphs. *)
Definition alpha_article : article :=
  {| art_url := HOME +:+ "/a.html"; art_title := JStr "Alpha"; art_author := JStr "Jane Doe";
     art_published := Some "2024-03-05T10:00:00+00:00"; art_content := JStr "Body text";
     art_source := "Example" |}.

Definition delta_article : article :=
  {| art_url := HOME +:+ "/l.html"; art_title := JStr "Delta"; art_author := JStr "";
     art_published := Some "2024-03-05T10:00:00+00:00";
     art_content := JList [JStr "One."; JStr "Two."];
     art_source := "Example" |}.

(** * Properties *)

(** ** Strings *)

Lemma str_app_cons (c : ascii) (a b : string) : String c a +:+ b = String c (a +:+ b).
Proof. reflexivity. Qed.

Lemma str_app_nil_l (a : string) : "" +:+ a = a.
Proof. reflexivity. Qed.

Lemma str_app_assoc (a b c : string) : (a +:+ b) +:+ c = a +:+ (b +:+ c).
Proof.
  induction a as [|x a IH]; [reflexivity|].
  rewrite !str_app_cons. f_equal. exact IH.
Qed.

Lemma str_app_nil_r (a : string) : a +:+ "" = a.
Proof.
  induction a as [|x a IH]; [reflexivity|].
  rewrite str_app_cons. f_equal. exact IH.
Qed.

Lemma str_truthy_false (s : string) : str_truthy s = false ↔ s = "".
Proof. destruct s; simpl; split; congruence. Qed.

Lemma str_truthy_true (s : string) : str_truthy s = true ↔ s ≠ "".
Proof. destruct s; simpl; split; congruence. Qed.

Lemma str_join_truthy (sep first : string) (others : list string) :
  str_truthy first = true → str_truthy (str_join sep (first :: others)) = true.
Proof.
  intros Hfirst. destruct first as [|c first]; [discriminate|].
  destruct others; [reflexivity|]. cbn [str_join]. by rewrite str_app_cons.
Qed.

Lemma prefix_app (p r : string) : String.prefix p (p +:+ r) = true.
Proof.
  induction p as [|c p IH].
  - rewrite str_app_nil_l. by destruct r.
  - rewrite str_app_cons. simpl.
    destruct (ascii_dec c c); [exact IH | congruence].
Qed.

Lemma prefix_split (p s : string) :
  String.prefix p s = true → ∃ r, s = p +:+ r.
Proof.
  revert s. induction p as [|c p IH]; intros s Hp.
  - by exists s.
  - destruct s as [|d s]; simpl in Hp; [discriminate|].
    destruct (ascii_dec c d) as [->|]; [|discriminate].
    destruct (IH _ Hp) as [r ->]. by exists r.
Qed.

Lemma str_in_find (sub s : string) :
  str_in sub s = match str_find sub s with Some _ => true | None => false end.
Proof.
  induction s as [|c s IH]; cbn [str_in str_find].
  - by destruct (String.prefix sub "").
  - destruct (String.prefix sub (String c s)); [reflexivity|].
    rewrite IH. by destruct (str_find sub s).
Qed.

Lemma replace_scan_skip (old new a r : string) :
  replace_scan old new (String.length a) (a +:+ r) = replace_scan old new 0 r.
Proof.
  induction a as [|c a IH].
  - rewrite str_app_nil_l. reflexivity.
  - rewrite str_app_cons. simpl. exact IH.
Qed.

Lemma replace_scan_match (c : ascii) (old' new r : string) :
  replace_scan (String c old') new 0 (String c old' +:+ r)
  = new +:+ replace_scan (String c old') new 0 r.
Proof.
  pose proof (prefix_app (String c old') r) as Hp.
  rewrite str_app_cons in Hp |- *.
  cbn [replace_scan]. rewrite Hp. f_equal.
  replace (String.length (String c old') - 1)%nat with (String.length old')
    by (simpl; lia).
  apply replace_scan_skip.
Qed.

(** The leftmost occurrence splits the text; the scan resumes after it. *)
Lemma replace_scan_find (c : ascii) (old' new s : string) (i : nat) :
  str_find (String c old') s = Some i →
  ∃ pre post,
    s = pre +:+ String c old' +:+ post ∧ String.length pre = i ∧
    replace_scan (String c old') new 0 s
    = pre +:+ new +:+ replace_scan (String c old') new 0 post.
Proof.
  revert i. induction s as [|d s IH]; intros i Hf.
  - simpl in Hf. discriminate.
  - cbn [str_find] in Hf.
    destruct (String.prefix (String c old') (String d s)) eqn:Hp.
    + injection Hf as <-. destruct (prefix_split _ _ Hp) as [post Hs].
      exists "", post. rewrite Hs. split; [reflexivity|]. split; [reflexivity|].
      rewrite str_app_nil_l. apply replace_scan_match.
    + destruct (str_find (String c old') s) as [j|] eqn:Hj; [|discriminate].
      injection Hf as <-.
      destruct (IH j eq_refl) as (pre & post & Hs & Hlen & Hr).
      exists (String d pre), post. split; [by rewrite Hs|].
      split; [simpl; by rewrite Hlen|].
      cbn [replace_scan]. rewrite Hp, Hr. by rewrite str_app_cons.
Qed.

Lemma replace_scan_absent (old new s : string) :
  str_find old s = None → replace_scan old new 0 s = s.
Proof.
  induction s as [|d s IH]; intros Hf; [reflexivity|].
  cbn [str_find] in Hf. cbn [replace_scan].
  destruct (String.prefix old (String d s)); [discriminate|].
  destruct (str_find old s); [discriminate|].
  by rewrite IH.
Qed.

(** ** Characters *)

Lemma utf8_chars_step (c : ascii) (s : string) :
  utf8_chars (String c s)
  = match utf8_chars s with
    | [] => [String c EmptyString]
    | ch :: rest =>
        if starts_cont s then String c ch :: rest else String c EmptyString :: ch :: rest
    end.
Proof. reflexivity. Qed.

Lemma utf8_chars_cons (c : ascii) (s : string) :
  ∃ t rest, utf8_chars (String c s) = String c t :: rest ∧ all_cont t = true
            ∧ Forall is_char rest ∧ s = t +:+ str_concat rest.
Proof.
  revert c. induction s as [|d s IH]; intros c.
  - exists "", []. by repeat split.
  - destruct (IH d) as (t & rest & Hd & Ht & Hrest & Hs).
    rewrite (utf8_chars_step c), Hd. cbn [starts_cont].
    destruct (is_cont d) eqn:Hcont.
    + exists (String d t), rest. split; [reflexivity|].
      split; [cbn; by rewrite Hcont|]. split; [exact Hrest|].
      by rewrite str_app_cons, <- Hs.
    + exists "", (String d t :: rest). split; [reflexivity|]. split; [reflexivity|].
      split; [|by rewrite str_app_nil_l; cbn [str_concat]; rewrite str_app_cons, <- Hs].
      constructor; [by split | exact Hrest].
Qed.

Lemma utf8_chars_ok (s : string) : chars_ok (utf8_chars s).
Proof.
  destruct s as [|c s]; [exact I|].
  destruct (utf8_chars_cons c s) as (t & rest & -> & Ht & Hrest & _). by split.
Qed.

(** A text is its characters, one after the other. *)
Lemma str_concat_chars (s : string) : str_concat (utf8_chars s) = s.
Proof.
  destruct s as [|c s]; [reflexivity|].
  destruct (utf8_chars_cons c s) as (t & rest & -> & _ & _ & Hs).
  cbn [str_concat]. by rewrite str_app_cons, <- Hs.
Qed.

Lemma str_concat_app (a b : list string) :
  str_concat (a ++ b) = str_concat a +:+ str_concat b.
Proof.
  induction a as [|x a IH]; [reflexivity|].
  cbn [app str_concat]. by rewrite IH, str_app_assoc.
Qed.

Lemma utf8_chars_chunk (t : string) (c : ascii) (s : string) :
  all_cont t = true → starts_cont s = false →
  utf8_chars (String c (t +:+ s)) = String c t :: utf8_chars s.
Proof.
  revert c. induction t as [|d t IH]; intros c Ht Hs.
  - rewrite str_app_nil_l, utf8_chars_step, Hs.
    by destruct (utf8_chars s).
  - cbn [all_cont] in Ht. apply andb_true_iff in Ht as [Hd Ht].
    rewrite str_app_cons, utf8_chars_step, (IH d Ht Hs).
    cbn [starts_cont]. by rewrite Hd.
Qed.

Lemma starts_cont_concat (l : list string) :
  Forall is_char l → starts_cont (str_concat l) = false.
Proof.
  intros [|ch rest [Hchunk Hstart] _]; [reflexivity|].
  destruct ch as [|c t]; [discriminate|]. cbn [str_concat]. by rewrite str_app_cons.
Qed.

(** Cutting what characters make up gives those characters back. *)
Lemma utf8_chars_concat (l : list string) : chars_ok l → utf8_chars (str_concat l) = l.
Proof.
  assert (Hall : ∀ rest, Forall is_char rest → utf8_chars (str_concat rest) = rest).
  { induction 1 as [|ch rest [Hchunk _] Hrest IH]; [reflexivity|].
    destruct ch as [|c t]; [discriminate|]. cbn [str_concat]. rewrite str_app_cons.
    rewrite (utf8_chars_chunk t c _ Hchunk (starts_cont_concat rest Hrest)).
    by rewrite IH. }
  destruct l as [|ch rest]; [reflexivity|]. intros [Hchunk Hrest].
  destruct ch as [|c t]; [discriminate|]. cbn [str_concat]. rewrite str_app_cons.
  rewrite (utf8_chars_chunk t c _ Hchunk (starts_cont_concat rest Hrest)).
  by rewrite (Hall rest Hrest).
Qed.

Lemma chars_ok_tail (ch : string) (l : list string) : chars_ok (ch :: l) → chars_ok l.
Proof.
  intros [_ Hrest]. destruct Hrest as [|x rest [Hx _] Hrest]; [exact I|]. by split.
Qed.

Lemma chars_ok_prefix (a b : list string) : chars_ok (a ++ b) → chars_ok a.
Proof.
  destruct a as [|ch a]; [done|]. intros [Hchunk Hrest]. split; [exact Hchunk|].
  by apply Forall_app in Hrest as [Hrest _].
Qed.

Lemma chars_ok_suffix (a b : list string) : chars_ok (a ++ b) → chars_ok b.
Proof.
  induction a as [|ch a IH]; [done|]. intros Hok. by apply IH, (chars_ok_tail ch).
Qed.

(** The characters of two texts put together, the second a text of its
    own, are those of the first and then those of the second. *)
Lemma utf8_chars_app (a b : string) :
  starts_cont b = false → utf8_chars (a +:+ b) = utf8_chars a ++ utf8_chars b.
Proof.
  intros Hb.
  rewrite <- (str_concat_chars a), <- (str_concat_chars b) at 1.
  rewrite <- str_concat_app. apply utf8_chars_concat.
  pose proof (utf8_chars_ok a) as Ha. pose proof (utf8_chars_ok b) as Hb'.
  assert (Hgood : Forall is_char (utf8_chars b)).
  { destruct b as [|c b]; [constructor|].
    destruct (utf8_chars_cons c b) as (t & rest & Heq & Ht & Hrest & _).
    rewrite Heq. constructor; [by split | exact Hrest]. }
  destruct (utf8_chars a) as [|ch rest]; cbn [app]; [exact Hb'|].
  destruct Ha as [Hchunk Hrest]. split; [exact Hchunk|]. by apply Forall_app.
Qed.

Lemma drop_while_suffix {A} (p : A → bool) (l : list A) :
  ∃ dropped, l = dropped ++ drop_while p l.
Proof.
  induction l as [|x l [dropped IH]]; [by exists []|].
  cbn [drop_while]. destruct (p x); [|by exists []].
  exists (x :: dropped). cbn [app]. by rewrite <- IH.
Qed.

Lemma drop_while_end_prefix {A} (p : A → bool) (l : list A) :
  ∃ dropped, l = drop_while_end p l ++ dropped.
Proof.
  induction l as [|x l [dropped IH]]; [by exists []|].
  cbn [drop_while_end]. destruct (drop_while_end p l) as [|y r] eqn:Hr.
  - destruct (p x); [by exists (x :: l)|]. exists l. reflexivity.
  - exists dropped. cbn [app] in *. f_equal. exact IH.
Qed.

Lemma drop_while_head {A} (p : A → bool) (l : list A) :
  drop_while p l = [] ∨ ∃ x r, drop_while p l = x :: r ∧ p x = false.
Proof.
  induction l as [|x l IH]; [by left|].
  cbn [drop_while]. destruct (p x) eqn:Hx; [exact IH|]. right. by exists x, l.
Qed.

Lemma drop_while_keep {A} (p : A → bool) (x : A) (l : list A) :
  p x = false → drop_while p (x :: l) = x :: l.
Proof. intros Hx. cbn [drop_while]. by rewrite Hx. Qed.

Lemma drop_while_end_keep {A} (p : A → bool) (x : A) (l : list A) :
  p x = false → ∃ r, drop_while_end p (x :: l) = x :: r.
Proof.
  intros Hx. cbn [drop_while_end]. destruct (drop_while_end p l) as [|y r].
  - rewrite Hx. by eexists.
  - by eexists.
Qed.

Lemma drop_while_end_idem {A} (p : A → bool) (l : list A) :
  drop_while_end p (drop_while_end p l) = drop_while_end p l.
Proof.
  induction l as [|x l IH]; [reflexivity|].
  cbn [drop_while_end]. destruct (drop_while_end p l) as [|y r] eqn:Hr.
  - destruct (p x) eqn:Hx; [reflexivity|]. cbn [drop_while_end]. by rewrite Hx.
  - change (drop_while_end p (x :: y :: r)) with
      (match drop_while_end p (y :: r) with
       | [] => if p x then [] else [x]
       | r' => x :: r'
       end).
    by rewrite IH.
Qed.

Lemma drop_while_end_none {A} (p : A → bool) (l : list A) :
  Forall (λ x, p x = false) l → drop_while_end p l = l.
Proof.
  induction 1 as [|x l Hx _ IH]; [reflexivity|].
  cbn [drop_while_end]. rewrite IH. destruct l; [by rewrite Hx | reflexivity].
Qed.

Lemma stripped_chars_ok (s : string) : chars_ok (stripped_chars s).
Proof.
  unfold stripped_chars.
  destruct (drop_while_suffix is_space (utf8_chars s)) as [d1 H1].
  destruct (drop_while_end_prefix is_space (drop_while is_space (utf8_chars s))) as [d2 H2].
  pose proof (utf8_chars_ok s) as Hok. rewrite H1 in Hok.
  apply chars_ok_suffix in Hok. rewrite H2 in Hok. by apply chars_ok_prefix in Hok.
Qed.

Lemma utf8_chars_strip (s : string) : utf8_chars (strip s) = stripped_chars s.
Proof. apply utf8_chars_concat, stripped_chars_ok. Qed.

(** What [strip] returns is empty or begins with a character that is no
    white space. *)
Lemma stripped_chars_head (s : string) :
  stripped_chars s = [] ∨ ∃ ch r, stripped_chars s = ch :: r ∧ is_space ch = false.
Proof.
  unfold stripped_chars.
  destruct (drop_while_head is_space (utf8_chars s)) as [->|(ch & r & -> & Hch)]; [by left|].
  right. destruct (drop_while_end_keep is_space ch r Hch) as [r' Hr]. by exists ch, r'.
Qed.

Lemma strip_idem (s : string) : strip (strip s) = strip s.
Proof.
  change (strip (strip s)) with
    (str_concat (drop_while_end is_space (drop_while is_space (utf8_chars (strip s))))).
  rewrite utf8_chars_strip. change (strip s) with (str_concat (stripped_chars s)). f_equal.
  destruct (stripped_chars_head s) as [->|(ch & r & Heq & Hch)]; [reflexivity|].
  rewrite Heq, (drop_while_keep _ _ _ Hch), <- Heq.
  apply drop_while_end_idem.
Qed.

(** [len] and the slice on the characters. *)
Lemma char_take_length (n : nat) (s : string) :
  char_length (char_take n s) = Nat.min n (char_length s).
Proof.
  unfold char_length, char_take. rewrite utf8_chars_concat, length_take; [reflexivity|].
  apply (chars_ok_prefix _ (drop n (utf8_chars s))). rewrite take_drop. apply utf8_chars_ok.
Qed.

Lemma char_take_prefix (n : nat) (s : string) : ∃ rest, s = char_take n s +:+ rest.
Proof.
  exists (str_concat (drop n (utf8_chars s))). unfold char_take.
  by rewrite <- str_concat_app, take_drop, str_concat_chars.
Qed.

Lemma char_length_app (a b : string) :
  starts_cont b = false → char_length (a +:+ b) = (char_length a + char_length b)%nat.
Proof. intros Hb. unfold char_length. by rewrite (utf8_chars_app a b Hb), length_app. Qed.

(** ** The models of the built-ins on sample inputs *)

Example str_replace_samples :
  str_replace "ab" "X" "cabab" = "cXX" ∧ str_replace "aa" "b" "aaa" = "ba" ∧
  str_replace "" "-" "ab" = "-a-b-" ∧ str_replace "zz" "X" "abc" = "abc" ∧
  strip "  Jane Doe " = "Jane Doe" ∧ str_join ", " ["a"; "b"; "c"] = "a, b, c" ∧
  str_in "" "" = true ∧ str_in "bc" "abcd" = true ∧ str_find "cd" "abcd" = Some 2%nat.
Proof. repeat split; reflexivity. Qed.

(** A no-break space is stripped like any other white space; an accented
    letter is two bytes and one character. *)
Example character_samples :
  strip (NBSP +:+ " x" +:+ A_ACUTE +:+ nl +:+ NBSP) = "x" +:+ A_ACUTE ∧
  utf8_chars ("x" +:+ A_ACUTE +:+ NBSP) = ["x"; A_ACUTE; NBSP] ∧
  char_length (A_ACUTE +:+ A_ACUTE) = 2%nat ∧ String.length (A_ACUTE +:+ A_ACUTE) = 4%nat ∧
  char_take 1 (A_ACUTE +:+ "bc") = A_ACUTE ∧ char_take 5 "abc" = "abc" ∧
  length WHITE_SPACE = 29%nat.
Proof. repeat split; reflexivity. Qed.

Example ascii_float_samples :
  ascii_float "1.234" = Some (Dec 1234 (-3)) ∧ ascii_float "abc" = None ∧
  ascii_float "-.5e2" = Some (Dec (-5) 1) ∧ ascii_float "1_0." = Some (Dec 10 0) ∧
  ascii_float "1__0" = None ∧ ascii_float "1.2.3" = None ∧
  ascii_float " 7 " = Some (Dec 7 0) ∧ ascii_float "" = None ∧
  ascii_float "." = None ∧ ascii_float "-Infinity" = Some (Inf true) ∧
  ascii_float "1e" = None ∧ ascii_float "0,5" = None ∧
  ascii_float (NBSP +:+ "1.5") = Some (Dec 15 (-1)) ∧
  ascii_float (bytes [28]%nat +:+ "1.5") = None.
Proof. repeat split; reflexivity. Qed.

Example ascii_strptime_samples :
  ascii_strptime_dmY "05/03/2024" = Some (2024, 3, 5) ∧
  ascii_strptime_dmY "5/3/2024" = Some (2024, 3, 5) ∧
  ascii_strptime_dmY "31/02/2024" = None ∧
  ascii_strptime_dmY "29/02/2024" = Some (2024, 2, 29) ∧
  ascii_strptime_dmY "29/02/2023" = None ∧
  ascii_strptime_dmY "32/01/2024" = None ∧
  ascii_strptime_dmY "3/10/2024" = Some (2024, 10, 3) ∧
  ascii_strptime_dmY "05/03/24" = None ∧
  ascii_strptime_dmY "05/03/2024 " = None ∧
  ascii_strptime_dmY "2024-03-05" = None ∧
  ascii_strptime_dmY "01/01/0000" = None ∧
  date_isoformat (987, 12, 31) = "0987-12-31".
Proof. repeat split; reflexivity. Qed.

(** The small run: the front page gives two distinct urls, both are
    requested, one article is kept and the other fails with a 404. *)
Example small_run :
  (@cascade demo_libs "front" (HOME +:+ "/") HOME 400).1 = [HtmlTier; RegexTier] ∧
  ∃ listing collected w',
    @collect_articles demo_libs demo_config KwNone "Europe/Madrid" world0
    = (Ok (listing, collected), w') ∧
    url <$> listing = [HOME +:+ "/a.html"; HOME +:+ "/b.html"] ∧
    art_url <$> collected = [HOME +:+ "/a.html"] ∧
    requests w' = [HOME +:+ "/"; HOME +:+ "/a.html"; HOME +:+ "/b.html"].
Proof.
  split; [by vm_compute|].
  eexists _, _, _. split; [vm_compute; reflexivity|].
  repeat split; reflexivity.
Qed.

(** ** The composer *)

Section ComposerFacts.
Context `{!Libs} `{!Config}.

(** C7: for a non-empty CNMV markup, when the marker occurs in the news
    artifact the markup and a line break stand right before its leftmost
    occurrence (the text before it is untouched, the text after it goes
    through the same replacement and is unchanged when the marker does not
    occur again); when the marker does not occur the result is the news
    artifact followed by the markup. *)
Theorem compose_places_cnmv_markup (html_news cnmv_html : string) :
  cnmv_html ≠ "" →
  (str_in BODY_END html_news = true →
   ∃ pre post,
     html_news = pre +:+ BODY_END +:+ post ∧
     str_find BODY_END html_news = Some (String.length pre) ∧
     compose html_news cnmv_html
     = pre +:+ cnmv_html +:+ nl +:+ BODY_END
           +:+ str_replace BODY_END (cnmv_html +:+ nl +:+ BODY_END) post ∧
     (str_in BODY_END post = false →
      compose html_news cnmv_html
      = pre +:+ cnmv_html +:+ nl +:+ BODY_END +:+ post)) ∧
  (str_in BODY_END html_news = false →
   compose html_news cnmv_html = html_news +:+ cnmv_html).
Proof.
  intros Hne. apply str_truthy_true in Hne.
  split; intros Hin; unfold compose; rewrite Hne, Hin; cbn [andb]; [|reflexivity].
  rewrite str_in_find in Hin.
  destruct (str_find BODY_END html_news) as [i|] eqn:Hf; [|discriminate].
  destruct (replace_scan_find _ _ (cnmv_html +:+ nl +:+ BODY_END) _ _ Hf)
    as (pre & post & Hs & Hlen & Hr).
  exists pre, post. split; [exact Hs|]. split; [by rewrite Hlen|].
  assert (Heq : str_replace BODY_END (cnmv_html +:+ nl +:+ BODY_END) html_news
                = pre +:+ cnmv_html +:+ nl +:+ BODY_END
                  +:+ str_replace BODY_END (cnmv_html +:+ nl +:+ BODY_END) post).
  { change (str_replace BODY_END ?n ?x) with (replace_scan BODY_END n 0 x).
    unfold BODY_END at 1. rewrite Hr. by rewrite !str_app_assoc. }
  split; [exact Heq|].
  intros Hpost. rewrite Heq. do 4 f_equal.
  rewrite str_in_find in Hpost.
  destruct (str_find BODY_END post) eqn:Hfp; [discriminate|].
  change (str_replace BODY_END ?n ?x) with (replace_scan BODY_END n 0 x).
  by apply replace_scan_absent.
Qed.

(** C10: with no issuer blocks the markup builder gives the empty string
    and the composed artifact is the news artifact itself; in a run, when
    the loop over the configured identifiers ends with no block, the report
    is the news artifact. *)
Theorem compose_without_blocks_is_identity (html_news : string) :
  build_html_cnmv [] = "" ∧
  compose html_news (build_html_cnmv []) = html_news ∧
  ∀ w blocks html w',
    final_html html_news w = (Ok (blocks, html), w') →
    blocks = [] → html = html_news.
Proof.
  assert (Hc : compose html_news "" = html_news).
  { unfold compose. simpl. apply str_app_nil_r. }
  split; [reflexivity|]. split; [exact Hc|].
  intros w blocks html w' Hrun Hnone.
  unfold final_html in Hrun. cbv [mbind M_bind bind mret M_ret ret] in Hrun.
  destruct (collect_cnmv_blocks CNMV_NIFS [] w) as [[bs|e] w1]; [|discriminate].
  injection Hrun as Hb Hh _. subst bs html. rewrite Hnone. exact Hc.
Qed.

End ComposerFacts.

(** ** The CNMV scraper *)

Ltac run_monad :=
  cbv [mbind M_bind bind mret M_ret ret try_except log raise] in *.

Lemma find_table_absent (ts : list table) :
  Forall (λ t, str_in MARKER_EN (stripped_text t) = false
               ∧ str_in MARKER_ES (stripped_text t) = false) ts →
  find_table ts = None.
Proof.
  induction 1 as [|t ts [Hen Hes] _ IH]; [reflexivity|].
  cbn [find_table]. by rewrite Hen, Hes.
Qed.


Section RowFacts.
Context `{!Libs} `{!Config}.






End RowFacts.

Section ScraperFacts.
Context `{!Libs} `{!Config}.

(** C8: for every identifier, language and state of the world the scraper
    returns and does not raise.  When the fetch raises, the result is
    absent and the failure is the one line logged; when the page is
    fetched and none of its tables holds the Spanish or the English
    marker, the result is a block with the identifier given and no rows. *)
Theorem scraper_never_raises (nif : string) (lang : option string) (w : world) :
  ∃ r w',
    get_cnmv_short_positions nif lang w = (Ok r, w') ∧
    (∀ e w1, http_get (cnmv_url nif lang) w = (Raise e, w1) →
       r = None ∧
       requests w' = requests w1 ∧
       logged w' = logged w1 ++ [LogCnmvDownload (cnmv_url nif lang) e]) ∧
    (∀ text w1, http_get (cnmv_url nif lang) w = (Ok text, w1) →
       Forall (λ t, str_in MARKER_EN (stripped_text t) = false
                    ∧ str_in MARKER_ES (stripped_text t) = false)
              (find_all_table (BeautifulSoup text)) →
       r = Some {| nif := nif; issuer := ""; block_url := cnmv_url nif lang;
                   rows := [] |}).
Proof.
  unfold get_cnmv_short_positions. run_monad.
  destruct (http_get (cnmv_url nif lang) w) as [[text|e] w1] eqn:Hget.
  - destruct (find_table (find_all_table (BeautifulSoup text))) as [t|] eqn:Hft.
    + eexists _, _. split; [reflexivity|]. split.
      * intros e' w2 Heq. discriminate.
      * intros text' w2 Heq Hall. injection Heq as <- <-.
        apply find_table_absent in Hall. congruence.
    + eexists _, _. split; [reflexivity|]. split.
      * intros e' w2 Heq. discriminate.
      * intros text' w2 Heq _. reflexivity.
  - eexists _, _. split; [reflexivity|]. split.
    + intros e' w2 Heq. injection Heq as <- <-. auto.
    + intros text' w2 Heq. discriminate.
Qed.

End ScraperFacts.

(** ** Listings *)

Section ListingFacts.
Context `{!Libs} `{!Config}.

(** C3: the HTML tier is entered exactly when the feed tier left no items
    (which includes the feed tier not being entered), the regex tier
    exactly when fewer than 5 items stand after the first two tiers, so in
    particular whenever they left none; the tiers entered come in the
    order feed, HTML, regex, and the items handed to the dedup are those
    of the last tier entered. *)
Theorem cascade_tiers (html url domain_prefix : string) (max_to_fetch : Z) :
  let entered := (cascade html url domain_prefix max_to_fetch).1 in
  let items := (cascade html url domain_prefix max_to_fetch).2 in
  let fed := after_feed html url max_to_fetch in
  let found := after_html html url domain_prefix max_to_fetch in
  (FeedTier ∈ entered ↔ has_feed_root (BeautifulSoup html) = true) ∧
  (HtmlTier ∈ entered ↔ fed = []) ∧
  (RegexTier ∈ entered ↔ (length found < 5)%nat) ∧
  (fed = [] → found = [] → RegexTier ∈ entered) ∧
  entered `sublist_of` [FeedTier; HtmlTier; RegexTier] ∧
  (fed ≠ [] → found = fed) ∧
  (fed = [] → found = html_tier url domain_prefix max_to_fetch (BeautifulSoup html) []) ∧
  ((length found < 5)%nat →
     items = regex_tier html url domain_prefix max_to_fetch found) ∧
  (¬ (length found < 5)%nat → items = found).
Proof.
  unfold cascade, after_html, after_feed.
  destruct (has_feed_root (BeautifulSoup html)) eqn:Hroot;
    [destruct (feed_tier url max_to_fetch (BeautifulSoup html)) as [|it fed] eqn:Hfeed|];
    cbn zeta; cbn [fst snd];
    match goal with
    | |- context [Z.of_nat (length ?l) <? 5] =>
        destruct (Z.ltb_spec (Z.of_nat (length l)) 5) as [Hlt|Hge]
    end;
    cbn [fst snd app];
    rewrite ?list_elem_of_In; cbn [In];
    repeat split; intros;
    try (by repeat (first [apply sublist_skip | apply sublist_cons | apply sublist_nil]));
    cbn [length] in *; try lia; try congruence;
    try (intuition (first [discriminate | congruence | lia]));
    repeat match goal with
           | E : html_tier _ _ _ _ _ = [] |- _ => rewrite E in *; clear E
           end;
    cbn [length] in *; lia.
Qed.

(** The request [http_get] makes. *)
Lemma http_get_world (u : string) (w : world) :
  requests (http_get u w).2 = requests w ++ [u] ∧ logged (http_get u w).2 = logged w.
Proof.
  unfold http_get. destruct (session_get _ _) as [|status text]; [done|].
  destruct (status =? 403); [done|].
  by destruct ((400 <=? status) && (status <? 600)).
Qed.

End ListingFacts.

(** *** The two dedup loops *)

Lemma dedup_global_NoDup (all_items : list item) (dedup : gset string) (out : list item) :
  NoDup (url <$> out) → (∀ it, it ∈ out → url it ∈ dedup) →
  NoDup (url <$> dedup_global all_items dedup out).
Proof.
  revert dedup out. induction all_items as [|it rest IH]; intros dedup out Hnd Hin;
    cbn [dedup_global]; [exact Hnd|].
  case_bool_decide as Hseen; [by apply IH|].
  apply IH.
  - rewrite fmap_app. apply NoDup_app. split; [exact Hnd|]. split.
    + intros u Hu Hu'. apply list_elem_of_fmap in Hu as (it' & -> & Hit').
      cbn in Hu'. apply list_elem_of_singleton in Hu'.
      apply Hseen. rewrite <- Hu'. by apply Hin.
    + cbn. apply NoDup_singleton.
  - intros it' Hit'. apply elem_of_app in Hit' as [Hit'|Hit'].
    + apply elem_of_union_r. by apply Hin.
    + apply list_elem_of_singleton in Hit' as ->. apply elem_of_union_l.
      by apply elem_of_singleton.
Qed.

Lemma dedup_global_extends (all_items : list item) (dedup : gset string) (out : list item) :
  out `prefix_of` dedup_global all_items dedup out.
Proof.
  revert dedup out. induction all_items as [|it rest IH]; intros dedup out;
    cbn [dedup_global]; [reflexivity|].
  case_bool_decide; [apply IH|].
  etrans; [|apply IH]. by apply prefix_app_r.
Qed.

Lemma dedup_capped_NoDup (max_to_fetch : Z) (items : list item) (seen : gset string)
    (out : list item) :
  NoDup (url <$> out) → (∀ it, it ∈ out → url it ∈ seen) →
  NoDup (url <$> dedup_capped max_to_fetch items seen out).
Proof.
  revert seen out. induction items as [|it rest IH]; intros seen out Hnd Hin;
    cbn [dedup_capped]; [exact Hnd|].
  case_bool_decide as Hseen; [by apply IH|].
  assert (Hnd' : NoDup (url <$> out ++ [it])).
  { rewrite fmap_app. apply NoDup_app. split; [exact Hnd|]. split.
    - intros u Hu Hu'. apply list_elem_of_fmap in Hu as (it' & -> & Hit').
      cbn in Hu'. apply list_elem_of_singleton in Hu'.
      apply Hseen. rewrite <- Hu'. by apply Hin.
    - cbn. apply NoDup_singleton. }
  destruct (reached max_to_fetch (out ++ [it])); [exact Hnd'|].
  apply IH; [exact Hnd'|].
  intros it' Hit'. apply elem_of_app in Hit' as [Hit'|Hit'].
  - apply elem_of_union_r. by apply Hin.
  - apply list_elem_of_singleton in Hit' as ->. apply elem_of_union_l.
    by apply elem_of_singleton.
Qed.

(** The capped loop stops on a prefix of what the uncapped one keeps:
    first occurrences, in the order found. *)
Lemma dedup_capped_prefix (max_to_fetch : Z) (items : list item) (seen : gset string)
    (out : list item) :
  dedup_capped max_to_fetch items seen out `prefix_of` dedup_global items seen out.
Proof.
  revert seen out. induction items as [|it rest IH]; intros seen out;
    cbn [dedup_capped dedup_global]; [reflexivity|].
  case_bool_decide; [apply IH|].
  destruct (reached max_to_fetch (out ++ [it])); [|apply IH].
  apply dedup_global_extends.
Qed.

(** With a cap of at least one the output respects it. *)
Lemma dedup_capped_length (max_to_fetch : Z) (items : list item) (seen : gset string)
    (out : list item) :
  Z.of_nat (length out) < max_to_fetch →
  Z.of_nat (length (dedup_capped max_to_fetch items seen out)) ≤ max_to_fetch.
Proof.
  revert seen out. induction items as [|it rest IH]; intros seen out Hlt;
    cbn [dedup_capped]; [lia|].
  case_bool_decide; [by apply IH|].
  unfold reached.
  destruct (Z.leb_spec max_to_fetch (Z.of_nat (length (out ++ [it])))) as [Hle|Hgt].
  - rewrite length_app in *. cbn [length] in *. lia.
  - by apply IH.
Qed.

(** With a cap of zero or less the first item still gets through. *)
Lemma dedup_capped_nonpositive (max_to_fetch : Z) (it : item) (rest : list item) :
  max_to_fetch ≤ 0 → dedup_capped max_to_fetch (it :: rest) ∅ [] = [it].
Proof.
  intros Hmax. cbn [dedup_capped]. rewrite bool_decide_false by set_solver.
  unfold reached. cbn [app length].
  destruct (Z.leb_spec max_to_fetch (Z.of_nat 1)); [reflexivity | lia].
Qed.

Section RunFacts.
Context `{!Libs} `{!Config}.

Lemma listing_items_NoDup (html u domain_prefix : string) (max_to_fetch : Z) :
  NoDup (url <$> listing_items html u domain_prefix max_to_fetch).
Proof.
  unfold listing_items. apply dedup_capped_NoDup; [constructor|].
  intros it Hit. by apply elem_of_nil in Hit.
Qed.

Lemma listing_items_length (html u domain_prefix : string) (max_to_fetch : Z) :
  1 ≤ max_to_fetch →
  Z.of_nat (length (listing_items html u domain_prefix max_to_fetch)) ≤ max_to_fetch.
Proof.
  intros Hmax. unfold listing_items. apply dedup_capped_length. cbn. lia.
Qed.

End RunFacts.

(** C1: with [max_to_fetch = 0] the per-source resolution of a front page
    that links three times to two articles returns one item, more than
    the cap allows. *)
Theorem zero_cap_returns_one_item :
  ∃ it w',
    @parse_listing_document demo_libs (HOME +:+ "/") HOME 0 "example_listing" world0
    = (Ok [it], w') ∧
    url it = HOME +:+ "/a.html" ∧
    ¬ (Z.of_nat (length [it]) ≤ 0).
Proof.
  eexists _, _. split; [vm_compute; reflexivity|]. split; [reflexivity|].
  cbn. lia.
Qed.

(** ** The extraction loop *)






(** Every exception but the 403 takes the last branch of the two
    handlers that single it out. *)
Lemma not_403_branch {A} (e : exn) (on_403 : A) (other : exn → A) :
  e ≠ HTTPError (Some 403) →
  match e with
  | HTTPError (Some 403) => on_403
  | _ => other e
  end = other e.
Proof.
  intros Hne. destruct e as [[z|]| | | | | |]; try reflexivity.
  destruct z as [|p|p]; try reflexivity.
  repeat (destruct p as [p|p|]; try reflexivity).
  by destruct Hne.
Qed.

(** *** What [", ".join] accepts *)

Lemma texts_of_texts (l : list string) : texts_of (JStr <$> l) = Ok l.
Proof. induction l as [|s l IH]; [reflexivity|]. cbn. by rewrite IH. Qed.

Lemma texts_of_raise (names : list json) (e : exn) :
  texts_of names = Raise e → e = TypeError ∧ ∃ v, v ∈ names ∧ ∀ s, v ≠ JStr s.
Proof.
  induction names as [|v names IH]; cbn [texts_of]; [discriminate|].
  destruct v as [|b|n|x|s|l|items];
    try (intros [= <-]; split; [reflexivity|]; eexists; split; [by left | discriminate]).
  destruct (texts_of names) as [l'|e']; [discriminate|].
  intros [= <-]. destruct (IH eq_refl) as (-> & v & Hv & Hs).
  split; [reflexivity|]. exists v. split; [by right | exact Hs].
Qed.

Lemma py_or_text (s : string) : py_or (JStr s) (JStr "") = JStr s.
Proof. by destruct s. Qed.

Lemma py_or_default (v : json) (s : string) :
  py_or (if truthy v then v else JStr s) (JStr "") = if truthy v then v else JStr s.
Proof.
  destruct (truthy v) eqn:Hv; [|apply py_or_text]. unfold py_or. by rewrite Hv.
Qed.

Section LoopFacts.
Context `{!Libs} `{!Config}.




(** The author of the JSON-LD block raises only where [join] does: on a
    list one of whose entries yields a value that is truthy and no text. *)
Lemma jsonld_author_raise (auth : json) (e : exn) :
  jsonld_author auth = Raise e →
  e = TypeError ∧
  ∃ l x, auth = JList l ∧ x ∈ l ∧ truthy (pick_name x) = true ∧ ∀ s, pick_name x ≠ JStr s.
Proof.
  destruct auth as [|b|n|x|s|l|items]; try discriminate.
  cbn [jsonld_author]. unfold join_names.
  destruct (texts_of _) as [names|e'] eqn:Htexts; [discriminate|].
  intros [= <-]. apply texts_of_raise in Htexts as (-> & v & Hv & Hs).
  split; [reflexivity|].
  apply list_elem_of_In, filter_In in Hv as [Hv Htruthy].
  apply list_elem_of_In, list_elem_of_fmap in Hv as (x & -> & Hx).
  by exists l, x.
Qed.

Lemma jsonld_author_list (l : list json) (names : list string) :
  List.filter truthy (pick_name <$> l) = JStr <$> names →
  jsonld_author (JList l) = Ok (JStr (str_join ", " names)).
Proof.
  intros Hnames. cbn [jsonld_author]. unfold join_names.
  by rewrite Hnames, texts_of_texts.
Qed.

(** [extract_article] once the page is fetched: it raises what the author
    code raises, and else returns the record. *)
Lemma extract_article_fetched (u tzname : string) (w w1 : world) (html : string) :
  http_get u w = (Ok html, w1) →
  let meta := default [] (extract_jsonld html u) in
  let soup := BeautifulSoup html in
  match jsonld_author (dict_get "author" meta) with
  | Raise e => extract_article u tzname w = (Raise e, w1)
  | Ok author =>
      ∃ art,
        extract_article u tzname w = (Ok art, w1) ∧
        art_url art = u ∧ art_source art = "" ∧
        art_author art = (if truthy author then author else JStr (html_author soup)) ∧
        art_title art = (if truthy (dict_get "headline" meta) then dict_get "headline" meta
                         else JStr (text_of (select_h1 soup))) ∧
        art_content art = (if truthy (dict_get "articleBody" meta)
                           then dict_get "articleBody" meta
                           else JStr (strip (text_of (trafilatura_extract html u)))) ∧
        art_published art
        = isoformat <$>
            match normalize_datetime
                    (date_text (py_or (dict_get "datePublished" meta)
                                      (dict_get "dateModified" meta))) tzname with
            | Some dt => Some dt
            | None => extract_published_from_html soup tzname
            end
  end.
Proof.
  intros Hget. unfold extract_article.
  cbv [mbind M_bind mret M_ret bind try_except ret lift]. rewrite Hget. cbv zeta.
  destruct (jsonld_author _) as [author|e]; [|reflexivity].
  eexists. split; [reflexivity|]. cbn [art_url art_source art_author art_title
    art_content art_published].
  rewrite !py_or_default. by repeat split.
Qed.

Lemma extract_article_failed (u tzname : string) (w w1 : world) (e : exn) :
  http_get u w = (Raise e, w1) →
  extract_article u tzname w
  = (Raise (if decide (e = HTTPError (Some 403))
            then RuntimeError ("403 al abrir artículo: " +:+ u) else e), w1).
Proof.
  intros Hget. unfold extract_article.
  cbv [mbind M_bind mret M_ret bind try_except ret lift]. rewrite Hget.
  destruct (decide (e = HTTPError (Some 403))) as [->|Hne]; [reflexivity|].
  by rewrite (not_403_branch e _ (λ e, raise e) Hne).
Qed.

Lemma extract_article_world (u tzname : string) (w : world) :
  requests (extract_article u tzname w).2 = requests w ++ [u] ∧
  logged (extract_article u tzname w).2 = logged w.
Proof.
  destruct (http_get_world u w) as [Hreq Hlog].
  destruct (http_get u w) as [[html|e] w1] eqn:Hget; cbn [snd] in *.
  - pose proof (extract_article_fetched u tzname w w1 html Hget) as Hrun. cbv zeta in Hrun.
    destruct (jsonld_author _) as [author|e]; [destruct Hrun as (art & -> & _)|rewrite Hrun];
      by split.
  - rewrite (extract_article_failed u tzname w w1 e Hget). by split.
Qed.

Lemma extract_article_url (u tzname : string) (w w' : world) (art : article) :
  extract_article u tzname w = (Ok art, w') → art_url art = u.
Proof.
  intros Hrun. destruct (http_get u w) as [[html|e] w1] eqn:Hget.
  - pose proof (extract_article_fetched u tzname w w1 html Hget) as Hf. cbv zeta in Hf.
    destruct (jsonld_author _) as [author|e]; [|congruence].
    destruct Hf as (art' & Hrun' & Hurl & _). congruence.
  - rewrite (extract_article_failed u tzname w w1 e Hget) in Hrun. discriminate.
Qed.




End LoopFacts.

(** C9: a run without keywords over a listing of two urls, no url twice,
    starting from the empty set of seen urls.  The page of the first url
    carries a JSON-LD headline that is the number 2024 and a recent date:
    the article is extracted and passes the date check, the slice of its
    title for the log line raises [TypeError] outside the [try], and the
    run stops there.  The second url of the listing is never requested:
    the loop has not processed the listing. *)
Theorem numeric_headline_stops_the_run :
  kw_active (@make_kw_list demo_libs KwNone) = false ∧ load_state = ∅ ∧
  ∃ listing w1 w2,
    @parse_all_listings demo_libs latest_config world0 = (Ok listing, w1) ∧
    url <$> listing = [HOME +:+ "/n.html"; HOME +:+ "/b.html"] ∧
    @collect_articles demo_libs latest_config KwNone "Europe/Madrid" world0
    = (Raise TypeError, w2) ∧
    requests w2 = requests w1 ++ [HOME +:+ "/n.html"] ∧
    HOME +:+ "/b.html" ∉ requests w2.
Proof.
  split; [reflexivity|]. split; [reflexivity|].
  eexists _, _, _. split; [vm_compute; reflexivity|]. split; [reflexivity|].
  split; [vm_compute; reflexivity|]. split; [reflexivity|].
  cbn [requests]. rewrite list_elem_of_In. cbn [In].
  intros [H|[H|H]]; [discriminate H | discriminate H | exact H].
Qed.

(** ** The prefilter *)

Section PrefilterFacts.
Context `{!Libs} `{!Config}.

(** C2 (as the code has it): with active keywords the listing is replaced
    by its matching items exactly when their number is at least
    max(50, N / 5), N / 5 being a fifth of the listing's length rounded
    down, and is left whole otherwise; with 1000 items 60 matches leave it
    whole and 250 replace it. *)
Theorem prefilter_threshold (kw_list : option (list string)) (listing : list item) :
  kw_active kw_list = true →
  let pre := List.filter (kw_hits_item (default [] kw_list)) listing in
  let n := Z.of_nat (length listing) in
  let m := Z.of_nat (length pre) in
  (use_prefilter pre (length listing) = true ↔ Z.max 50 (n / 5) ≤ m) ∧
  (Z.max 50 (n / 5) ≤ m → prefilter kw_list listing = pre) ∧
  (m < Z.max 50 (n / 5) → prefilter kw_list listing = listing) ∧
  (n = 1000 → m = 60 → prefilter kw_list listing = listing) ∧
  (n = 1000 → m = 250 → prefilter kw_list listing = pre).
Proof.
  intros Hkw pre n m.
  assert (Huse : use_prefilter pre (length listing) = true ↔ Z.max 50 (n / 5) ≤ m).
  { unfold use_prefilter, thresh_rel, THRESH_ABS. apply Z.leb_le. }
  assert (Hyes : Z.max 50 (n / 5) ≤ m → prefilter kw_list listing = pre).
  { intros Hle. unfold prefilter. rewrite Hkw. fold pre.
    apply Huse in Hle. by rewrite Hle. }
  assert (Hno : m < Z.max 50 (n / 5) → prefilter kw_list listing = listing).
  { intros Hlt. unfold prefilter. rewrite Hkw. fold pre.
    assert (Hu : use_prefilter pre (length listing) = false).
    { apply not_true_iff_false. intros Hu. apply Huse in Hu. lia. }
    by rewrite Hu. }
  split; [exact Huse|]. split; [exact Hyes|]. split; [exact Hno|].
  split; intros Hn Hm.
  - apply Hno. rewrite Hn, Hm. reflexivity.
  - apply Hyes. rewrite Hn, Hm. by vm_compute.
Qed.

End PrefilterFacts.

(** C2, the claim as worded: 50 matches among 251 items are fewer than
    20% of them (50.2), yet the prefilter is applied. *)
Lemma prefilter_applied_below_twenty_percent :
  let pre := List.filter (@kw_hits_item demo_libs ["gas"]) listing_251 in
  length listing_251 = 251%nat ∧ length pre = 50%nat ∧
  use_prefilter pre (length listing_251) = true ∧
  @prefilter demo_libs (Some ["gas"]) listing_251 = pre ∧
  ¬ spec_prefilter_applies (length pre) (length listing_251).
Proof.
  cbv zeta. split; [reflexivity|]. split; [by vm_compute|].
  split; [by vm_compute|]. split; [by vm_compute|].
  intros [_ H]. vm_compute in H. by apply H.
Qed.

(** ** Recency *)

Section RecencyFacts.
Context `{!Libs} `{!Config}.

(** C6 (as the code has it): for windows other than 0, an instant recent
    at window [w] is recent at every larger window; an absent or empty
    timestamp is recent at no window. *)
Theorem is_recent_monotone (now : Z) (tzname : string) :
  (∀ dt_iso w w', w ≠ 0 → w' ≠ 0 → w < w' →
     is_recent now dt_iso tzname (Some w) = true →
     is_recent now dt_iso tzname (Some w') = true) ∧
  (∀ hours, is_recent now None tzname hours = false
            ∧ is_recent now (Some "") tzname hours = false).
Proof.
  split.
  - intros dt_iso w w' Hw Hw' Hlt. unfold is_recent.
    apply Z.eqb_neq in Hw, Hw'. rewrite Hw, Hw'.
    destruct (negb (str_truthy (text_of dt_iso))); [done|].
    destruct (dateparser_parse (text_of dt_iso)) as [[dt|]|e]; try done.
    destruct (tz_gettz tzname); [|done].
    rewrite !Z.leb_le. lia.
  - intros hours. split; reflexivity.
Qed.

End RecencyFacts.

(** C6, the claim as worded: an instant two hours old is recent at window
    0, which stands for the configured 24 hours, and not at window 1. *)
Lemma zero_window_is_not_monotone :
  0 < 1 ∧
  @is_recent demo_libs demo_config (T0 + 2 * HOUR)
    (Some "2024-03-05T10:00:00+00:00") "Europe/Madrid" (Some 0) = true ∧
  @is_recent demo_libs demo_config (T0 + 2 * HOUR)
    (Some "2024-03-05T10:00:00+00:00") "Europe/Madrid" (Some 1) = false.
Proof. split; [lia|]. split; by vm_compute. Qed.

(** ** The author of an article *)



Section AuthorFacts.
Context `{!Libs} `{!Config}.


End AuthorFacts.


(** ** The theorems at work on the small run *)

Lemma compose_places_cnmv_markup_witness :
  "<hr>" ≠ "" ∧
  (∃ pre post,
     PAGE = pre +:+ BODY_END +:+ post ∧
     str_find BODY_END PAGE = Some (String.length pre) ∧
     compose PAGE "<hr>"
     = pre +:+ "<hr>" +:+ nl +:+ BODY_END
           +:+ str_replace BODY_END ("<hr>" +:+ nl +:+ BODY_END) post ∧
     (str_in BODY_END post = false →
      compose PAGE "<hr>" = pre +:+ "<hr>" +:+ nl +:+ BODY_END +:+ post)) ∧
  compose "news" "<hr>" = "news" +:+ "<hr>".
Proof.
  assert (Hne : "<hr>" ≠ "") by discriminate.
  split; [exact Hne|]. split.
  - apply (proj1 (compose_places_cnmv_markup PAGE "<hr>" Hne)). reflexivity.
  - apply (proj2 (compose_places_cnmv_markup "news" "<hr>" Hne)). reflexivity.
Defined.

Lemma compose_without_blocks_is_identity_witness :
  ∃ html w',
    @final_html demo_libs quiet_config PAGE world0 = (Ok ([], html), w') ∧
    html = PAGE.
Proof.
  eexists _, _. split.
  - vm_compute. reflexivity.
  - eapply (proj2 (proj2 (@compose_without_blocks_is_identity demo_libs quiet_config PAGE))
              world0 []).
    + vm_compute. reflexivity.
    + reflexivity.
Defined.

Lemma scraper_never_raises_witness :
  (∃ w', @get_cnmv_short_positions demo_libs demo_config "B-2" None world0
         = (Ok None, w')) ∧
  (∃ w', @get_cnmv_short_positions demo_libs demo_config "A-1" None world0
         = (Ok (Some {| nif := "A-1"; issuer := ""; block_url := CNMV_EMPTY_URL;
                        rows := [] |}), w')).
Proof.
  split.
  - destruct (@scraper_never_raises demo_libs demo_config "B-2" None world0)
      as (r & w' & Hrun & Hfail & _).
    destruct (Hfail RequestException
                {| requests := [@cnmv_url demo_config "B-2" None]; logged := [] |} eq_refl)
      as (-> & _).
    exists w'. exact Hrun.
  - destruct (@scraper_never_raises demo_libs demo_config "A-1" None world0)
      as (r & w' & Hrun & _ & Hnone).
    rewrite (Hnone "cnmv" {| requests := [CNMV_EMPTY_URL]; logged := [] |} eq_refl
               (Forall_nil_2 _)) in Hrun.
    exists w'. exact Hrun.
Defined.

Lemma prefilter_threshold_witness :
  kw_active (Some ["gas"]) = true ∧
  @prefilter demo_libs (Some ["gas"]) listing_251
  = List.filter (@kw_hits_item demo_libs ["gas"]) listing_251.
Proof.
  split; [reflexivity|].
  apply (proj1 (proj2 (@prefilter_threshold demo_libs (Some ["gas"]) listing_251 eq_refl))).
  vm_compute. discriminate.
Defined.

Lemma is_recent_monotone_witness :
  3 ≠ 0 ∧ 5 ≠ 0 ∧ 3 < 5 ∧
  @is_recent demo_libs demo_config (T0 + 2 * HOUR)
    (Some "2024-03-05T10:00:00+00:00") "Europe/Madrid" (Some 3) = true ∧
  @is_recent demo_libs demo_config (T0 + 2 * HOUR)
    (Some "2024-03-05T10:00:00+00:00") "Europe/Madrid" (Some 5) = true.
Proof.
  assert (H3 : 3 ≠ 0) by discriminate.
  assert (H5 : 5 ≠ 0) by discriminate.
  assert (Hlt : 3 < 5) by reflexivity.
  assert (Hrec : @is_recent demo_libs demo_config (T0 + 2 * HOUR)
                   (Some "2024-03-05T10:00:00+00:00") "Europe/Madrid" (Some 3) = true)
    by (vm_compute; reflexivity).
  split; [exact H3|]. split; [exact H5|]. split; [exact Hlt|]. split; [exact Hrec|].
  exact (proj1 (@is_recent_monotone demo_libs demo_config (T0 + 2 * HOUR) "Europe/Madrid")
           _ 3 5 H3 H5 Hlt Hrec).
Defined.



(** * Further properties of the script *)

(** ** The configured identifiers and sources *)

Lemma drop_while_none {A} (p : A → bool) (l : list A) :
  Forall (λ x, p x = false) l → drop_while p l = l.
Proof. intros [|x l' Hx _]; [reflexivity|]. cbn [drop_while]. by rewrite Hx. Qed.

Lemma is_space_is_sep (ch : string) : is_space ch = true → is_sep ch = true.
Proof. intros Hc. unfold is_sep. rewrite Hc. by rewrite orb_true_r. Qed.

Lemma sep_free_chars (s : string) :
  sep_free s = true ↔ Forall (λ ch, is_sep ch = false) (utf8_chars s).
Proof.
  unfold sep_free. rewrite forallb_forall, Forall_forall. split; intros Hall ch Hch.
  - apply negb_true_iff, Hall. by apply list_elem_of_In.
  - apply negb_true_iff, Hall. by apply list_elem_of_In.
Qed.

Lemma sep_free_strip (s : string) : sep_free s = true → strip s = s.
Proof.
  intros Hs. apply sep_free_chars in Hs.
  assert (Hsp : Forall (λ ch, is_space ch = false) (utf8_chars s)).
  { eapply Forall_impl; [exact Hs|]. intros ch Hch.
    destruct (is_space ch) eqn:Hsp; [|reflexivity].
    apply is_space_is_sep in Hsp. congruence. }
  unfold strip. rewrite (drop_while_none _ _ Hsp), (drop_while_end_none _ _ Hsp).
  apply str_concat_chars.
Qed.

(** The fields [re.split] returns are made of characters of the text that
    are no separators. *)
Lemma re_split_seps_fields (chars field : list string) (in_run : bool) :
  chars_ok (field ++ chars) → Forall (λ ch, is_sep ch = false) field →
  Forall (λ p, sep_free p = true) (re_split_seps (str_concat field) in_run chars).
Proof.
  revert field in_run. induction chars as [|ch rest IH]; intros field in_run Hok Hfield.
  - cbn [re_split_seps]. constructor; [|constructor].
    rewrite app_nil_r in Hok. apply sep_free_chars. by rewrite utf8_chars_concat.
  - cbn [re_split_seps]. destruct (is_sep ch) eqn:Hch.
    + assert (Hrest : Forall (λ p, sep_free p = true) (re_split_seps "" true rest)).
      { apply (IH [] true); [|constructor].
        apply (chars_ok_suffix (field ++ [ch])). by rewrite <- app_assoc. }
      destruct in_run; [exact Hrest|]. constructor; [|exact Hrest].
      apply sep_free_chars. apply chars_ok_prefix in Hok. by rewrite utf8_chars_concat.
    + replace (str_concat field +:+ ch) with (str_concat (field ++ [ch])).
      2: { rewrite str_concat_app. cbn [str_concat]. by rewrite str_app_nil_r. }
      apply IH; [by rewrite <- app_assoc|].
      apply Forall_app. split; [exact Hfield | by repeat constructor].
Qed.

Lemma stripped_nonblank_clean (parts : list string) :
  Forall (λ nif, nif ≠ "" ∧ strip nif = nif) (stripped_nonblank parts).
Proof.
  unfold stripped_nonblank. apply Forall_forall. intros nif Hnif.
  apply list_elem_of_fmap in Hnif as (p & -> & Hp).
  apply list_elem_of_In, filter_In in Hp as [_ Hp].
  split; [by apply str_truthy_true | apply strip_idem].
Qed.

Lemma stripped_nonblank_sep_free (parts : list string) :
  Forall (λ p, sep_free p = true) parts →
  Forall (λ nif, sep_free nif = true) (stripped_nonblank parts).
Proof.
  intros Hall. unfold stripped_nonblank. apply Forall_forall. intros nif Hnif.
  apply list_elem_of_fmap in Hnif as (p & -> & Hp).
  apply list_elem_of_In, filter_In in Hp as [Hp _].
  apply list_elem_of_In in Hp.
  rewrite Forall_forall in Hall. specialize (Hall p Hp).
  by rewrite (sep_free_strip p Hall).
Qed.

(** X1: whatever the configured value, every identifier
    [_normalize_cnmv_nifs] returns is non-empty and carries no white space
    at either end; read from a str, it holds no comma, no semicolon and no
    white-space character at all, the no-break space and the other
    white space of Unicode included. *)
Theorem normalized_nifs_are_clean :
  (∀ raw, Forall (λ nif, nif ≠ "" ∧ strip nif = nif) (_normalize_cnmv_nifs raw)) ∧
  (∀ raw, Forall (λ nif, sep_free nif = true) (_normalize_cnmv_nifs (NifsStr raw))) ∧
  _normalize_cnmv_nifs (NifsStr ("A-1" +:+ NBSP +:+ "B-2;" +:+ nl +:+ " C-3 ,"))
  = ["A-1"; "B-2"; "C-3"].
Proof.
  split; [|split; [|reflexivity]].
  - intros [raw|raw|]; cbn [_normalize_cnmv_nifs]; [|apply stripped_nonblank_clean|constructor].
    destruct (str_truthy raw); [apply stripped_nonblank_clean | constructor].
  - intros raw. cbn [_normalize_cnmv_nifs].
    destruct (str_truthy raw); [|constructor].
    apply stripped_nonblank_sep_free.
    apply (re_split_seps_fields (utf8_chars raw) [] false); [|constructor].
    apply utf8_chars_ok.
Qed.

Lemma re_split_seps_field (field rest : list string) (cur : string) :
  Forall (λ ch, is_sep ch = false) field →
  re_split_seps cur false (field ++ rest) = re_split_seps (cur +:+ str_concat field) false rest.
Proof.
  intros Hfield. revert cur. induction Hfield as [|ch field Hch _ IH]; intros cur.
  - cbn [app str_concat]. by rewrite str_app_nil_r.
  - cbn [app re_split_seps str_concat]. rewrite Hch, IH. by rewrite str_app_assoc.
Qed.

Lemma re_split_seps_first_field (p : string) (rest : list string) (in_run : bool) :
  p ≠ "" → sep_free p = true →
  re_split_seps "" in_run (utf8_chars p ++ rest) = re_split_seps p false rest.
Proof.
  intros Hne Hp. apply sep_free_chars in Hp.
  destruct p as [|c p]; [done|].
  destruct (utf8_chars_cons c p) as (t & more & Heq & _).
  pose proof (str_concat_chars (String c p)) as Hcat.
  rewrite Heq in Hp, Hcat |- *. apply Forall_cons in Hp as [Hch Hmore].
  cbn [app re_split_seps]. rewrite Hch, str_app_nil_l.
  rewrite (re_split_seps_field more rest _ Hmore). by rewrite <- Hcat.
Qed.

Lemma starts_cont_app (a b : string) : a ≠ "" → starts_cont (a +:+ b) = starts_cont a.
Proof. intros Ha. destruct a; [done|]. by rewrite str_app_cons. Qed.

Lemma starts_cont_join (sep p : string) (l : list string) :
  p ≠ "" → starts_cont (str_join sep (p :: l)) = starts_cont p.
Proof.
  intros Hp. destruct l as [|q l]; [reflexivity|].
  cbn [str_join]. by apply starts_cont_app.
Qed.

Lemma re_split_seps_join (l : list string) (in_run : bool) :
  l ≠ [] → Forall (λ p, p ≠ "" ∧ starts_cont p = false ∧ sep_free p = true) l →
  re_split_seps "" in_run (utf8_chars (str_join ", " l)) = l.
Proof.
  intros Hne Hall. revert in_run.
  induction Hall as [|p l (Hp & Hstart & Hfree) Hall IH]; intros in_run; [done|].
  destruct l as [|q l].
  - cbn [str_join]. rewrite <- (app_nil_r (utf8_chars p)).
    by rewrite (re_split_seps_first_field p [] in_run Hp Hfree).
  - change (str_join ", " (p :: q :: l)) with (p +:+ ", " +:+ str_join ", " (q :: l)).
    assert (Hq : starts_cont (str_join ", " (q :: l)) = false).
    { apply Forall_cons in Hall as [(Hq & Hqs & _) _]. by rewrite starts_cont_join. }
    rewrite (utf8_chars_app p) by by rewrite str_app_cons.
    rewrite (re_split_seps_first_field p _ in_run Hp Hfree).
    change (", " +:+ str_join ", " (q :: l))
      with ("," +:+ (" " +:+ str_join ", " (q :: l))).
    rewrite (utf8_chars_app ",") by by rewrite str_app_cons.
    rewrite (utf8_chars_app " " _ Hq).
    change (utf8_chars ",") with [","]. change (utf8_chars " ") with [" "].
    cbn [app re_split_seps]. change (is_sep ",") with true. change (is_sep " ") with true.
    cbv iota. f_equal. by apply IH.
Qed.

Lemma stripped_nonblank_id (l : list string) :
  Forall (λ p, p ≠ "" ∧ starts_cont p = false ∧ sep_free p = true) l →
  stripped_nonblank l = l.
Proof.
  unfold stripped_nonblank. induction 1 as [|p l (Hp & _ & Hfree) _ IH]; [reflexivity|].
  cbn [List.filter]. rewrite (sep_free_strip p Hfree).
  apply str_truthy_true in Hp. rewrite Hp. rewrite fmap_cons, IH.
  by rewrite (sep_free_strip p Hfree).
Qed.

(** X2: a list of identifiers, each a non-empty text free of commas,
    semicolons and white space, written as one str with a comma and a
    space between them, is read back by [_normalize_cnmv_nifs] as that
    same list; given as a collection it is returned unchanged. *)
Theorem normalize_nifs_round_trip (nifs : list string) :
  Forall (λ p, p ≠ "" ∧ starts_cont p = false ∧ sep_free p = true) nifs →
  _normalize_cnmv_nifs (NifsStr (str_join ", " nifs)) = nifs ∧
  _normalize_cnmv_nifs (NifsList nifs) = nifs.
Proof.
  intros Hall. split; [|by apply stripped_nonblank_id].
  cbn [_normalize_cnmv_nifs]. destruct nifs as [|p l]; [reflexivity|].
  assert (Htruthy : str_truthy (str_join ", " (p :: l)) = true).
  { apply Forall_cons in Hall as [[Hp _] _]. apply str_join_truthy.
    by apply str_truthy_true. }
  rewrite Htruthy, (re_split_seps_join (p :: l) false) by done.
  by apply stripped_nonblank_id.
Qed.

Lemma build_sources_acc (sources_raw : list source_raw) (sources : list source_cfg) :
  build_sources sources_raw sources = sources ++ omap source_of_raw sources_raw.
Proof.
  revert sources. induction sources_raw as [|s rest IH]; intros sources.
  - cbn. by rewrite app_nil_r.
  - cbn [build_sources omap list_omap]. unfold source_of_raw at 1.
    destruct (str_truthy (default "" (raw_url s))); cbn [negb].
    + rewrite IH, <- app_assoc. reflexivity.
    + apply IH.
Qed.

(** X3: [SOURCES] keeps the configured order and holds one entry per raw
    entry that has a non-empty url, none for the others; every entry's
    homepage is that non-empty url, its listing and domain prefix are the
    homepage unless configured, its name SIN_NOMBRE and its cap 400 unless
    configured. *)
Theorem build_sources_defaults (sources_raw : list source_raw) :
  let sources := build_sources sources_raw [] in
  sources = omap source_of_raw sources_raw ∧
  length sources
  = length (List.filter (λ s, str_truthy (default "" (raw_url s))) sources_raw) ∧
  Forall (λ src, src_homepage src ≠ "") sources ∧
  ∀ src, src ∈ sources →
    ∃ s, s ∈ sources_raw ∧ raw_url s = Some (src_homepage src) ∧
         src_listing src = default (src_homepage src) (raw_listing s) ∧
         src_domain_prefix src = default (src_homepage src) (raw_domain_prefix s) ∧
         src_name src = default "SIN_NOMBRE" (raw_name s) ∧
         src_max_to_fetch src = default 400 (raw_max_to_fetch s).
Proof.
  cbv zeta. rewrite build_sources_acc, app_nil_l.
  assert (Hof : ∀ s src, source_of_raw s = Some src →
            raw_url s = Some (src_homepage src) ∧ src_homepage src ≠ "" ∧
            src_listing src = default (src_homepage src) (raw_listing s) ∧
            src_domain_prefix src = default (src_homepage src) (raw_domain_prefix s) ∧
            src_name src = default "SIN_NOMBRE" (raw_name s) ∧
            src_max_to_fetch src = default 400 (raw_max_to_fetch s)).
  { intros s src. unfold source_of_raw.
    destruct (raw_url s) as [u|]; cbn [default from_option]; unfold id;
      [|discriminate].
    destruct (str_truthy u) eqn:Hu; [|discriminate].
    intros [= <-]. cbn. apply str_truthy_true in Hu. by repeat split. }
  split; [reflexivity|]. split.
  { induction sources_raw as [|s rest IH]; [reflexivity|].
    cbn [omap list_omap List.filter]. unfold source_of_raw at 1.
    destruct (str_truthy (default "" (raw_url s))); cbn [length]; by rewrite IH. }
  split.
  { apply Forall_forall. intros src Hsrc.
    apply list_elem_of_omap in Hsrc as (s & _ & Hs). by apply Hof in Hs as (_ & ? & _). }
  intros src Hsrc. apply list_elem_of_omap in Hsrc as (s & Hin & Hs).
  exists s. split; [exact Hin|]. apply Hof in Hs as (? & _ & ? & ? & ? & ?).
  by repeat split.
Qed.

(** ** Listing resolution *)

Lemma collect_Forall {C} (P : item → Prop) (mk : C → option item) (max_to_fetch : Z)
    (cands : list C) (items : list item) :
  (∀ c it, mk c = Some it → P it) → Forall P items →
  Forall P (collect mk max_to_fetch cands items).
Proof.
  intros Hmk. revert items. induction cands as [|c rest IH]; intros items Hitems;
    cbn [collect]; [exact Hitems|].
  destruct (mk c) as [it|] eqn:Hc; [|by apply IH].
  assert (Hnew : Forall P (items ++ [it])).
  { apply Forall_app. split; [exact Hitems|]. constructor; [by eapply Hmk | constructor]. }
  destruct (reached max_to_fetch (items ++ [it])); [exact Hnew | by apply IH].
Qed.

Lemma dedup_capped_elem (max_to_fetch : Z) (items : list item) (seen : gset string)
    (out : list item) (it : item) :
  it ∈ dedup_capped max_to_fetch items seen out → it ∈ out ∨ it ∈ items.
Proof.
  revert seen out. induction items as [|x rest IH]; intros seen out Hit;
    cbn [dedup_capped] in Hit; [by left|].
  case_bool_decide.
  - apply IH in Hit as [?|?]; [by left | right; by right].
  - destruct (reached max_to_fetch (out ++ [x])).
    + apply elem_of_app in Hit as [?|Hx]; [by left|].
      apply list_elem_of_singleton in Hx as ->. right. by left.
    + apply IH in Hit as [Hit|?]; [|right; by right].
      apply elem_of_app in Hit as [?|Hx]; [by left|].
      apply list_elem_of_singleton in Hx as ->. right. by left.
Qed.

Lemma dedup_global_elem (all_items : list item) (dedup : gset string) (out : list item)
    (it : item) :
  it ∈ dedup_global all_items dedup out → it ∈ out ∨ it ∈ all_items.
Proof.
  revert dedup out. induction all_items as [|x rest IH]; intros dedup out Hit;
    cbn [dedup_global] in Hit; [by left|].
  case_bool_decide.
  - apply IH in Hit as [?|?]; [by left | right; by right].
  - apply IH in Hit as [Hit|?]; [|right; by right].
    apply elem_of_app in Hit as [?|Hx]; [by left|].
    apply list_elem_of_singleton in Hx as ->. right. by left.
Qed.

Section ListingMore.
Context `{!Libs} `{!Config}.

Lemma non_article_false (u : string) :
  non_article u = false ↔
  str_in "/album/" u = false ∧ str_in "/video/" u = false
  ∧ str_in "/fotogaleria/" u = false.
Proof.
  unfold non_article. cbn [existsb]. rewrite !orb_false_iff. tauto.
Qed.

Lemma regex_urls_spec (base domain_prefix : string) (hrefs : list string)
    (urls : gset string) (u : string) :
  u ∈ regex_urls base domain_prefix hrefs urls ↔
  u ∈ urls ∨ ∃ href, href ∈ hrefs ∧ u = urljoin base href
                     ∧ startswith u domain_prefix = true ∧ non_article u = false.
Proof.
  revert urls. induction hrefs as [|href rest IH]; intros urls; cbn [regex_urls].
  - split; [by left|]. intros [?|(href & Hin & _)]; [done|]. by apply elem_of_nil in Hin.
  - destruct (startswith (urljoin base href) domain_prefix
              && negb (non_article (urljoin base href))) eqn:Hkeep; rewrite IH.
    + apply andb_true_iff in Hkeep as [Hpre Hart]. apply negb_true_iff in Hart.
      split.
      * intros [Hu|(h & Hin & Hrest)].
        -- apply elem_of_union in Hu as [Hu|Hu]; [|by left].
           apply elem_of_singleton in Hu as ->. right. exists href.
           split; [by left|]. by repeat split.
        -- right. exists h. split; [by right | exact Hrest].
      * intros [Hu|(h & Hin & Hrest)].
        -- left. by apply elem_of_union_r.
        -- apply elem_of_cons in Hin as [->|Hin].
           ++ destruct Hrest as (-> & _). left. apply elem_of_union_l.
              by apply elem_of_singleton.
           ++ right. by exists h.
    + split.
      * intros [Hu|(h & Hin & Hrest)]; [by left|].
        right. exists h. split; [by right | exact Hrest].
      * intros [Hu|(h & Hin & Hrest)]; [by left|].
        apply elem_of_cons in Hin as [->|Hin]; [|right; by exists h].
        destruct Hrest as (-> & Hpre & Hart). rewrite Hpre, Hart in Hkeep. done.
Qed.

(** X4: the urls [extract_urls_regex] returns are pairwise distinct, and a
    url is among them exactly when it is the join of the base with one of
    the hrefs found, starts with the domain prefix and holds none of
    /album/, /video/, /fotogaleria/. *)
Theorem extract_urls_regex_spec (html base domain_prefix : string) :
  NoDup (extract_urls_regex html base domain_prefix) ∧
  ∀ u, u ∈ extract_urls_regex html base domain_prefix ↔
       ∃ href, href ∈ findall_html_hrefs html ∧ u = urljoin base href
               ∧ startswith u domain_prefix = true
               ∧ str_in "/album/" u = false ∧ str_in "/video/" u = false
               ∧ str_in "/fotogaleria/" u = false.
Proof.
  unfold extract_urls_regex. split; [apply NoDup_elements|].
  intros u. rewrite elem_of_elements, regex_urls_spec. split.
  - intros [Hu|(href & Hin & Hu & Hpre & Hart)]; [by apply elem_of_empty in Hu|].
    exists href. apply non_article_false in Hart. tauto.
  - intros (href & Hin & Hu & Hpre & Hart). right. exists href.
    rewrite non_article_false. tauto.
Qed.

Lemma cascade_items (html u domain_prefix : string) (max_to_fetch : Z) :
  (cascade html u domain_prefix max_to_fetch).2
  = let found := after_html html u domain_prefix max_to_fetch in
    if Z.of_nat (length found) <? 5
    then regex_tier html u domain_prefix max_to_fetch found
    else found.
Proof.
  unfold cascade, after_html, after_feed.
  destruct (has_feed_root (BeautifulSoup html));
    [destruct (feed_tier u max_to_fetch (BeautifulSoup html))|];
    cbn zeta;
    match goal with
    | |- context [Z.of_nat (length ?l) <? 5] => destruct (Z.of_nat (length l) <? 5)
    end; reflexivity.
Qed.

(** X5: when the feed tier leaves no item, as it does for every document
    without an [rss] or [feed] element, each item the resolution returns
    has a url that starts with the domain prefix. *)
Theorem non_feed_items_stay_in_domain (html u domain_prefix : string) (max_to_fetch : Z) :
  (has_feed_root (BeautifulSoup html) = false → after_feed html u max_to_fetch = []) ∧
  (after_feed html u max_to_fetch = [] →
   Forall (λ it, startswith (url it) domain_prefix = true)
          (listing_items html u domain_prefix max_to_fetch)).
Proof.
  split; [intros Hroot; unfold after_feed; by rewrite Hroot|].
  intros Hfeed.
  assert (Hhtml : Forall (λ it, startswith (url it) domain_prefix = true)
                         (after_html html u domain_prefix max_to_fetch)).
  { unfold after_html. rewrite Hfeed. apply collect_Forall; [|constructor].
    intros a it. unfold html_item.
    destruct (str_truthy (text_of (a_href a))); [|discriminate].
    destruct (startswith _ domain_prefix) eqn:Hpre; [|discriminate].
    by intros [= <-]. }
  assert (Hall : Forall (λ it, startswith (url it) domain_prefix = true)
                        (cascade html u domain_prefix max_to_fetch).2).
  { rewrite cascade_items. cbv zeta.
    destruct (Z.of_nat (length _) <? 5); [|exact Hhtml].
    unfold regex_tier.
    assert (Hurls : Forall (λ x, startswith x domain_prefix = true)
                           (extract_urls_regex html u domain_prefix)).
    { apply Forall_forall. intros x Hx. unfold extract_urls_regex in Hx.
      apply elem_of_elements, regex_urls_spec in Hx as [Hx|(h & _ & _ & Hpre & _)];
        [by apply elem_of_empty in Hx | exact Hpre]. }
    revert Hhtml. generalize (after_html html u domain_prefix max_to_fetch).
    induction Hurls as [|x xs Hx _ IH]; intros items Hitems; cbn [collect regex_item];
      [exact Hitems|].
    assert (Hnew : Forall (λ it, startswith (url it) domain_prefix = true)
                     (items ++ [{| url := x; title := ""; time_hint := ""; source := None |}])).
    { apply Forall_app. split; [exact Hitems|]. by repeat constructor. }
    destruct (reached max_to_fetch _); [exact Hnew | by apply IH]. }
  apply Forall_forall. intros it Hit. unfold listing_items in Hit.
  apply dedup_capped_elem in Hit as [Hit|Hit]; [by apply elem_of_nil in Hit|].
  rewrite Forall_forall in Hall. by apply Hall.
Qed.

(** X6: for a cap of at least one the resolution of a fetched document
    returns at most that many items, no url twice, and they are the first
    items of what the dedup without a cap keeps: first occurrences, in the
    order the tiers found them. *)
Theorem listing_items_within_cap (html u domain_prefix : string) (max_to_fetch : Z) :
  1 ≤ max_to_fetch →
  let items := (cascade html u domain_prefix max_to_fetch).2 in
  let out := listing_items html u domain_prefix max_to_fetch in
  Z.of_nat (length out) ≤ max_to_fetch ∧
  NoDup (url <$> out) ∧
  out `prefix_of` dedup_global items ∅ [] ∧
  (∀ it, it ∈ out → it ∈ items).
Proof.
  intros Hmax items out. unfold out, listing_items. fold items.
  split; [apply dedup_capped_length; cbn; lia|].
  split. { apply dedup_capped_NoDup; [constructor|]. intros it Hit. by apply elem_of_nil in Hit. }
  split; [apply dedup_capped_prefix|].
  intros it Hit. apply dedup_capped_elem in Hit as [Hit|Hit]; [by apply elem_of_nil in Hit | exact Hit].
Qed.

End ListingMore.

Section SourcesMore.
Context `{!Libs} `{!Config}.

Lemma parse_listing_document_cases (u domain_prefix : string) (max_to_fetch : Z)
    (debug_name : string) (w : world) :
  (∀ w1, http_get u w = (Raise (HTTPError (Some 403)), w1) →
     parse_listing_document u domain_prefix max_to_fetch debug_name w
     = (Ok [], {| requests := requests w1;
                  logged := logged w1 ++ [LogSkip403 debug_name u] |})) ∧
  (∀ e w1, http_get u w = (Raise e, w1) → e ≠ HTTPError (Some 403) →
     parse_listing_document u domain_prefix max_to_fetch debug_name w = (Raise e, w1)) ∧
  (∀ html w1, http_get u w = (Ok html, w1) →
     parse_listing_document u domain_prefix max_to_fetch debug_name w
     = (Ok (listing_items html u domain_prefix max_to_fetch), w1)).
Proof.
  unfold parse_listing_document. cbv [mbind M_bind mret M_ret bind try_except ret].
  repeat split.
  - intros w1 ->. reflexivity.
  - intros e w1 -> Hne.
    rewrite (not_403_branch e _ (λ e, raise e) Hne). reflexivity.
  - intros html w1 ->. reflexivity.
Qed.

Lemma parse_listing_document_requests (u domain_prefix : string) (max_to_fetch : Z)
    (debug_name : string) (w : world) :
  requests (parse_listing_document u domain_prefix max_to_fetch debug_name w).2
  = requests w ++ [u].
Proof.
  destruct (parse_listing_document_cases u domain_prefix max_to_fetch debug_name w)
    as (H403 & Hother & Hok).
  destruct (http_get_world u w) as [Hreq _].
  destruct (http_get u w) as [[html|e] w1] eqn:Hget; cbn [snd] in Hreq.
  - by rewrite (Hok html w1 eq_refl).
  - destruct (decide (e = HTTPError (Some 403))) as [->|Hne].
    + by rewrite (H403 w1 eq_refl).
    + by rewrite (Hother e w1 eq_refl Hne).
Qed.

(** X7: [parse_listing_document] makes exactly one request.  A 403,
    whatever the body of the response, gives an empty list and one log
    line instead of an exception; any other failure of the fetch is raised
    unchanged, with nothing logged; nothing is logged for a document that
    is fetched. *)
Theorem parse_listing_document_outcomes (u domain_prefix : string) (max_to_fetch : Z)
    (debug_name : string) (w : world) :
  requests (parse_listing_document u domain_prefix max_to_fetch debug_name w).2
  = requests w ++ [u] ∧
  (∀ text, session_get (length (requests w)) u = Response 403 text →
     ∃ w', parse_listing_document u domain_prefix max_to_fetch debug_name w = (Ok [], w')
           ∧ logged w' = logged w ++ [LogSkip403 debug_name u]) ∧
  (∀ e w1, http_get u w = (Raise e, w1) → e ≠ HTTPError (Some 403) →
     parse_listing_document u domain_prefix max_to_fetch debug_name w = (Raise e, w1)
     ∧ logged w1 = logged w) ∧
  (∀ html w1, http_get u w = (Ok html, w1) →
     logged (parse_listing_document u domain_prefix max_to_fetch debug_name w).2 = logged w).
Proof.
  destruct (parse_listing_document_cases u domain_prefix max_to_fetch debug_name w)
    as (H403 & Hother & Hok).
  destruct (http_get_world u w) as [_ Hlog].
  split; [apply parse_listing_document_requests|]. split; [|split].
  - intros text Hresp. eexists. split.
    + apply H403. unfold http_get. rewrite Hresp. reflexivity.
    + reflexivity.
  - intros e w1 Hget Hne. split; [by apply Hother|]. by rewrite Hget in Hlog.
  - intros html w1 Hget. rewrite (Hok html w1 Hget). by rewrite Hget in Hlog.
Qed.

End SourcesMore.

Section HomepageRetry.
Context `{!Libs} `{!Config}.

Lemma set_source_all (name : string) (items : list item) :
  Forall (λ it, source it = Some name) (set_source name <$> items).
Proof. apply Forall_fmap, Forall_forall. by intros it _. Qed.

(** X8: resolving a source never raises.  It requests the listing, and
    after it the homepage exactly when the listing gave an empty list
    without raising and the homepage is another url; when the two urls
    are the same there is one request.  Every item returned carries the
    source's name. *)
Theorem source_items_retries_homepage (src : source_cfg) (w : world) :
  let w0 := {| requests := requests w; logged := logged w ++ [LogSource (src_name src)] |} in
  let first := parse_listing_document (src_listing src) (src_domain_prefix src)
                 (src_max_to_fetch src) (lower (src_name src) +:+ "_listing") w0 in
  ∃ items w',
    source_items src w = (Ok items, w') ∧
    Forall (λ it, source it = Some (src_name src)) items ∧
    (src_homepage src = src_listing src →
       requests w' = requests w ++ [src_listing src]) ∧
    (first.1 = Ok [] → src_homepage src ≠ src_listing src →
       requests w' = requests w ++ [src_listing src; src_homepage src]) ∧
    (first.1 ≠ Ok [] → requests w' = requests w ++ [src_listing src]).
Proof.
  cbv zeta.
  pose proof (parse_listing_document_requests (src_listing src) (src_domain_prefix src)
                (src_max_to_fetch src) (lower (src_name src) +:+ "_listing")
                {| requests := requests w;
                   logged := logged w ++ [LogSource (src_name src)] |}) as Hreq1.
  unfold source_items.
  cbv [mbind M_bind mret M_ret bind try_except ret log].
  destruct (parse_listing_document (src_listing src) _ _ _ _) as [[items|e] w1];
    cbn [fst snd requests] in *.
  - destruct (bool_decide (length items = 0%nat)
              && negb (String.eqb (src_homepage src) (src_listing src))) eqn:Hretry.
    + apply andb_true_iff in Hretry as [Hempty Hdiff].
      apply bool_decide_eq_true in Hempty. apply negb_true_iff, String.eqb_neq in Hdiff.
      pose proof (parse_listing_document_requests (src_homepage src)
                    (src_domain_prefix src) (src_max_to_fetch src)
                    (lower (src_name src) +:+ "_home")
                    {| requests := requests w1;
                       logged := logged w1 ++ [LogHomepage (src_name src)] |}) as Hreq2.
      destruct (parse_listing_document (src_homepage src) _ _ _ _) as [[items2|e2] w2];
        cbn [fst snd requests] in *;
        (eexists _, _; split; [reflexivity|]; split; [apply set_source_all || constructor|];
         cbn [requests]; rewrite Hreq2, Hreq1, <- app_assoc;
         split; [by intros ?|]; split; [by intros _ _|];
         intros Hne; destruct items; [by destruct Hne | discriminate]).
    + eexists _, _. split; [reflexivity|]. split; [apply set_source_all|].
      cbn [requests]. rewrite Hreq1.
      split; [by intros _|]. split; [|by intros _].
      intros [= ->] Hdiff. apply String.eqb_neq in Hdiff.
      cbn in Hretry. by rewrite Hdiff in Hretry.
  - eexists _, _. split; [reflexivity|]. split; [constructor|].
    cbn [requests]. rewrite Hreq1.
    split; [by intros _|]. split; [by intros [=]|by intros _].
Qed.

End HomepageRetry.

Section AggregateMore.
Context `{!Libs} `{!Config}.

Lemma source_items_run (src : source_cfg) (w : world) :
  ∃ items w' more,
    source_items src w = (Ok items, w') ∧
    Forall (λ it, source it = Some (src_name src)) items ∧
    requests w' = requests w ++ src_listing src :: more.
Proof.
  pose proof (parse_listing_document_requests (src_listing src) (src_domain_prefix src)
                (src_max_to_fetch src) (lower (src_name src) +:+ "_listing")
                {| requests := requests w;
                   logged := logged w ++ [LogSource (src_name src)] |}) as Hreq1.
  unfold source_items.
  cbv [mbind M_bind mret M_ret bind try_except ret log].
  destruct (parse_listing_document (src_listing src) _ _ _ _) as [[items|e] w1];
    cbn [fst snd requests] in *.
  - destruct (bool_decide (length items = 0%nat) && _).
    + pose proof (parse_listing_document_requests (src_homepage src)
                    (src_domain_prefix src) (src_max_to_fetch src)
                    (lower (src_name src) +:+ "_home")
                    {| requests := requests w1;
                       logged := logged w1 ++ [LogHomepage (src_name src)] |}) as Hreq2.
      destruct (parse_listing_document (src_homepage src) _ _ _ _) as [[items2|e2] w2];
        cbn [fst snd requests] in *;
        (eexists _, _, [src_homepage src]; split; [reflexivity|];
         split; [apply set_source_all || constructor|];
         cbn [requests]; by rewrite Hreq2, Hreq1, <- app_assoc).
    + eexists _, _, []. split; [reflexivity|]. split; [apply set_source_all|].
      cbn [requests]. exact Hreq1.
  - eexists _, _, []. split; [reflexivity|]. split; [constructor|].
    cbn [requests]. exact Hreq1.
Qed.

Lemma all_source_items_run (known srcs : list source_cfg) (all_items : list item)
    (w : world) :
  (∀ src, src ∈ srcs → src ∈ known) →
  Forall (λ it, ∃ src, src ∈ known ∧ source it = Some (src_name src)) all_items →
  ∃ out w' more,
    all_source_items srcs all_items w = (Ok out, w') ∧
    Forall (λ it, ∃ src, src ∈ known ∧ source it = Some (src_name src)) out ∧
    requests w' = requests w ++ more ∧
    (∀ src, src ∈ srcs → src_listing src ∈ more).
Proof.
  revert all_items w. induction srcs as [|src rest IH]; intros all_items w Hknown Hall.
  - exists all_items, w, []. split; [reflexivity|]. split; [exact Hall|].
    split; [by rewrite app_nil_r|]. intros src Hsrc. by apply elem_of_nil in Hsrc.
  - destruct (source_items_run src w) as (items & w1 & more1 & Hrun & Htag & Hreq1).
    destruct (IH (all_items ++ items) w1) as (out & w' & more & Hrest & Hout & Hreq & Hasked).
    { intros s Hs. apply Hknown. by right. }
    { apply Forall_app. split; [exact Hall|].
      eapply Forall_impl; [exact Htag|]. intros it Hit. exists src.
      split; [apply Hknown; by left | exact Hit]. }
    exists out, w', (src_listing src :: more1 ++ more).
    cbn [all_source_items]. cbv [mbind M_bind bind]. rewrite Hrun.
    split; [exact Hrest|]. split; [exact Hout|]. split.
    + rewrite Hreq, Hreq1, <- app_assoc. reflexivity.
    + intros s Hs. apply elem_of_cons in Hs as [->|Hs]; [by left|].
      right. apply elem_of_app. right. by apply Hasked.
Qed.

(** X9: [parse_all_listings] never raises, whatever the sources answer.
    The listing it returns has no url twice, each of its items carries the
    name of a configured source, and the listing url of every configured
    source has been requested: a source that fails stops neither the ones
    before it nor the ones after it. *)
Theorem parse_all_listings_isolates_sources (w : world) :
  ∃ listing w' more,
    parse_all_listings w = (Ok listing, w') ∧
    NoDup (url <$> listing) ∧
    (∀ it, it ∈ listing → ∃ src, src ∈ SOURCES ∧ source it = Some (src_name src)) ∧
    requests w' = requests w ++ more ∧
    (∀ src, src ∈ SOURCES → src_listing src ∈ more).
Proof.
  destruct (all_source_items_run SOURCES SOURCES [] w) as
    (all_items & w1 & more & Hrun & Htag & Hreq & Hasked); [done|constructor|].
  unfold parse_all_listings. cbv [mbind M_bind mret M_ret bind ret log]. rewrite Hrun.
  eexists _, _, more. split; [reflexivity|]. split.
  { apply dedup_global_NoDup; [constructor|]. intros it Hit. by apply elem_of_nil in Hit. }
  split; [|split; [exact Hreq | exact Hasked]].
  intros it Hit. apply dedup_global_elem in Hit as [Hit|Hit]; [by apply elem_of_nil in Hit|].
  rewrite Forall_forall in Htag. by apply Htag.
Qed.

End AggregateMore.

(** ** Articles and recency *)

Section ArticleMore.
Context `{!Libs} `{!Config}.

Lemma normalize_datetime_aware (p : option string) (tzname : string) (dt : datetime) :
  normalize_datetime p tzname = Some dt →
  ∃ parsed off,
    dateparser_parse (text_of p) = Ok (Some parsed) ∧
    dt_offset dt = Some off ∧
    dt_wall dt - off = dt_wall parsed - default 0 (dt_offset parsed) ∧
    off = match tz_gettz tzname with
          | Some zone => zone (dt_wall dt - off)
          | None => local_zone (dt_wall dt - off)
          end.
Proof.
  unfold normalize_datetime. destruct (str_truthy (text_of p)); [|discriminate].
  destruct (dateparser_parse (text_of p)) as [[parsed|]|e]; try discriminate.
  intros [= <-]. unfold astimezone. cbn [dt_offset dt_wall].
  eexists parsed, _. split; [reflexivity|]. split; [reflexivity|].
  assert (Hinst : ∀ i off' : Z, i + off' - off' = i) by (intros; lia).
  rewrite Hinst. split; [by destruct (dt_offset parsed)|].
  by destruct (tz_gettz tzname).
Qed.

(** X10: [normalize_datetime] gives nothing for an absent or empty text
    and for a text the parser rejects.  What it gives is always aware of
    its zone, the zone asked for (the local one when the name is unknown),
    and denotes the instant the parser read, a text without an offset
    being read as UTC. *)
Theorem normalize_datetime_resolves_zone (tzname : string) :
  normalize_datetime None tzname = None ∧
  normalize_datetime (Some "") tzname = None ∧
  (∀ s e, dateparser_parse s = Raise e → normalize_datetime (Some s) tzname = None) ∧
  (∀ s, dateparser_parse s = Ok None → normalize_datetime (Some s) tzname = None) ∧
  (∀ p dt, normalize_datetime p tzname = Some dt →
     ∃ parsed off,
       dateparser_parse (text_of p) = Ok (Some parsed) ∧
       dt_offset dt = Some off ∧
       dt_wall dt - off = dt_wall parsed - default 0 (dt_offset parsed) ∧
       off = match tz_gettz tzname with
             | Some zone => zone (dt_wall dt - off)
             | None => local_zone (dt_wall dt - off)
             end).
Proof.
  split; [reflexivity|]. split; [reflexivity|]. split; [|split].
  - intros s e He. unfold normalize_datetime. cbn [text_of default from_option]. unfold id.
    destruct (str_truthy s); [by rewrite He | reflexivity].
  - intros s He. unfold normalize_datetime. cbn [text_of default from_option]. unfold id.
    destruct (str_truthy s); [by rewrite He | reflexivity].
  - intros p dt. apply normalize_datetime_aware.
Qed.

Lemma published_from_aware (soup : soup) (tzname : string)
    (sels : list (string * list (string * string))) (dt : datetime) :
  published_from soup tzname sels = Some dt → ∃ off, dt_offset dt = Some off.
Proof.
  induction sels as [|[name attrs] rest IH]; cbn [published_from]; [discriminate|].
  destruct (soup_find soup name attrs) as [tag|]; [|exact IH].
  destruct (normalize_datetime _ tzname) as [dt'|] eqn:Hnorm; [|exact IH].
  intros [= ->]. apply normalize_datetime_aware in Hnorm as (_ & off & _ & Hoff & _).
  by exists off.
Qed.

Lemma texts_of_bad (names : list json) (v : json) :
  v ∈ names → (∀ s, v ≠ JStr s) → texts_of names = Raise TypeError.
Proof.
  intros Hin Hv. induction names as [|v' names IH]; [by apply elem_of_nil in Hin|].
  cbn [texts_of]. destruct v' as [|b|n|x|s|l|items]; try reflexivity.
  apply elem_of_cons in Hin as [->|Hin]; [by destruct (Hv s)|].
  by rewrite (IH Hin).
Qed.

Lemma picks_all_text (l : list json) :
  Forall (λ x, ∃ s, pick_name x = JStr s) l →
  ∃ names, List.filter truthy (pick_name <$> l) = JStr <$> names.
Proof.
  induction 1 as [|x l [s Hs] _ [names IH]]; [by exists []|].
  rewrite fmap_cons. cbn [List.filter]. rewrite Hs, IH.
  destruct (truthy (JStr s)); [by exists (s :: names) | by exists names].
Qed.

(** X11: [extract_article] makes exactly one request and logs nothing.
    It raises when the fetch does, a 403 as a RuntimeError that names the
    url and any other failure unchanged, and on a fetched page only with
    the TypeError of the join: that is raised exactly when the JSON-LD
    author is a list one of whose entries yields a value that is truthy
    and no text.  A record that is returned keeps the url asked for, and
    its publication time, when it has one, is the ISO text of a datetime
    that is aware of its zone. *)
Theorem extract_article_outcomes (u tzname : string) (w : world) :
  requests (extract_article u tzname w).2 = requests w ++ [u] ∧
  logged (extract_article u tzname w).2 = logged w ∧
  (∀ w1, http_get u w = (Raise (HTTPError (Some 403)), w1) →
     extract_article u tzname w
     = (Raise (RuntimeError ("403 al abrir artículo: " +:+ u)), w1)) ∧
  (∀ e w1, http_get u w = (Raise e, w1) → e ≠ HTTPError (Some 403) →
     extract_article u tzname w = (Raise e, w1)) ∧
  (∀ html w1, http_get u w = (Ok html, w1) →
     let auth := dict_get "author" (default [] (extract_jsonld html u)) in
     ((∀ l, auth = JList l → Forall (λ x, ∃ s, pick_name x = JStr s) l) →
        ∃ art, extract_article u tzname w = (Ok art, w1)) ∧
     (∀ l x, auth = JList l → x ∈ l → truthy (pick_name x) = true →
        (∀ s, pick_name x ≠ JStr s) →
        extract_article u tzname w = (Raise TypeError, w1)) ∧
     (∀ e w', extract_article u tzname w = (Raise e, w') →
        e = TypeError ∧ w' = w1 ∧
        ∃ l x, auth = JList l ∧ x ∈ l ∧ truthy (pick_name x) = true
               ∧ ∀ s, pick_name x ≠ JStr s)) ∧
  (∀ art w', extract_article u tzname w = (Ok art, w') →
     art_url art = u ∧
     ∀ p, art_published art = Some p →
       ∃ dt off, dt_offset dt = Some off ∧ p = isoformat dt).
Proof.
  destruct (extract_article_world u tzname w) as [Hreq Hlog].
  split; [exact Hreq|]. split; [exact Hlog|].
  split; [|split; [|split]].
  - intros w1 Hget. by rewrite (extract_article_failed u tzname w w1 _ Hget).
  - intros e w1 Hget Hne. rewrite (extract_article_failed u tzname w w1 _ Hget).
    by destruct (decide (e = HTTPError (Some 403))).
  - intros html w1 Hget auth.
    pose proof (extract_article_fetched u tzname w w1 html Hget) as Hrun.
    cbv zeta in Hrun. fold auth in Hrun. split; [|split].
    + intros Htext.
      assert (Hok : ∃ a, jsonld_author auth = Ok a).
      { destruct auth as [|b|n|x|s|l|items] eqn:Hauth; try by eexists.
        destruct (picks_all_text l (Htext l eq_refl)) as [names Hnames].
        rewrite (jsonld_author_list l names Hnames). by eexists. }
      destruct Hok as [a Ha]. rewrite Ha in Hrun.
      destruct Hrun as (art & Hart & _). by exists art.
    + intros l x Ha Hx Htruthy Hbad.
      assert (Hraise : jsonld_author auth = Raise TypeError).
      { rewrite Ha. cbn [jsonld_author]. unfold join_names.
        rewrite (texts_of_bad _ (pick_name x)); [reflexivity| |exact Hbad].
        apply list_elem_of_In, filter_In. split; [|exact Htruthy].
        apply list_elem_of_In, list_elem_of_fmap. by exists x. }
      by rewrite Hraise in Hrun.
    + intros e w' Hraise. destruct (jsonld_author auth) as [a|e'] eqn:Ha.
      * destruct Hrun as (art & Hart & _). congruence.
      * apply jsonld_author_raise in Ha as (-> & Hlist).
        rewrite Hrun in Hraise. injection Hraise as <- <-. by repeat split.
  - intros art w' Hart. split; [by apply (extract_article_url u tzname w w')|].
    destruct (http_get u w) as [[html|e] w1] eqn:Hget.
    2: { rewrite (extract_article_failed u tzname w w1 e Hget) in Hart. discriminate. }
    pose proof (extract_article_fetched u tzname w w1 html Hget) as Hrun.
    cbv zeta in Hrun. destruct (jsonld_author _) as [a|e]; [|congruence].
    destruct Hrun as (art' & Hart' & _ & _ & _ & _ & _ & Hpub).
    assert (art' = art) as -> by congruence.
    intros p Hp. rewrite Hpub in Hp.
    destruct (normalize_datetime _ tzname) as [dt|] eqn:Hnorm.
    + cbn in Hp. injection Hp as <-.
      apply normalize_datetime_aware in Hnorm as (_ & off & _ & Hoff & _).
      by exists dt, off.
    + destruct (extract_published_from_html _ tzname) as [dt|] eqn:Hhtml; [|discriminate].
      cbn in Hp. injection Hp as <-.
      apply published_from_aware in Hhtml as [off Hoff]. by exists dt, off.
Qed.


End ArticleMore.

(** ** The filters of [main] *)

Lemma filter_sublist {A} (f : A → bool) (l : list A) : List.filter f l `sublist_of` l.
Proof.
  induction l as [|x l IH]; cbn [List.filter]; [constructor|].
  destruct (f x); [by apply sublist_skip | by apply sublist_cons].
Qed.

Section FilterMore.
Context `{!Libs} `{!Config}.

(** X13: the prefilter only ever drops items, keeping the order of the
    rest; without active keywords it drops none; it leaves at least 50
    items, or the whole listing when that is shorter, so it empties no
    listing; and when it does drop items every item left names a keyword
    in its title or url. *)
Theorem prefilter_is_cautious (kw_list : option (list string)) (listing : list item) :
  prefilter kw_list listing `sublist_of` listing ∧
  (kw_active kw_list = false → prefilter kw_list listing = listing) ∧
  (Nat.min (length listing) 50 ≤ length (prefilter kw_list listing))%nat ∧
  (prefilter kw_list listing = [] ↔ listing = []) ∧
  (prefilter kw_list listing ≠ listing →
   Forall (λ it, kw_hits_item (default [] kw_list) it = true) (prefilter kw_list listing)).
Proof.
  unfold prefilter. destruct (kw_active kw_list).
  - cbv zeta. unfold use_prefilter, THRESH_ABS.
    destruct (Z.leb_spec (Z.max 50 (thresh_rel (length listing)))
                (Z.of_nat (length (List.filter (kw_hits_item (default [] kw_list)) listing))))
      as [Hle|Hlt].
    + split; [apply filter_sublist|]. split; [discriminate|]. split; [lia|]. split.
      * split.
        -- intros Hnil. rewrite Hnil in Hle. cbn [length] in Hle. lia.
        -- by intros ->.
      * intros _. apply Forall_forall. intros it Hit.
        by apply list_elem_of_In, filter_In in Hit as [_ Hit].
    + split; [reflexivity|]. split; [discriminate|]. split; [lia|]. split; [reflexivity|].
      by intros [].
  - split; [reflexivity|]. split; [reflexivity|]. split; [lia|]. split; [reflexivity|].
    by intros [].
Qed.








End FilterMore.

(** ** The CNMV blocks *)

Lemma prefix_refl (p : string) : String.prefix p p = true.
Proof. rewrite <- (str_app_nil_r p) at 2. apply prefix_app. Qed.

Lemma str_length_app (a b : string) :
  String.length (a +:+ b) = (String.length a + String.length b)%nat.
Proof.
  induction a as [|c a IH]; [reflexivity|].
  rewrite str_app_cons. cbn [String.length]. by rewrite IH.
Qed.

(** Replacing by a text at least as long never shortens. *)
Lemma replace_scan_grows (c : ascii) (old' new s : string) :
  (String.length (String c old') ≤ String.length new)%nat →
  (String.length s ≤ String.length (replace_scan (String c old') new 0 s))%nat.
Proof.
  intros Hlen. remember (String.length s) as n eqn:Hn. revert s Hn.
  induction n as [n IHn] using lt_wf_ind. intros s Hn.
  destruct (str_find (String c old') s) as [i|] eqn:Hfind.
  - destruct (replace_scan_find c old' new s i Hfind) as (pre & post & Hs & _ & Hr).
    rewrite Hr, !str_length_app.
    assert (Hn' : n = (String.length pre + (String.length (String c old')
                                            + String.length post))%nat).
    { by rewrite Hn, Hs, !str_length_app. }
    assert (Hrec : (String.length post < n)%nat).
    { rewrite Hn'. cbn [String.length]. lia. }
    specialize (IHn _ Hrec post eq_refl). lia.
  - rewrite (replace_scan_absent _ _ _ Hfind). lia.
Qed.

Section CnmvMore.
Context `{!Libs} `{!Config}.

Lemma find_issuer_spec (texts : list string) :
  find_issuer texts = "" ∨
  ∃ before after,
    texts = before ++ find_issuer texts :: after ∧
    str_in "posiciones cortas" (lower (find_issuer texts)) = false ∧
    str_in "short positions" (lower (find_issuer texts)) = false ∧
    Forall (λ t, t = "" ∨ str_in "posiciones cortas" (lower t) = true
                 ∨ str_in "short positions" (lower t) = true) before.
Proof.
  induction texts as [|text rest IH]; [by left|].
  cbn [find_issuer]. destruct (str_truthy text) eqn:Htext; cbn [negb].
  - destruct (str_in "posiciones cortas" (lower text)) eqn:Hes; cbn [orb].
    + destruct IH as [IH|(before & after & Hrest & H1 & H2 & Hskip)]; [by left|].
      right. exists (text :: before), after. split; [by rewrite Hrest at 1|].
      split; [exact H1|]. split; [exact H2|]. constructor; [auto | exact Hskip].
    + destruct (str_in "short positions" (lower text)) eqn:Hen.
      * destruct IH as [IH|(before & after & Hrest & H1 & H2 & Hskip)]; [by left|].
        right. exists (text :: before), after. split; [by rewrite Hrest at 1|].
        split; [exact H1|]. split; [exact H2|]. constructor; [auto | exact Hskip].
      * right. exists [], rest. split; [reflexivity|]. by repeat split.
  - apply str_truthy_false in Htext as ->.
    destruct IH as [IH|(before & after & Hrest & H1 & H2 & Hskip)]; [by left|].
    right. exists ("" :: before), after. split; [by rewrite Hrest at 1|].
    split; [exact H1|]. split; [exact H2|]. constructor; [auto | exact Hskip].
Qed.

Lemma get_cnmv_run (n : string) (lang : option string) (w : world) :
  ∃ r w',
    get_cnmv_short_positions n lang w = (Ok r, w') ∧
    requests w' = requests w ++ [cnmv_url n lang] ∧
    ∀ b, r = Some b →
      nif b = n ∧ block_url b = cnmv_url n lang ∧
      ∃ text, http_get (cnmv_url n lang) w = (Ok text, {| requests := requests w';
                                                          logged := logged w |}) ∧
              (rows b ≠ [] → ∃ t, find_table (find_all_table (BeautifulSoup text)) = Some t
                                  ∧ rows b = table_rows t) ∧
              (issuer b = "" ∨ issuer b = find_issuer (select_headings (BeautifulSoup text))).
Proof.
  unfold get_cnmv_short_positions.
  cbv [mbind M_bind mret M_ret bind try_except ret log].
  destruct (http_get_world (cnmv_url n lang) w) as [Hreq Hlog].
  destruct (http_get (cnmv_url n lang) w) as [[text|e] w1]; cbn [snd] in *.
  - assert (Hw1 : w1 = {| requests := requests w1; logged := logged w |}).
    { destruct w1 as [r l]. cbn in *. by rewrite Hlog. }
    destruct (find_table (find_all_table (BeautifulSoup text))) as [t|] eqn:Ht.
    + eexists _, _. split; [reflexivity|]. split; [exact Hreq|].
      intros b [= <-]. cbn [nif block_url rows issuer]. split; [reflexivity|].
      split; [reflexivity|]. exists text. split; [by rewrite <- Hw1|].
      split; [intros _; by exists t | by right].
    + eexists _, _. split; [reflexivity|]. cbn [requests]. split; [exact Hreq|].
      intros b [= <-]. cbn [nif block_url rows issuer]. split; [reflexivity|].
      split; [reflexivity|]. exists text. split; [by rewrite <- Hw1|].
      split; [done | by left].
  - eexists _, _. split; [reflexivity|]. cbn [requests]. split; [exact Hreq|]. discriminate.
Qed.

(** X15: the scraper makes exactly one request, to a url that starts with
    the base url and the identifier given.  A block it returns carries
    that identifier and that url; its rows, when it has any, are those of
    the first table that holds a marker; its issuer is empty or the first
    non-empty heading of the page that names neither short positions nor
    posiciones cortas. *)
Theorem scraper_block_facts (n : string) (lang : option string) (w : world) :
  String.prefix (CNMV_BASE_URL +:+ "?nif=" +:+ n) (cnmv_url n lang) = true ∧
  ∃ r w',
    get_cnmv_short_positions n lang w = (Ok r, w') ∧
    requests w' = requests w ++ [cnmv_url n lang] ∧
    ∀ b, r = Some b →
      nif b = n ∧ block_url b = cnmv_url n lang ∧
      ∃ text, http_get (cnmv_url n lang) w = (Ok text, {| requests := requests w';
                                                          logged := logged w |}) ∧
              (rows b ≠ [] → ∃ t, find_table (find_all_table (BeautifulSoup text)) = Some t
                                  ∧ rows b = table_rows t) ∧
              (issuer b = "" ∨
               ∃ before after,
                 select_headings (BeautifulSoup text) = before ++ issuer b :: after ∧
                 str_in "posiciones cortas" (lower (issuer b)) = false ∧
                 str_in "short positions" (lower (issuer b)) = false ∧
                 Forall (λ t, t = "" ∨ str_in "posiciones cortas" (lower t) = true
                              ∨ str_in "short positions" (lower t) = true) before).
Proof.
  split.
  { unfold cnmv_url. cbv zeta.
    match goal with |- context [if ?c then _ else _] => destruct c end;
      [apply prefix_app | apply prefix_refl]. }
  destruct (get_cnmv_run n lang w) as (r & w' & Hrun & Hreq & Hblock).
  exists r, w'. split; [exact Hrun|]. split; [exact Hreq|].
  intros b Hb. destruct (Hblock b Hb) as (Hnif & Hurl & text & Hget & Hrows & Hissuer).
  split; [exact Hnif|]. split; [exact Hurl|]. exists text. split; [exact Hget|].
  split; [exact Hrows|]. destruct Hissuer as [Hissuer|Hissuer]; [by left|].
  rewrite Hissuer. apply find_issuer_spec.
Qed.

Lemma filter_truthy_clean (nifs : list string) :
  Forall (λ n, n ≠ "" ∧ strip n = n) nifs →
  strip <$> List.filter str_truthy nifs = nifs.
Proof.
  induction 1 as [|n nifs [Hn Hstrip] _ IH]; [reflexivity|].
  cbn [List.filter]. apply str_truthy_true in Hn. rewrite Hn, fmap_cons, IH.
  by rewrite Hstrip.
Qed.

(** X16: the loop over the configured identifiers never raises.  It asks
    for each non-empty identifier once, stripped and in the configured
    order, whether or not earlier ones could be fetched, and the blocks
    it adds belong to those identifiers, in that order.  For identifiers
    as [_normalize_cnmv_nifs] leaves them none is passed over and the
    strip changes none. *)
Theorem collect_cnmv_blocks_asks_each (nifs : list string) (cnmv_blocks : list block)
    (w : world) :
  let asked := strip <$> List.filter str_truthy nifs in
  (∃ new w',
     collect_cnmv_blocks nifs cnmv_blocks w = (Ok (cnmv_blocks ++ new), w') ∧
     requests w' = requests w ++ ((λ n, cnmv_url n None) <$> asked) ∧
     (nif <$> new) `sublist_of` asked) ∧
  (Forall (λ n, n ≠ "" ∧ strip n = n) nifs → asked = nifs).
Proof.
  cbv zeta. split; [|apply filter_truthy_clean].
  revert cnmv_blocks w. induction nifs as [|n rest IH]; intros cnmv_blocks w.
  - exists [], w. rewrite !app_nil_r. split; [reflexivity|]. split; [reflexivity|]. constructor.
  - cbn [collect_cnmv_blocks List.filter]. destruct (str_truthy n); cbn [negb].
    + destruct (get_cnmv_run (strip n) None w) as (r & w1 & Hrun & Hreq & Hblock).
      cbv [mbind M_bind mret M_ret bind try_except ret]. rewrite Hrun.
      destruct r as [b|].
      * destruct (IH (cnmv_blocks ++ [b]) w1) as (new & w' & Hloop & Hreq' & Hsub).
        exists (b :: new), w'. rewrite Hloop, <- app_assoc. split; [reflexivity|].
        rewrite !fmap_cons. split; [by rewrite Hreq', Hreq, <- app_assoc|].
        destruct (Hblock b eq_refl) as (-> & _). by apply sublist_skip.
      * destruct (IH cnmv_blocks w1) as (new & w' & Hloop & Hreq' & Hsub).
        exists new, w'. rewrite Hloop. split; [reflexivity|].
        rewrite !fmap_cons. split; [by rewrite Hreq', Hreq, <- app_assoc|].
        by apply sublist_cons.
    + apply IH.
Qed.

(** X17: the CNMV markup is empty exactly when there is no block; with
    blocks it opens with the rule that sets the section apart, so the
    composed report then always differs from the news artifact. *)
Theorem build_html_cnmv_empty_iff (blocks : list block) :
  (build_html_cnmv blocks = "" ↔ blocks = []) ∧
  (blocks ≠ [] → String.prefix "<hr" (build_html_cnmv blocks) = true) ∧
  (blocks ≠ [] → ∀ html_news,
     String.length (compose html_news (build_html_cnmv blocks))
     ≠ String.length html_news).
Proof.
  assert (Hhr : blocks ≠ [] → ∃ rest, build_html_cnmv blocks = "<hr" +:+ rest).
  { intros Hne. destruct blocks as [|b bs]; [done|].
    unfold build_html_cnmv. cbn [app str_join].
    rewrite !str_app_assoc. by eexists. }
  split; [split|split].
  - intros Hempty. destruct blocks as [|b bs]; [reflexivity|].
    destruct (Hhr ltac:(done)) as [rest Hrest]. rewrite Hrest in Hempty.
    by rewrite str_app_cons in Hempty.
  - by intros ->.
  - intros Hne. destruct (Hhr Hne) as [rest ->]. apply prefix_app.
  - intros Hne html_news. destruct (Hhr Hne) as [rest Hrest].
    assert (Hmarkup : (0 < String.length (build_html_cnmv blocks))%nat).
    { rewrite Hrest, str_app_cons. cbn [String.length]. lia. }
    unfold compose. rewrite Hrest at 1. rewrite str_app_cons. cbn [str_truthy andb].
    destruct (str_in BODY_END html_news) eqn:Hin.
    + rewrite str_in_find in Hin.
      destruct (str_find BODY_END html_news) as [i|] eqn:Hfind; [|discriminate].
      destruct (replace_scan_find "<"%char "/body></html>"
                  (build_html_cnmv blocks +:+ nl +:+ BODY_END) html_news i Hfind)
        as (pre & post & Hs & _ & Hr).
      change (str_replace BODY_END ?x ?y) with (replace_scan BODY_END x 0 y).
      change BODY_END with (String "<"%char "/body></html>") at 1. rewrite Hr.
      assert (Hpost := replace_scan_grows "<"%char "/body></html>"
                         (build_html_cnmv blocks +:+ nl +:+ BODY_END) post).
      rewrite !str_length_app in Hpost.
      specialize (Hpost ltac:(unfold BODY_END; cbn [String.length]; lia)).
      assert (Hlen : String.length html_news
                     = (String.length pre + (14 + String.length post))%nat).
      { by rewrite Hs, !str_length_app. }
      rewrite Hlen, !str_length_app.
      unfold BODY_END in *. cbn [String.length nl] in *. lia.
    + rewrite str_length_app. lia.
Qed.

End CnmvMore.

(** ** The news artifact *)

Lemma has_char_app (c : ascii) (a b : string) :
  has_char c (a +:+ b) = has_char c a || has_char c b.
Proof.
  induction a as [|d a IH]; [reflexivity|].
  rewrite str_app_cons. cbn [has_char]. by rewrite IH, orb_assoc.
Qed.

Lemma has_char_take (c : ascii) (n : nat) (s : string) :
  has_char c s = false → has_char c (char_take n s) = false.
Proof.
  intros Hs. destruct (char_take_prefix n s) as [rest Heq].
  rewrite Heq, has_char_app in Hs. by apply orb_false_iff in Hs as [Hs _].
Qed.

Lemma first_line_no_newline (s : string) : has_char "010" (first_line s) = false.
Proof.
  induction s as [|c s IH]; [reflexivity|]. cbn [first_line].
  destruct (Ascii.eqb c "010") eqn:Hc; [reflexivity|].
  cbn [has_char]. by rewrite Hc, IH.
Qed.

(** X18: the summary shown for an article is never empty, has at most 303
    characters, counted as characters and not as bytes, and no line break.
    It is the fixed invitation to read on when the content is blank or
    begins with an empty line once stripped; otherwise it is the first
    line of the stripped content, whole when that has at most 300
    characters and else cut to its first 300 characters followed by three
    dots.  A first line of 200 accented letters, 400 bytes, is kept
    whole. *)
Theorem resumen_corto_shape (content : string) :
  let line := first_line (strip content) in
  resumen_corto content ≠ "" ∧
  (char_length (resumen_corto content) ≤ 303)%nat ∧
  has_char "010" (resumen_corto content) = false ∧
  (strip content = "" → resumen_corto content = READ_MORE) ∧
  (line = "" → resumen_corto content = READ_MORE) ∧
  (line ≠ "" → (char_length line ≤ 300)%nat → resumen_corto content = line) ∧
  ((300 < char_length line)%nat →
     resumen_corto content = char_take 300 line +:+ "..."
     ∧ char_length (resumen_corto content) = 303%nat) ∧
  resumen_corto (str_concat (replicate 200 A_ACUTE) +:+ nl +:+ "more")
  = str_concat (replicate 200 A_ACUTE).
Proof.
  cbv zeta. set (line := first_line (strip content)).
  assert (Hline : has_char "010" line = false) by apply first_line_no_newline.
  assert (Hcut : (300 < char_length line)%nat →
                 char_length (char_take 300 line +:+ "...") = 303%nat).
  { intros Hlong. rewrite char_length_app by reflexivity.
    rewrite char_take_length. change (char_length "...") with 3%nat. lia. }
  assert (Htruthy : (300 < char_length line)%nat →
                    str_truthy (char_take 300 line +:+ "...") = true).
  { intros Hlong. specialize (Hcut Hlong).
    destruct (char_take 300 line +:+ "...") eqn:Heq; [|reflexivity].
    cbn in Hcut. lia. }
  assert (Hres : resumen_corto content
                 = if (300 <? char_length line)%nat then char_take 300 line +:+ "..."
                   else if str_truthy line then line else READ_MORE).
  { unfold resumen_corto. cbv zeta. fold line.
    destruct (Nat.ltb_spec 300 (char_length line)) as [Hlong|Hshort]; [|reflexivity].
    by rewrite (Htruthy Hlong). }
  rewrite Hres.
  assert (Hblank : strip content = "" → line = "").
  { intros Hs. unfold line. by rewrite Hs. }
  assert (Hempty : line = "" →
            (if (300 <? char_length line)%nat then char_take 300 line +:+ "..."
             else if str_truthy line then line else READ_MORE) = READ_MORE).
  { by intros ->. }
  split; [|split; [|split; [|split; [|split; [|split; [|split]]]]]].
  - destruct (Nat.ltb_spec 300 (char_length line)) as [Hlong|Hshort].
    + by apply str_truthy_true, Htruthy.
    + destruct (str_truthy line) eqn:Hl; [by apply str_truthy_true | discriminate].
  - destruct (Nat.ltb_spec 300 (char_length line)) as [Hlong|Hshort].
    + rewrite (Hcut Hlong). lia.
    + destruct (str_truthy line); [lia|].
      replace (char_length READ_MORE) with 52%nat by (by vm_compute). lia.
  - destruct (Nat.ltb_spec 300 (char_length line)) as [Hlong|Hshort].
    + by rewrite has_char_app, (has_char_take _ _ _ Hline).
    + destruct (str_truthy line); [exact Hline | reflexivity].
  - intros Hs. by apply Hempty, Hblank.
  - exact Hempty.
  - intros Hne Hshort. apply str_truthy_true in Hne. rewrite Hne.
    destruct (Nat.ltb_spec 300 (char_length line)); [lia | reflexivity].
  - intros Hlong. destruct (Nat.ltb_spec 300 (char_length line)); [|lia].
    split; [reflexivity | by apply Hcut].
  - by vm_compute.
Qed.

Lemma str_in_suffix (p a : string) : str_in p (a +:+ p) = true.
Proof.
  induction a as [|c a IH].
  - rewrite str_app_nil_l. destruct p; cbn [str_in]; by rewrite prefix_refl.
  - rewrite str_app_cons. cbn [str_in]. rewrite IH.
    by destruct (String.prefix p (String c (a +:+ p))).
Qed.

Lemma page_ends_with_marker (now tzname body : string) :
  ∃ pre, page now tzname body = pre +:+ BODY_END.
Proof.
  unfold page. cbn [str_join]. rewrite <- !str_app_assoc. by eexists.
Qed.

Section ReportMore.
Context `{!Libs} `{!Config} `{!Formats}.

Lemma published_text_ok (a : article) :
  art_published a = None ∨ art_published a = Some "" ∨
  (∃ dt, dateparser_parse (default "" (art_published a)) = Ok (Some dt)) →
  ∃ p_h, published_text (art_published a) = Ok p_h.
Proof.
  unfold published_text. intros [->|[->|[dt Hdt]]]; [by eexists | by eexists |].
  destruct (str_truthy _); [rewrite Hdt|]; by eexists.
Qed.

Lemma content_text_ok (a : article) :
  truthy (art_content a) = false ∨ (∃ s, art_content a = JStr s) →
  ∃ content, content_text a = Ok content.
Proof.
  unfold content_text, py_or. intros [->|[s ->]]; [by eexists|].
  destruct (truthy (JStr s)); by eexists.
Qed.

Lemma content_text_bad (a : article) :
  truthy (art_content a) = true → (∀ s, art_content a ≠ JStr s) →
  content_text a = Raise AttributeError.
Proof.
  unfold content_text, py_or. intros -> Hbad.
  destruct (art_content a) as [|b|n|x|s|l|items]; try reflexivity. by destruct (Hbad s).
Qed.

Lemma article_blocks_showable (arts rest : list article) (blocks : list string) :
  Forall showable arts →
  ∃ out, article_blocks (arts ++ rest) blocks = article_blocks rest out.
Proof.
  intros Hall. revert blocks. induction Hall as [|a arts [Hp Hc] _ IH]; intros blocks.
  - by exists blocks.
  - destruct (published_text_ok a Hp) as [p_h Hp_h].
    destruct (content_text_ok a Hc) as [content Hcontent].
    cbn [app article_blocks]. rewrite Hp_h, Hcontent. apply IH.
Qed.

(** X19: the news artifact, whenever [build_html_multi] returns one, ends
    with the closing marker, so a non-empty CNMV markup is always placed
    inside it by replacement and never appended after it.  The function
    returns when every article's publication time is absent, empty or
    read by the parser and its content is falsy or a text, in particular
    for no articles; it raises AttributeError at the first article whose
    content is truthy and no text, when the articles before it can be
    shown and its own publication time can. *)
Theorem build_html_multi_closes_body (now : Z) (arts : list article) (tzname : string) :
  (∀ html, build_html_multi now arts tzname = Ok html →
     (∃ pre, html = pre +:+ BODY_END) ∧
     str_in BODY_END html = true ∧
     ∀ cnmv_html, cnmv_html ≠ "" →
       compose html cnmv_html
       = str_replace BODY_END (cnmv_html +:+ nl +:+ BODY_END) html) ∧
  (Forall showable arts → ∃ html, build_html_multi now arts tzname = Ok html) ∧
  (∀ before a after,
     arts = before ++ a :: after → Forall showable before →
     (art_published a = None ∨ art_published a = Some "" ∨
      ∃ dt, dateparser_parse (default "" (art_published a)) = Ok (Some dt)) →
     truthy (art_content a) = true → (∀ s, art_content a ≠ JStr s) →
     build_html_multi now arts tzname = Raise AttributeError) ∧
  (arts = [] →
   build_html_multi now arts tzname
   = Ok (page (strftime_minutes (astimezone now (tz_gettz tzname))) tzname NO_NEWS)).
Proof.
  split; [|split; [|split]].
  - intros html Hrun. unfold build_html_multi in Hrun. cbv zeta in Hrun.
    destruct (article_blocks arts []) as [blocks|e]; [|discriminate].
    injection Hrun as <-.
    destruct (page_ends_with_marker
                (strftime_minutes (astimezone now (tz_gettz tzname))) tzname
                (match blocks with [] => NO_NEWS | _ => str_join "" blocks end))
      as [pre Hpre].
    assert (Hin : str_in BODY_END (page (strftime_minutes (astimezone now (tz_gettz tzname)))
                    tzname (match blocks with [] => NO_NEWS | _ => str_join "" blocks end))
                  = true).
    { rewrite Hpre. apply str_in_suffix. }
    split; [by exists pre|]. split; [exact Hin|].
    intros cnmv_html Hne. unfold compose. apply str_truthy_true in Hne.
    by rewrite Hne, Hin.
  - intros Hall. unfold build_html_multi. cbv zeta.
    destruct (article_blocks_showable arts [] [] Hall) as [out Hout].
    rewrite app_nil_r in Hout. rewrite Hout. cbn [article_blocks]. by eexists.
  - intros before a after -> Hbefore Hp Htruthy Hbad. unfold build_html_multi. cbv zeta.
    destruct (article_blocks_showable before (a :: after) [] Hbefore) as [out ->].
    destruct (published_text_ok a Hp) as [p_h Hp_h].
    cbn [article_blocks]. by rewrite Hp_h, (content_text_bad a Htruthy Hbad).
  - intros ->. reflexivity.
Qed.

End ReportMore.

(** ** The composed report and the fields of a record *)

Lemma str_in_prefix (p s : string) : String.prefix p s = true → str_in p s = true.
Proof. intros Hp. destruct s; cbn [str_in]; by rewrite Hp. Qed.

Lemma str_in_app_r (p a s : string) : str_in p s = true → str_in p (a +:+ s) = true.
Proof.
  intros Hs. induction a as [|c a IH]; [exact Hs|].
  rewrite str_app_cons. cbn [str_in]. rewrite IH.
  by destruct (String.prefix p (String c (a +:+ s))).
Qed.

(** X20: whatever the news artifact, the composed report holds the CNMV
    markup, and it is never shorter than the news artifact. *)
Theorem compose_keeps_markup (html_news cnmv_html : string) :
  str_in cnmv_html (compose html_news cnmv_html) = true ∧
  (String.length html_news ≤ String.length (compose html_news cnmv_html))%nat.
Proof.
  unfold compose. destruct (str_truthy cnmv_html && str_in BODY_END html_news) eqn:Hc.
  - apply andb_true_iff in Hc as [_ Hin]. rewrite str_in_find in Hin.
    destruct (str_find BODY_END html_news) as [i|] eqn:Hfind; [|discriminate].
    destruct (replace_scan_find "<"%char "/body></html>"
                (cnmv_html +:+ nl +:+ BODY_END) html_news i Hfind)
      as (pre & post & Hs & _ & Hr).
    change (str_replace BODY_END ?x ?y) with (replace_scan BODY_END x 0 y).
    split.
    + change BODY_END with (String "<"%char "/body></html>") at 1. rewrite Hr.
      apply str_in_app_r. rewrite str_app_assoc. apply str_in_prefix, prefix_app.
    + apply (replace_scan_grows "<"%char "/body></html>").
      rewrite !str_length_app. unfold BODY_END. cbn [String.length]. lia.
  - split; [apply str_in_suffix|]. rewrite str_length_app. lia.
Qed.

Section FieldsMore.
Context `{!Libs} `{!Config}.

(** X21: a fetched page gives a record unless the join of an author
    list raises, so always when the JSON-LD author is no list.  In the
    record the JSON-LD headline and body are taken as they are, whatever
    their shape, when they are truthy.  Otherwise the title is the text of
    the first h1 (empty when there is none) and the content is the
    extracted main text without white space at either end (empty when
    nothing is extracted).  The source is left for the caller to set. *)
Theorem extract_article_fields (u tzname : string) (w w1 : world) (html : string) :
  http_get u w = (Ok html, w1) →
  let meta := default [] (extract_jsonld html u) in
  let headline := dict_get "headline" meta in
  let body := dict_get "articleBody" meta in
  ((∀ l, dict_get "author" meta ≠ JList l) →
     ∃ art, extract_article u tzname w = (Ok art, w1)) ∧
  ∀ art w',
    extract_article u tzname w = (Ok art, w') →
    w' = w1 ∧
    (truthy headline = true → art_title art = headline) ∧
    (truthy headline = false →
       art_title art = JStr (default "" (select_h1 (BeautifulSoup html)))) ∧
    (truthy body = true → art_content art = body) ∧
    (truthy body = false →
       ∃ text, art_content art = JStr text
               ∧ text = strip (default "" (trafilatura_extract html u))
               ∧ strip text = text) ∧
    art_source art = "".
Proof.
  intros Hget. cbv zeta.
  pose proof (extract_article_fetched u tzname w w1 html Hget) as Hrun. cbv zeta in Hrun.
  split.
  - intros Hnolist.
    destruct (dict_get "author" (default [] (extract_jsonld html u)))
      as [|b|n|x|s|l|items] eqn:Hauth;
      try (cbn [jsonld_author] in Hrun; destruct Hrun as (art & Hart & _); by exists art).
    by destruct (Hnolist l).
  - intros art w' Hart. destruct (jsonld_author _) as [author|e]; [|congruence].
    destruct Hrun as (art' & Hart' & _ & Hsource & _ & Htitle & Hcontent & _).
    assert (art' = art ∧ w1 = w') as [-> <-] by (split; congruence).
    split; [reflexivity|]. rewrite Htitle, Hcontent. unfold text_of.
    split; [by intros ->|]. split; [by intros ->|]. split; [by intros ->|].
    split; [|exact Hsource].
    intros ->. eexists. split; [reflexivity|]. split; [reflexivity | apply strip_idem].
Qed.

End FieldsMore.

(** ** The further theorems at work on sample inputs *)

Lemma normalize_nifs_round_trip_witness :
  Forall (λ p, p ≠ "" ∧ starts_cont p = false ∧ sep_free p = true)
         ["A-28294726"; "B-12345678"] ∧
  _normalize_cnmv_nifs (NifsStr "A-28294726, B-12345678") = ["A-28294726"; "B-12345678"] ∧
  _normalize_cnmv_nifs (NifsList ["A-28294726"; "B-12345678"])
  = ["A-28294726"; "B-12345678"].
Proof.
  assert (Hclean : Forall (λ p, p ≠ "" ∧ starts_cont p = false ∧ sep_free p = true)
                          ["A-28294726"; "B-12345678"]).
  { repeat constructor; discriminate. }
  split; [exact Hclean|].
  exact (normalize_nifs_round_trip ["A-28294726"; "B-12345678"] Hclean).
Defined.

Lemma listing_items_within_cap_witness :
  1 ≤ 1 ∧
  Z.of_nat (length (@listing_items demo_libs "front" (HOME +:+ "/") HOME 1)) ≤ 1 ∧
  NoDup (url <$> @listing_items demo_libs "front" (HOME +:+ "/") HOME 1).
Proof.
  assert (Hcap : 1 ≤ 1) by reflexivity.
  destruct (@listing_items_within_cap demo_libs "front" (HOME +:+ "/") HOME 1 Hcap)
    as (Hlen & Hnd & _).
  split; [exact Hcap|]. split; [exact Hlen | exact Hnd].
Defined.

Lemma non_feed_items_stay_in_domain_witness :
  Forall (λ it, startswith (url it) HOME = true)
         (@listing_items demo_libs "front" (HOME +:+ "/") HOME 400).
Proof.
  destruct (@non_feed_items_stay_in_domain demo_libs "front" (HOME +:+ "/") HOME 400)
    as [Hfeed Hall].
  apply Hall, Hfeed. reflexivity.
Defined.

Lemma parse_listing_document_outcomes_witness :
  (∃ w', @parse_listing_document strict_libs (HOME +:+ "/forbidden") HOME 400 "x" world0
         = (Ok [], w')
         ∧ logged w' = [LogSkip403 "x" (HOME +:+ "/forbidden")]) ∧
  @parse_listing_document strict_libs (HOME +:+ "/broken") HOME 400 "x" world0
  = (Raise (HTTPError (Some 500)), {| requests := [HOME +:+ "/broken"]; logged := [] |}).
Proof.
  split.
  - apply (proj1 (proj2 (@parse_listing_document_outcomes strict_libs
                           (HOME +:+ "/forbidden") HOME 400 "x" world0))
             "<h1>Forbidden</h1>").
    reflexivity.
  - apply (proj1 (proj2 (proj2 (@parse_listing_document_outcomes strict_libs
                                  (HOME +:+ "/broken") HOME 400 "x" world0))));
      [reflexivity | discriminate].
Defined.

Lemma source_items_retries_homepage_witness :
  ∃ items w',
    @source_items demo_libs retry_source world0 = (Ok items, w') ∧
    requests w' = [CNMV_EMPTY_URL; HOME +:+ "/"].
Proof.
  destruct (@source_items_retries_homepage demo_libs retry_source world0)
    as (items & w' & Hrun & _ & _ & Hretry & _).
  exists items, w'. split; [exact Hrun|].
  apply Hretry; [reflexivity | discriminate].
Defined.

Lemma extract_article_outcomes_witness :
  @extract_article strict_libs (HOME +:+ "/forbidden") "Europe/Madrid" world0
  = (Raise (RuntimeError ("403 al abrir artículo: " +:+ HOME +:+ "/forbidden")),
     {| requests := [HOME +:+ "/forbidden"]; logged := [] |}).
Proof.
  apply (proj1 (proj2 (proj2 (@extract_article_outcomes strict_libs (HOME +:+ "/forbidden")
                                "Europe/Madrid" world0)))).
  reflexivity.
Defined.



Lemma build_html_multi_closes_body_witness :
  (∃ html,
     @build_html_multi demo_libs demo_formats T0 [alpha_article] "Europe/Madrid" = Ok html ∧
     str_in BODY_END html = true ∧
     compose html "<hr>" = str_replace BODY_END ("<hr>" +:+ nl +:+ BODY_END) html) ∧
  (∃ w1,
     @extract_article demo_libs (HOME +:+ "/l.html") "Europe/Madrid" world0
     = (Ok (with_source "" delta_article), w1)) ∧
  @build_html_multi demo_libs demo_formats T0 [alpha_article; delta_article] "Europe/Madrid"
  = Raise AttributeError.
Proof.
  assert (Halpha : @showable demo_libs alpha_article).
  { split; [right; right; by eexists | right; by eexists]. }
  split; [|split].
  - destruct (@build_html_multi_closes_body demo_libs demo_formats T0 [alpha_article]
                "Europe/Madrid") as (Hends & Hruns & _).
    destruct Hruns as [html Hhtml]; [constructor; [exact Halpha | constructor]|].
    exists html. split; [exact Hhtml|].
    destruct (Hends html Hhtml) as (_ & Hin & Hcompose).
    split; [exact Hin|]. apply Hcompose. discriminate.
  - eexists. vm_compute. reflexivity.
  - apply (proj1 (proj2 (proj2 (@build_html_multi_closes_body demo_libs demo_formats T0
                                  [alpha_article; delta_article] "Europe/Madrid")))
             [alpha_article] delta_article []).
    + reflexivity.
    + constructor; [exact Halpha | constructor].
    + right; right. by eexists.
    + reflexivity.
    + discriminate.
Defined.

Lemma extract_article_fields_witness :
  ∃ art,
    @extract_article demo_libs (HOME +:+ "/a.html") "Europe/Madrid" world0
    = (Ok art, {| requests := [HOME +:+ "/a.html"]; logged := [] |}) ∧
    art_title art = JStr "Alpha" ∧ art_content art = JStr "Body text".
Proof.
  destruct (@extract_article_fields demo_libs (HOME +:+ "/a.html") "Europe/Madrid" world0
              {| requests := [HOME +:+ "/a.html"]; logged := [] |} "article" eq_refl)
    as (Hreturns & Hfields).
  destruct Hreturns as [art Hrun]; [discriminate|].
  destruct (Hfields art _ Hrun) as (_ & _ & Htitle & _ & Hbody & _).
  exists art. split; [exact Hrun|]. split.
  - apply Htitle. reflexivity.
  - destruct (Hbody eq_refl) as (text & -> & -> & _). reflexivity.
Defined.
